(** * EmotionMemCore: a shallow embedding of the save / search / batch /
    rate-limit pipeline, of the authentication and of the reply parser of
    the Claude client, and the properties checked against it.

    Conventions of the embedding.
    - A Python [str] is a list of Unicode code points ([pystr]); [len] is
      [length], [in] on strings is [str_contains].
    - A Python [float] (distances, scores, clock readings) is an exact
      rational ([Q]); only [+], [-] and comparisons are used on them.
    - A [dict] is a [gmap]; a [deque] of timestamps is a list whose head is
      the left end.
    - Provider and store calls go through a small state-and-exception monad
      that records every external call in a trace. *)

From Stdlib Require Import ZArith QArith List String Ascii Bool Lia Lqa.
From stdpp Require Import gmap strings list fin_maps.

Close Scope Q_scope.
Open Scope Z_scope.
Open Scope nat_scope.
Open Scope list_scope.

(* ===================================================================== *)
(** * Python strings *)
(* ===================================================================== *)

Module PyStr.

(** One element per Unicode code point. *)
Definition pystr := list N.

(** An ASCII literal as a [pystr]. *)
Definition str (s : string) : pystr :=
  List.map N_of_ascii (list_ascii_of_string s).

(** [str.isspace] on one code point. *)
Definition isspace (c : N) : bool :=
  ((9 <=? c) && (c <=? 13) || (28 <=? c) && (c <=? 32)
   || (c =? 133) || (c =? 160) || (c =? 5760)
   || (8192 <=? c) && (c <=? 8202)
   || (c =? 8232) || (c =? 8233) || (c =? 8239) || (c =? 8287)
   || (c =? 12288))%N.

Fixpoint lstrip (s : pystr) : pystr :=
  match s with
  | c :: s' => if isspace c then lstrip s' else s
  | [] => []
  end.

Definition rstrip (s : pystr) : pystr := rev (lstrip (rev s)).

(** [s.strip()] *)
Definition strip (s : pystr) : pystr := rstrip (lstrip s).

(** Truthiness of a string: [bool(s)]. *)
Definition truthy (s : pystr) : bool :=
  match s with [] => false | _ => true end.

Fixpoint startswith (s p : pystr) : bool :=
  match p, s with
  | [], _ => true
  | a :: p', b :: s' => (a =? b)%N && startswith s' p'
  | _ :: _, [] => false
  end.

Definition endswith (s p : pystr) : bool := startswith (rev s) (rev p).

(** [s[:-1]] *)
Definition drop_last (s : pystr) : pystr := removelast s.

(** [sub in s] *)
Fixpoint str_contains (s sub : pystr) : bool :=
  startswith s sub ||
  match s with
  | [] => false
  | _ :: s' => str_contains s' sub
  end.

Definition str_eqb (a b : pystr) : bool := bool_decide (a = b).

(** [x in xs] for a list of strings. *)
Definition list_contains (xs : list pystr) (x : pystr) : bool :=
  existsb (str_eqb x) xs.

(** [s.split(sep)] for a one-character separator: never the empty list. *)
Fixpoint split (sep : N) (s : pystr) : list pystr :=
  match s with
  | [] => [[]]
  | c :: s' =>
      if (c =? sep)%N then [] :: split sep s'
      else match split sep s' with
           | w :: ws => (c :: w) :: ws
           | [] => [[c]]
           end
  end.

(** [sep.join(xs)] for a one-character separator. *)
Fixpoint join (sep : N) (xs : list pystr) : pystr :=
  match xs with
  | [] => []
  | [x] => x
  | x :: xs' => x ++ sep :: join sep xs'
  end.

Definition comma : N := 44%N.

(** [len(s)] *)
Definition len {A} (xs : list A) : Z := Z.of_nat (length xs).

(** [c * n] for a one-character string [c]. *)
Definition replicate_char (c : N) (n : nat) : pystr := repeat c n.

End PyStr.
Import PyStr.

(* ===================================================================== *)
(** * api/schemas/emotion.py *)
(* ===================================================================== *)

Inductive Emotion : Set :=
  | JOY | HAPPINESS | EXCITEMENT | LOVE | GRATITUDE | HOPE | PRIDE | RELIEF
  | SATISFACTION | AMUSEMENT | CONFIDENCE | INSPIRATION
  | SADNESS | ANGER | FEAR | ANXIETY | FRUSTRATION | DISAPPOINTMENT
  | LONELINESS | GUILT | SHAME | REGRET | JEALOUSY
  | SURPRISE | CURIOSITY | CONFUSION | NOSTALGIA | EMPATHY | SYMPATHY
  | ANTICIPATION
  | MISCHIEF | SHYNESS | DETERMINATION | REUNION | FAREWELL | ENCOURAGEMENT
  | SUPPORT | TRUST.

Module EmotionEnum.

(** [emotion.value]: the Japanese tag, as code points. *)
Definition value (e : Emotion) : pystr :=
  (match e with
   | JOY => [21916; 12403]
   | HAPPINESS => [24184; 12379]
   | EXCITEMENT => [33288; 22894]
   | LOVE => [24859; 24773]
   | GRATITUDE => [24863; 35613]
   | HOPE => [24076; 26395]
   | PRIDE => [35463; 12426]
   | RELIEF => [23433; 24515]
   | SATISFACTION => [28288; 36275]
   | AMUSEMENT => [27005; 12375; 12373]
   | CONFIDENCE => [33258; 20449]
   | INSPIRATION => [24863; 21205]
   | SADNESS => [24754; 12375; 12415]
   | ANGER => [24594; 12426]
   | FEAR => [24656; 12428]
   | ANXIETY => [19981; 23433]
   | FRUSTRATION => [33499; 31435; 12385]
   | DISAPPOINTMENT => [22833; 26395]
   | LONELINESS => [23396; 29420]
   | GUILT => [32618; 24746; 24863]
   | SHAME => [24677]
   | REGRET => [24460; 24724]
   | JEALOUSY => [23241; 22956]
   | SURPRISE => [39514; 12365]
   | CURIOSITY => [22909; 22855; 24515]
   | CONFUSION => [22256; 24785]
   | NOSTALGIA => [25040; 12363; 12375; 12373]
   | EMPATHY => [20849; 24863]
   | SYMPATHY => [21516; 24773]
   | ANTICIPATION => [26399; 24453]
   | MISCHIEF => [12356; 12383; 12378; 12425; 24515]
   | SHYNESS => [24677; 12378; 12363; 12375; 12373]
   | DETERMINATION => [27770; 24847]
   | REUNION => [20877; 20250]
   | FAREWELL => [21029; 12428]
   | ENCOURAGEMENT => [21169; 12414; 12375]
   | SUPPORT => [25903; 12360]
   | TRUST => [20449; 38972]
   end)%N.

(** Iteration order of [for emotion in Emotion]: definition order. *)
Definition members : list Emotion :=
  [ JOY; HAPPINESS; EXCITEMENT; LOVE; GRATITUDE; HOPE; PRIDE; RELIEF;
    SATISFACTION; AMUSEMENT; CONFIDENCE; INSPIRATION;
    SADNESS; ANGER; FEAR; ANXIETY; FRUSTRATION; DISAPPOINTMENT;
    LONELINESS; GUILT; SHAME; REGRET; JEALOUSY;
    SURPRISE; CURIOSITY; CONFUSION; NOSTALGIA; EMPATHY; SYMPATHY;
    ANTICIPATION;
    MISCHIEF; SHYNESS; DETERMINATION; REUNION; FAREWELL; ENCOURAGEMENT;
    SUPPORT; TRUST ].

End EmotionEnum.

#[global] Instance Emotion_eq_dec : EqDecision Emotion.
Proof. solve_decision. Defined.

(* ===================================================================== *)
(** * core/llm/base.py *)
(* ===================================================================== *)

(** [list(set(xs))]: the language fixes the elements of the result (those
    of [xs], each once) and leaves their order to the hash table.  The
    order is an interface of the run-time, with one instance per process
    (string hashes are salted at start-up). *)
Class SetIteration := {
  list_of_set : list Emotion -> list Emotion;
  list_of_set_NoDup : forall xs, List.NoDup (list_of_set xs);
  list_of_set_elem : forall xs x, In x (list_of_set xs) <-> In x xs
}.

Module BaseLLM.
Section WithSetIteration.
Context {SI : SetIteration}.

(** The loop that collects every member whose tag occurs in the text. *)
Definition parsed_emotions (emotion_text : pystr) : list Emotion :=
  List.filter (fun emotion => str_contains emotion_text (EmotionEnum.value emotion))
              EmotionEnum.members.

Definition _extract_emotions (emotion_text : pystr) : list Emotion :=
  let emotions := parsed_emotions emotion_text in
  let unique_emotions := list_of_set emotions in
  firstn 5 unique_emotions.

Definition _validate_response (summary : pystr) (emotions : list Emotion) : bool :=
  if negb (truthy summary) || (length (strip summary) <? 10) then false
  else if match emotions with [] => true | _ => false end then false
  else if 300 <? length summary then false
  else true.

End WithSetIteration.
End BaseLLM.

(* ===================================================================== *)
(** * Exceptions, messages and the effect monad *)
(* ===================================================================== *)

(** The texts the code puts in [detail=] and [error=].  A literal of the
    source is one constructor (its wording is in the comment); an f-string
    with [str(e)] inside carries the text of [e]. *)
Inductive Text : Type :=
  | Raw (s : pystr)                  (* text that comes from outside this code *)
  | UserMessageEmpty                 (* "user_messageが空です" *)
  | AiMessageEmpty                   (* "ai_messageが空です" *)
  | UserMessageTooLong (max : Z)     (* f"user_messageが長すぎます（最大{max}文字）" *)
  | AiMessageTooLong (max : Z)       (* f"ai_messageが長すぎます（最大{max}文字）" *)
  | SaveFailedDefault                (* "記憶保存に失敗しました" *)
  | QueryEmpty                       (* "検索クエリが空です" *)
  | TopKRange (lo hi : Z)            (* "top_kは1から100の間で指定してください", "...1から20..." *)
  | QueryTooLong (max : Z)           (* f"クエリが長すぎます（最大{max}文字）" *)
  | DateFromFormat                   (* "date_fromのフォーマットが正しくありません…" *)
  | DateToFormat                     (* "date_toのフォーマットが正しくありません…" *)
  | SearchFailedDefault              (* "記憶検索に失敗しました" *)
  | ServerError (t : Text)           (* f"サーバーエラー: {str(e)}" *)
  | LLMProcessingError (t : Text)    (* f"LLM処理エラー: {str(e)}" *)
  | MemorySaveError (t : Text)       (* f"記憶保存エラー: {str(e)}" *)
  | SearchError (t : Text)           (* f"検索エラー: {str(e)}" *)
  | StoreSaveFailed                  (* "記憶の保存に失敗しました" *)
  | BatchSaveEmpty                   (* "保存リクエストが空です" *)
  | BatchTooLarge (max : Z)          (* f"バッチサイズが大きすぎます（最大: {max}件）" *)
  | BatchItemUserEmpty (i : nat)     (* f"リクエスト{i+1}: user_messageが空です" *)
  | BatchItemAiEmpty (i : nat)       (* f"リクエスト{i+1}: ai_messageが空です" *)
  | BatchQueryEmpty (i : nat)        (* f"クエリ{i+1}が空です" *)
  | BatchQueryTooLong (i : nat)      (* f"クエリ{i+1}が長すぎます（最大1000文字）" *)
  | UnexpectedError (t : Text)       (* f"予期しないエラー: {str(e)}" *)
  | ProcessingException (t : Text)   (* f"処理例外: {str(result)}" *)
  | BatchSaveError (t : Text)        (* f"バッチ保存エラー: {str(e)}" *)
  | BatchSearchError (t : Text)      (* f"バッチ検索エラー: {str(e)}" *)
  | SchemaViolation (field : string) (* the body does not fit the pydantic model *)
  | NoneInSum                        (* unsupported operand type(s) for +: 'int' and 'NoneType' *)
  | FromIsoFormatNotStr              (* fromisoformat: argument must be str *)
  | InvalidIsoFormat (s : pystr)     (* f"Invalid isoformat string: {s!r}" *)
  | MissingKey (k : string)          (* KeyError: k *)
  | IndexOutOfRange                  (* "list index out of range" *)
  | UnknownEmotion (s : pystr)       (* f"Unknown emotion: {value}" *)
  | BadUuid (s : pystr).             (* "badly formed hexadecimal UUID string" *)

(** Every exception of the model is a subclass of [Exception]. *)
Inductive exn : Type :=
  | HTTPException (status_code : Z) (detail : Text)
  | LLMError (msg : Text)
  | LLMTimeoutError (msg : Text)     (* subclass of LLMError *)
  | LLMQuotaError (msg : Text)       (* subclass of LLMError *)
  | ValueError (msg : Text)
  | TypeError (msg : Text)
  | KeyError (msg : Text)
  | IndexError (msg : Text)
  | RuntimeError (msg : Text)
  | OtherException (msg : Text).     (* any other fault of a collaborator *)

(** [str(e)] *)
Definition exn_str (e : exn) : Text :=
  match e with
  | HTTPException _ t | LLMError t | LLMTimeoutError t | LLMQuotaError t
  | ValueError t | TypeError t | KeyError t | IndexError t
  | RuntimeError t | OtherException t => t
  end.

(** [isinstance(e, LLMError)] *)
Definition is_LLMError (e : exn) : bool :=
  match e with
  | LLMError _ | LLMTimeoutError _ | LLMQuotaError _ => true
  | _ => false
  end.

(** [isinstance(e, HTTPException)] *)
Definition is_HTTPException (e : exn) : bool :=
  match e with HTTPException _ _ => true | _ => false end.

(** Outcome of a Python expression: a value or a raised exception. *)
Inductive result (A : Type) : Type :=
  | Return (a : A)
  | Raise (e : exn).
Arguments Return {A} a.
Arguments Raise {A} e.

Definition rbind {A B} (r : result A) (k : A -> result B) : result B :=
  match r with
  | Return a => k a
  | Raise e => Raise e
  end.

Definition UUID := nat.
Definition datetime := Z.
Definition Metadata := gmap string pystr.
Definition Embedding := list Q.

Module LLMRequest.
Record t := mk {
  user_message : pystr;
  ai_message : pystr;
  context_window : option (list (pystr * pystr));
  session_id : option pystr;
  user_id : option pystr
}.
End LLMRequest.

Module LLMResponse.
Record t := mk {
  summary : pystr;
  emotions : list Emotion
}.
End LLMResponse.

(** [collection.query] result: one inner list per query vector. *)
Module QueryResult.
Record t := mk {
  ids : list (list pystr);
  metadatas : list (list Metadata);
  distances : list (list Q)
}.
End QueryResult.

(** The calls that leave this code, in the order they are made. *)
Inductive Event : Type :=
  | EvUuid4 (id : UUID)
  | EvProcessMemory (request : LLMRequest.t)        (* llm_client.process_memory *)
  | EvGetEmbedding (text : pystr)                   (* embedding_client.get_embedding *)
  | EvCollectionAdd (memory_id : UUID) (embedding : Embedding) (metadata : Metadata)
  | EvCollectionQuery (n_results : Z) (where_filter : option pystr)
                      (query_embedding : Embedding).

Definition is_provider_or_store_call (ev : Event) : bool :=
  match ev with
  | EvUuid4 _ => false
  | _ => true
  end.

(** What the process can observe and change. *)
Record World := mkWorld {
  trace : list Event;                      (* oldest call first *)
  issued : nat;                            (* ids handed out by [uuid4] *)
  collection : list (UUID * Metadata);     (* records in the vector store *)
  clock_reads : nat                        (* calls of time.time / utcnow *)
}.

Definition initial_world : World :=
  {| trace := []; issued := 0; collection := []; clock_reads := 0 |}.

(** The collaborators, specified at their interface only.  Each answer may
    depend on the calls made so far, so a provider can fail once and work
    the next time. *)
Record Runtime := mkRuntime {
  time_time : nat -> Q;
  utcnow : nat -> datetime;
  fromisoformat : pystr -> option datetime;
  isoformat : datetime -> pystr;
  parse_uuid : pystr -> option UUID;
  process_memory : list Event -> LLMRequest.t -> result LLMResponse.t;
  get_embedding : list Event -> pystr -> result Embedding;
  collection_add : list Event -> UUID -> Embedding -> Metadata -> option exn;
  collection_query : list Event -> list (UUID * Metadata) ->
                     Embedding -> Z -> option pystr -> result QueryResult.t
}.

Definition M (A : Type) : Type := World -> result A * World.

Definition ret {A} (a : A) : M A := fun w => (Return a, w).
Definition raise {A} (e : exn) : M A := fun w => (Raise e, w).
Definition bind {A B} (m : M A) (k : A -> M B) : M B :=
  fun w => match m w with
           | (Return a, w') => k a w'
           | (Raise e, w') => (Raise e, w')
           end.
Definition lift {A} (r : result A) : M A := fun w => (r, w).

(** [try: body except Exception as e: handler(e)] *)
Definition try_except {A} (body : M A) (handler : exn -> M A) : M A :=
  fun w => match body w with
           | (Return a, w') => (Return a, w')
           | (Raise e, w') => handler e w'
           end.

Declare Scope py_scope.
Delimit Scope py_scope with py.
Notation "'let*' x ':=' m 'in' k" := (bind m (fun x => k))
  (at level 10, x name, m at level 100, k at level 200) : py_scope.
Open Scope py_scope.

Fixpoint mapM {A B} (f : A -> M B) (xs : list A) : M (list B) :=
  match xs with
  | [] => ret []
  | x :: xs' => let* y := f x in let* ys := mapM f xs' in ret (y :: ys)
  end.

(** [enumerate(xs)] *)
Definition enumerate {A} (xs : list A) : list (nat * A) :=
  combine (seq 0 (length xs)) xs.

(** [round(x, 2)]: to the nearest hundredth, ties to even. *)
Definition round_half_even (q : Q) : Z :=
  let n := Qnum q in
  let d := Z.pos (Qden q) in
  let fl := (n / d)%Z in
  let r2 := (2 * (n mod d))%Z in
  if (r2 <? d)%Z then fl
  else if (d <? r2)%Z then (fl + 1)%Z
  else if Z.even fl then fl else (fl + 1)%Z.

Definition round2 (q : Q) : Q := Qmake (round_half_even (q * 100)%Q) 100.

Section WithRuntime.
Context (rt : Runtime).

Definition now : M Q :=
  fun w => (Return (time_time rt (clock_reads w)),
            {| trace := trace w; issued := issued w;
               collection := collection w; clock_reads := S (clock_reads w) |}).

Definition datetime_utcnow : M datetime :=
  fun w => (Return (utcnow rt (clock_reads w)),
            {| trace := trace w; issued := issued w;
               collection := collection w; clock_reads := S (clock_reads w) |}).

(** [uuid4()]: an id no earlier call has returned. *)
Definition uuid4 : M UUID :=
  fun w => (Return (issued w),
            {| trace := trace w ++ [EvUuid4 (issued w)]; issued := S (issued w);
               collection := collection w; clock_reads := clock_reads w |}).

Definition llm_process_memory (request : LLMRequest.t) : M LLMResponse.t :=
  fun w => let w' := {| trace := trace w ++ [EvProcessMemory request];
                        issued := issued w; collection := collection w;
                        clock_reads := clock_reads w |} in
           (process_memory rt (trace w) request, w').

Definition embedding_get_embedding (text : pystr) : M Embedding :=
  fun w => let w' := {| trace := trace w ++ [EvGetEmbedding text];
                        issued := issued w; collection := collection w;
                        clock_reads := clock_reads w |} in
           (get_embedding rt (trace w) text, w').

(** [collection.add]: raises and stores nothing, or stores the record. *)
Definition chroma_collection_add (memory_id : UUID) (embedding : Embedding)
           (metadata : Metadata) : M unit :=
  fun w => let tr := trace w ++ [EvCollectionAdd memory_id embedding metadata] in
           match collection_add rt (trace w) memory_id embedding metadata with
           | Some e => (Raise e, {| trace := tr; issued := issued w;
                                    collection := collection w;
                                    clock_reads := clock_reads w |})
           | None => (Return tt, {| trace := tr; issued := issued w;
                                    collection := collection w ++ [(memory_id, metadata)];
                                    clock_reads := clock_reads w |})
           end.

Definition chroma_collection_query (query_embedding : Embedding) (n_results : Z)
           (where_filter : option pystr) : M QueryResult.t :=
  fun w => let w' := {| trace := trace w ++ [EvCollectionQuery n_results where_filter query_embedding];
                        issued := issued w; collection := collection w;
                        clock_reads := clock_reads w |} in
           (collection_query rt (trace w) (collection w) query_embedding n_results where_filter, w').

End WithRuntime.

(* ===================================================================== *)
(** * api/schemas *)
(* ===================================================================== *)

(** Modelled from the spec: api/schemas/memory.py declares SaveRequest with
    the fields [user] and [ai], not the [user_message] and [ai_message] the
    endpoints and the service read.  The fields are those of the Save input
    [{user_message, ai_message, user_id?, session_id?, app_name?,
    context_window?}], which is also one item of a /batch-save. *)
Module SaveRequest.
Record t := mk {
  user_message : pystr;
  ai_message : pystr;
  user_id : option pystr;
  session_id : option pystr;
  app_name : option pystr;
  context_window : option (list (pystr * pystr))
}.
End SaveRequest.

(** Modelled from the spec: the declaration of SaveResponse is not in
    api/schemas/memory.py.  The fields are those of the Save output
    [{success, memory_id, summary, emotions[], processing_time_ms, error?}]
    and of the constructor calls in services/memory_service.py; a field a
    call leaves out is [None], except [processing_time_ms], whose declared
    default is the parameter [default_processing_time_ms] below. *)
Module SaveResponse.
Record t := mk {
  success : bool;
  memory_id : option UUID;
  summary : option pystr;
  emotions : option (list Emotion);
  processing_time_ms : option Q;
  error : option Text
}.
End SaveResponse.

(** api/schemas/memory.py, [class SearchRequest]. *)
Module SearchRequest.
Record t := mk {
  query : pystr;
  top_k : Z;
  emotion_filter : option (list Emotion);
  user_id : option pystr;
  date_from : option datetime;
  date_to : option datetime
}.

Definition top_k_default : Z := 5.
Definition top_k_ge : Z := 1.
Definition top_k_le : Z := 20.
End SearchRequest.

(** api/schemas/memory.py, [class Memory]. *)
Module Memory.
Record t := mk {
  id : UUID;
  summary : pystr;
  emotions : list Emotion;
  original_user : pystr;
  original_ai : pystr;
  user_id : option pystr;
  session_id : option pystr;
  app_name : option pystr;
  embedding : option Embedding;
  created_at : datetime
}.
End Memory.

(** One element of the list [ChromaMemoryStore.search_memories] returns. *)
Module SearchHit.
Record t := mk {
  id : pystr;
  score : Q;
  metadata : Metadata;
  summary : pystr;
  emotions : list pystr
}.
End SearchHit.

(** Modelled from the spec: api/schemas/memory.py declares SearchResponse
    without the fields the service sets; they are those of the Search output
    [{success, results[], total_count, processing_time_ms, error?}]. *)
Module SearchResponse.
Record t := mk {
  success : bool;
  results : list SearchHit.t;
  total_count : nat;
  processing_time_ms : option Q;
  error : option Text
}.
End SearchResponse.

(** Python truthiness of optional values. *)
Definition truthy_opt_str (o : option pystr) : bool :=
  match o with Some (_ :: _) => true | _ => false end.

Definition is_some {A} (o : option A) : bool :=
  match o with Some _ => true | None => false end.

(** [o or ""] *)
Definition or_empty (o : option pystr) : pystr :=
  match o with Some s => s | None => [] end.

(** [xs[i]] *)
Definition index {A} (xs : list A) (i : nat) : result A :=
  match nth_error xs i with
  | Some x => Return x
  | None => Raise (IndexError IndexOutOfRange)
  end.

(** [d.get(k, "")] *)
Definition get_or_empty (d : Metadata) (k : string) : pystr :=
  match d !! k with Some v => v | None => [] end.

(** [d[k]] *)
Definition getitem (d : Metadata) (k : string) : result pystr :=
  match d !! k with Some v => Return v | None => Raise (KeyError (MissingKey k)) end.

(** [v or None] *)
Definition or_None (s : pystr) : option pystr :=
  match s with [] => None | _ => Some s end.

Notation "'let!' x ':=' r 'in' k" := (rbind r (fun x => k))
  (at level 10, x name, r at level 100, k at level 200) : py_scope.

(** [Emotion.from_japanese] *)
Definition from_japanese (v : pystr) : result Emotion :=
  match List.find (fun emotion => str_eqb (EmotionEnum.value emotion) v) EmotionEnum.members with
  | Some emotion => Return emotion
  | None => Raise (ValueError (UnknownEmotion v))
  end.

(** [xs[a:b]] *)
Definition py_slice {A} (xs : list A) (a b : Z) : list A :=
  let len := Z.of_nat (length xs) in
  let norm := fun x : Z => if (x <? 0)%Z then Z.max (len + x) 0 else Z.min x len in
  let a' := norm a in
  let b' := norm b in
  firstn (Z.to_nat (b' - a')) (skipn (Z.to_nat a') xs).

Fixpoint collect {A B} (f : A -> result (option B)) (xs : list A) : result (list B) :=
  match xs with
  | [] => Return []
  | x :: xs' =>
      let! o := f x in
      let! ys := collect f xs' in
      Return (match o with Some y => y :: ys | None => ys end)
  end.

Fixpoint rmap {A B} (f : A -> result B) (xs : list A) : result (list B) :=
  match xs with
  | [] => Return []
  | x :: xs' => let! y := f x in let! ys := rmap f xs' in Return (y :: ys)
  end.

(* ===================================================================== *)
(** * infrastructure/db/chroma_client.py *)
(* ===================================================================== *)

Module ChromaDBClient.
Section WithRuntime.
Context (rt : Runtime).

Definition add_memory (memory_id : UUID) (summary : pystr) (emotions : list pystr)
           (embedding : Embedding) (metadata : Metadata) : M bool :=
  try_except
    (let memory_metadata : Metadata :=
       metadata ∪ <["emotions"%string := join comma emotions]>
                    (<["summary"%string := summary]> ∅) in
     let* _ := chroma_collection_add rt memory_id embedding memory_metadata in
     ret true)
    (fun _ => ret false).

Definition empty_result : QueryResult.t :=
  {| QueryResult.ids := [[]]; QueryResult.metadatas := [[]];
     QueryResult.distances := [[]] |}.

Definition search_memories (query_embedding : Embedding) (top_k : Z)
           (where_filter : option pystr) : M QueryResult.t :=
  try_except
    (chroma_collection_query rt query_embedding top_k where_filter)
    (fun _ => ret empty_result).

End WithRuntime.
End ChromaDBClient.

(* ===================================================================== *)
(** * infrastructure/db/memory_store.py *)
(* ===================================================================== *)

Module ChromaMemoryStore.
Section WithRuntime.
Context (rt : Runtime).

Definition build_metadata (memory : Memory.t) : Metadata :=
  <["summary"%string := Memory.summary memory]>
  (<["emotions"%string := join comma (List.map EmotionEnum.value (Memory.emotions memory))]>
  (<["user_id"%string := or_empty (Memory.user_id memory)]>
  (<["session_id"%string := or_empty (Memory.session_id memory)]>
  (<["app_name"%string := or_empty (Memory.app_name memory)]>
  (<["created_at"%string := isoformat rt (Memory.created_at memory)]>
  (<["original_user"%string := Memory.original_user memory]>
  (<["original_ai"%string := Memory.original_ai memory]> ∅))))))).

Definition save_memory (memory : Memory.t) : M bool :=
  try_except
    (let metadata := build_metadata memory in
     let* embedding :=
       match Memory.embedding memory with
       | Some (x :: e) => ret (x :: e)
       | _ => embedding_get_embedding rt (Memory.summary memory)
       end in
     ChromaDBClient.add_memory rt (Memory.id memory) (Memory.summary memory)
       (List.map EmotionEnum.value (Memory.emotions memory)) embedding metadata)
    (fun _ => ret false).

(** [where_filter if where_filter else None] *)
Definition where_filter_of (user_id : option pystr) : option pystr :=
  if truthy_opt_str user_id then user_id else None.

(** The emotion post-filter: some tag of the filter is in the record's
    comma-separated tag list. *)
Definition emotion_match (emotion_filter : list Emotion) (metadata : Metadata) : bool :=
  let memory_emotions := split comma (get_or_empty metadata "emotions") in
  let emotion_values := List.map EmotionEnum.value emotion_filter in
  existsb (fun emotion => list_contains memory_emotions emotion) emotion_values.

(** [true] when the loop goes on to the next statement, [false] on
    [continue]. *)
Definition emotion_filter_keeps (emotion_filter : option (list Emotion))
           (metadata : Metadata) : bool :=
  match emotion_filter with
  | Some (e :: es) => emotion_match (e :: es) metadata
  | _ => true
  end.

Definition date_filter_keeps (date_from date_to : option datetime)
           (metadata : Metadata) : result bool :=
  if is_some date_from || is_some date_to then
    match fromisoformat rt (get_or_empty metadata "created_at") with
    | None => Raise (ValueError (InvalidIsoFormat (get_or_empty metadata "created_at")))
    | Some created_at =>
        if match date_from with Some d => (created_at <? d)%Z | None => false end
        then Return false
        else if match date_to with Some d => (d <? created_at)%Z | None => false end
        then Return false
        else Return true
    end
  else Return true.

Definition make_hit (memory_id : pystr) (distance : Q) (metadata : Metadata) : SearchHit.t :=
  {| SearchHit.id := memory_id;
     SearchHit.score := (1 - distance)%Q;
     SearchHit.metadata := metadata;
     SearchHit.summary := get_or_empty metadata "summary";
     SearchHit.emotions := split comma (get_or_empty metadata "emotions") |}.

(** One turn of the loop over [enumerate(results["ids"][0])]. *)
Definition search_item (request : SearchRequest.t) (results : QueryResult.t)
           (item : nat * pystr) : result (option SearchHit.t) :=
  let '(i, memory_id) := item in
  let! metadatas0 := index (QueryResult.metadatas results) 0 in
  let! metadata := index metadatas0 i in
  let! distances0 := index (QueryResult.distances results) 0 in
  let! distance := index distances0 i in
  if negb (emotion_filter_keeps (SearchRequest.emotion_filter request) metadata)
  then Return None
  else
    let! keep := date_filter_keeps (SearchRequest.date_from request)
                                   (SearchRequest.date_to request) metadata in
    if keep then Return (Some (make_hit memory_id distance metadata))
    else Return None.

Definition convert_results (request : SearchRequest.t) (results : QueryResult.t)
  : result (list SearchHit.t) :=
  match QueryResult.ids results with
  | (id0 :: ids0) :: _ => collect (search_item request results) (enumerate (id0 :: ids0))
  | _ => Return []
  end.

Definition search_memories (query_embedding : Embedding) (request : SearchRequest.t)
  : M (list SearchHit.t) :=
  try_except
    (let where_filter := where_filter_of (SearchRequest.user_id request) in
     let* results := ChromaDBClient.search_memories rt query_embedding
                       (SearchRequest.top_k request) where_filter in
     lift (convert_results request results))
    (fun _ => ret []).

Definition parse_emotions (s : pystr) : result (list Emotion) :=
  rmap (fun e => from_japanese (strip e))
       (List.filter (fun e => truthy (strip e)) (split comma s)).

Definition to_memory (memory_id : pystr) (metadata : Metadata) : result Memory.t :=
  let! id :=
    match parse_uuid rt memory_id with
    | Some u => Return u
    | None => Raise (ValueError (BadUuid memory_id))
    end in
  let! summary := getitem metadata "summary" in
  let! emotions_text := getitem metadata "emotions" in
  let! emotions := parse_emotions emotions_text in
  let! original_user := getitem metadata "original_user" in
  let! original_ai := getitem metadata "original_ai" in
  let! created_text := getitem metadata "created_at" in
  let! created_at :=
    match fromisoformat rt created_text with
    | Some d => Return d
    | None => Raise (ValueError (InvalidIsoFormat created_text))
    end in
  Return {| Memory.id := id; Memory.summary := summary; Memory.emotions := emotions;
            Memory.original_user := original_user; Memory.original_ai := original_ai;
            Memory.user_id := or_None (get_or_empty metadata "user_id");
            Memory.session_id := or_None (get_or_empty metadata "session_id");
            Memory.app_name := or_None (get_or_empty metadata "app_name");
            Memory.embedding := None; Memory.created_at := created_at |}.

Definition filter_item (emotions : option (list Emotion))
           (date_from date_to : option datetime) (results : QueryResult.t)
           (item : nat * pystr) : result (option Memory.t) :=
  let '(i, memory_id) := item in
  let! metadatas0 := index (QueryResult.metadatas results) 0 in
  let! metadata := index metadatas0 i in
  if negb (emotion_filter_keeps emotions metadata) then Return None
  else
    let! keep := date_filter_keeps date_from date_to metadata in
    if keep then let! memory := to_memory memory_id metadata in Return (Some memory)
    else Return None.

(** [top_k=min(1000, limit * 10)] *)
Definition fetch_size (limit : Z) : Z := Z.min 1000 (limit * 10).

(** [[0.0] * 1536] *)
Definition dummy_vector : Embedding := repeat 0%Q 1536.

Definition get_memories_by_filter (user_id : option pystr)
           (emotions : option (list Emotion)) (date_from date_to : option datetime)
           (limit offset : Z) : M (list Memory.t) :=
  try_except
    (let where_filter := where_filter_of user_id in
     let* results := ChromaDBClient.search_memories rt dummy_vector
                       (fetch_size limit) where_filter in
     let* memories :=
       lift (match QueryResult.ids results with
             | (id0 :: ids0) :: _ =>
                 collect (filter_item emotions date_from date_to results)
                         (enumerate (id0 :: ids0))
             | _ => Return []
             end) in
     ret (py_slice memories offset (offset + limit)))
    (fun _ => ret []).

End WithRuntime.
End ChromaMemoryStore.

(* ===================================================================== *)
(** * services/memory_service.py *)
(* ===================================================================== *)

(** What the endpoints need of the service they are given; the tests put a
    mock here. *)
Record MemoryServiceAPI := mkService {
  svc_save_memory : SaveRequest.t -> M SaveResponse.t;
  svc_search_memories : SearchRequest.t -> M SearchResponse.t
}.

Module MemoryService.
Section WithRuntime.
Context (rt : Runtime).
(** Declared default of [SaveResponse.processing_time_ms]. *)
Context (default_processing_time_ms : option Q).

Definition space : pystr := [32%N].

Definition save_failed (error : Text) (memory_id : UUID) : SaveResponse.t :=
  {| SaveResponse.success := false;
     SaveResponse.memory_id := Some memory_id;
     SaveResponse.summary := None;
     SaveResponse.emotions := None;
     SaveResponse.processing_time_ms := default_processing_time_ms;
     SaveResponse.error := Some error |}.

Definition save_memory (request : SaveRequest.t) : M SaveResponse.t :=
  let* start_time := now rt in
  let* memory_id := uuid4 in
  try_except
    (let llm_request :=
       {| LLMRequest.user_message := SaveRequest.user_message request;
          LLMRequest.ai_message := SaveRequest.ai_message request;
          LLMRequest.context_window := SaveRequest.context_window request;
          LLMRequest.user_id := SaveRequest.user_id request;
          LLMRequest.session_id := SaveRequest.session_id request |} in
     let* llm_response := llm_process_memory rt llm_request in
     let embedding_text :=
       LLMResponse.summary llm_response ++ space ++
       SaveRequest.user_message request ++ space ++ SaveRequest.ai_message request in
     let* embedding := embedding_get_embedding rt embedding_text in
     let* created_at := datetime_utcnow rt in
     let memory :=
       {| Memory.id := memory_id;
          Memory.summary := LLMResponse.summary llm_response;
          Memory.emotions := LLMResponse.emotions llm_response;
          Memory.original_user := SaveRequest.user_message request;
          Memory.original_ai := SaveRequest.ai_message request;
          Memory.user_id := SaveRequest.user_id request;
          Memory.session_id := SaveRequest.session_id request;
          Memory.app_name := SaveRequest.app_name request;
          Memory.embedding := Some embedding;
          Memory.created_at := created_at |} in
     let* save_success := ChromaMemoryStore.save_memory rt memory in
     if negb save_success then raise (RuntimeError StoreSaveFailed)
     else
       let* end_time := now rt in
       let processing_time := ((end_time - start_time) * 1000)%Q in
       ret {| SaveResponse.success := true;
              SaveResponse.memory_id := Some memory_id;
              SaveResponse.summary := Some (LLMResponse.summary llm_response);
              SaveResponse.emotions := Some (LLMResponse.emotions llm_response);
              SaveResponse.processing_time_ms := Some (round2 processing_time);
              SaveResponse.error := None |})
    (fun e =>
       if is_LLMError e
       then ret (save_failed (LLMProcessingError (exn_str e)) memory_id)
       else ret (save_failed (MemorySaveError (exn_str e)) memory_id)).

Definition search_memories (request : SearchRequest.t) : M SearchResponse.t :=
  let* start_time := now rt in
  try_except
    (let* query_embedding := embedding_get_embedding rt (SearchRequest.query request) in
     let* search_results := ChromaMemoryStore.search_memories rt query_embedding request in
     let* end_time := now rt in
     let processing_time := ((end_time - start_time) * 1000)%Q in
     ret {| SearchResponse.success := true;
            SearchResponse.results := search_results;
            SearchResponse.total_count := length search_results;
            SearchResponse.processing_time_ms := Some (round2 processing_time);
            SearchResponse.error := None |})
    (fun e =>
       ret {| SearchResponse.success := false;
              SearchResponse.error := Some (SearchError (exn_str e));
              SearchResponse.results := [];
              SearchResponse.total_count := 0;
              SearchResponse.processing_time_ms := None |}).

Definition service : MemoryServiceAPI :=
  {| svc_save_memory := save_memory; svc_search_memories := search_memories |}.

End WithRuntime.
End MemoryService.

(* ===================================================================== *)
(** * api/endpoints/save.py and api/endpoints/search.py *)
(* ===================================================================== *)

(** [except HTTPException: raise] followed by
    [except Exception as e: raise HTTPException(500, wrap(str(e)))]. *)
Definition reraise_http {A} (wrap : Text -> Text) (e : exn) : M A :=
  if is_HTTPException e then raise e
  else raise (HTTPException 500 (wrap (exn_str e))).

(** [error or fallback] *)
Definition error_or (error : option Text) (fallback : Text) : Text :=
  match error with
  | Some (Raw []) | None => fallback
  | Some t => t
  end.

Module SaveEndpoint.
Section WithService.
Context (memory_service : MemoryServiceAPI).

Definition max_message_length : Z := 10000.

Definition save_memory (request : SaveRequest.t) : M SaveResponse.t :=
  try_except
    (if negb (truthy (strip (SaveRequest.user_message request)))
     then raise (HTTPException 400 UserMessageEmpty)
     else if negb (truthy (strip (SaveRequest.ai_message request)))
     then raise (HTTPException 400 AiMessageEmpty)
     else if (max_message_length <? len (SaveRequest.user_message request))%Z
     then raise (HTTPException 400 (UserMessageTooLong max_message_length))
     else if (max_message_length <? len (SaveRequest.ai_message request))%Z
     then raise (HTTPException 400 (AiMessageTooLong max_message_length))
     else
       let* response := svc_save_memory memory_service request in
       if SaveResponse.success response then ret response
       else raise (HTTPException 500
                     (error_or (SaveResponse.error response) SaveFailedDefault)))
    (reraise_http ServerError).

End WithService.
End SaveEndpoint.

(** The JSON body of /search before the framework fits it to
    [SearchRequest]. *)
Module SearchBody.
Record t := mk {
  query : option pystr;
  top_k : option Z;
  emotion_filter : option (list pystr);
  user_id : option pystr;
  date_from : option pystr;
  date_to : option pystr
}.
End SearchBody.

Module SearchEndpoint.
Section WithService.
Context (rt : Runtime).
Context (memory_service : MemoryServiceAPI).

Definition unprocessable {A} (field : string) : result A :=
  Raise (HTTPException 422 (SchemaViolation field)).

(** [Field(5, ge=1, le=20)] *)
Definition check_top_k (top_k : Z) : result Z :=
  if (top_k <? SearchRequest.top_k_ge)%Z || (SearchRequest.top_k_le <? top_k)%Z
  then unprocessable "top_k"
  else Return top_k.

Definition parse_optional_datetime (field : string) (o : option pystr)
  : result (option datetime) :=
  match o with
  | None => Return None
  | Some s => match fromisoformat rt s with
              | Some d => Return (Some d)
              | None => unprocessable field
              end
  end.

(** Construction of a [SearchRequest] from a body: defaults, then the
    constraints of the fields. *)
Definition parse_body (body : SearchBody.t) : result SearchRequest.t :=
  let! query := match SearchBody.query body with
                | Some q => Return q
                | None => unprocessable "query"
                end in
  let! top_k := check_top_k (match SearchBody.top_k body with
                             | Some k => k
                             | None => SearchRequest.top_k_default
                             end) in
  let! emotion_filter :=
    match SearchBody.emotion_filter body with
    | None => Return None
    | Some vs =>
        match rmap from_japanese vs with
        | Return es => Return (Some es)
        | Raise _ => unprocessable "emotion_filter"
        end
    end in
  let! date_from := parse_optional_datetime "date_from" (SearchBody.date_from body) in
  let! date_to := parse_optional_datetime "date_to" (SearchBody.date_to body) in
  Return {| SearchRequest.query := query; SearchRequest.top_k := top_k;
            SearchRequest.emotion_filter := emotion_filter;
            SearchRequest.user_id := SearchBody.user_id body;
            SearchRequest.date_from := date_from;
            SearchRequest.date_to := date_to |}.

Definition max_query_length : Z := 1000.

(** [datetime.fromisoformat(request.date_from)] inside
    [try ... except ValueError]: the field holds a [datetime], which
    [fromisoformat] refuses with a [TypeError]. *)
Definition check_date_format (d : option datetime) : M unit :=
  match d with
  | Some _ => raise (TypeError FromIsoFormatNotStr)
  | None => ret tt
  end.

(** The body of the route, on a request the framework accepted. *)
Definition search_memories (request : SearchRequest.t) : M SearchResponse.t :=
  try_except
    (if negb (truthy (strip (SearchRequest.query request)))
     then raise (HTTPException 400 QueryEmpty)
     else if (SearchRequest.top_k request <=? 0)%Z || (100 <? SearchRequest.top_k request)%Z
     then raise (HTTPException 400 (TopKRange 1 100))
     else if (max_query_length <? len (SearchRequest.query request))%Z
     then raise (HTTPException 400 (QueryTooLong max_query_length))
     else
       let* _ := check_date_format (SearchRequest.date_from request) in
       let* _ := check_date_format (SearchRequest.date_to request) in
       let* response := svc_search_memories memory_service request in
       if SearchResponse.success response then ret response
       else raise (HTTPException 500
                     (error_or (SearchResponse.error response) SearchFailedDefault)))
    (reraise_http ServerError).

(** POST /search: the framework builds the request, then calls the route. *)
Definition post_search (body : SearchBody.t) : M SearchResponse.t :=
  let* request := lift (parse_body body) in
  search_memories request.

End WithService.
End SearchEndpoint.

(* ===================================================================== *)
(** * api/endpoints/batch.py *)
(* ===================================================================== *)

(** A dict entry that may be absent, hold [None], or hold a value. *)
Inductive slot (A : Type) : Type :=
  | Missing
  | NoneValue
  | Value (a : A).
Arguments Missing {A}.
Arguments NoneValue {A}.
Arguments Value {A} a.

(** [round(x, 1)] *)
Definition round1 (q : Q) : Q := Qmake (round_half_even (q * 10)%Q) 10.

(** [asyncio.gather] with [return_exceptions=True]: every task runs to
    its end, a raised exception becomes that task's result, and the results
    come back in the order of the tasks.  The tasks are run here one after
    the other in that order, which is one of the schedules the semaphore
    allows. *)
Definition gather {A} (tasks : list (M A)) : M (list (result A)) :=
  mapM (fun task => try_except (let* x := task in ret (Return x))
                               (fun e => ret (Raise e)))
       tasks.

(** One entry of ["results"] in the /batch-save report. *)
Module SaveItem.
Record t := mk {
  index : nat;
  success : bool;
  memory_id : option UUID;
  summary : option pystr;
  emotions : option (list pystr);        (* [None]: the key is absent *)
  processing_time_ms : slot Q;
  error : option Text
}.
End SaveItem.

Module BatchSaveReport.
Record t := mk {
  success : bool;
  total_requested : nat;
  successful_saves : nat;
  failed_saves : nat;
  results : list SaveItem.t;
  processing_time_ms : Q;
  success_rate : Q;
  average_processing_time_ms : Q;
  total_emotions_detected : nat
}.
End BatchSaveReport.

Module BatchSave.
Section WithService.
Context (rt : Runtime).
Context (memory_service : MemoryServiceAPI).

Definition max_batch_size : Z := 100.

(** The loop [for i, request in enumerate(requests)] of the pre-flight
    checks: the first offending item, if any. *)
Fixpoint check_items (items : list (nat * SaveRequest.t)) : option exn :=
  match items with
  | [] => None
  | (i, request) :: rest =>
      if negb (truthy (strip (SaveRequest.user_message request)))
      then Some (HTTPException 400 (BatchItemUserEmpty i))
      else if negb (truthy (strip (SaveRequest.ai_message request)))
      then Some (HTTPException 400 (BatchItemAiEmpty i))
      else check_items rest
  end.

(** [min(10, len(requests))] *)
Definition max_concurrent (requests : list SaveRequest.t) : Z :=
  Z.min 10 (len requests).

(** The dict [save_single_memory] returns for a response of the service. *)
Definition response_item (index : nat) (response : SaveResponse.t) : SaveItem.t :=
  {| SaveItem.index := index;
     SaveItem.success := SaveResponse.success response;
     SaveItem.memory_id := SaveResponse.memory_id response;
     SaveItem.summary :=
       if SaveResponse.success response then SaveResponse.summary response
       else None;
     SaveItem.emotions :=
       Some (match SaveResponse.emotions response with
             | Some es => List.map EmotionEnum.value es
             | None => []
             end);
     SaveItem.processing_time_ms :=
       match SaveResponse.processing_time_ms response with
       | Some ms => Value ms
       | None => NoneValue
       end;
     SaveItem.error :=
       if negb (SaveResponse.success response) then SaveResponse.error response
       else None |}.

(** The dict of its [except Exception] branch. *)
Definition fault_item (index : nat) (e : exn) : SaveItem.t :=
  {| SaveItem.index := index;
     SaveItem.success := false;
     SaveItem.memory_id := None;
     SaveItem.summary := None;
     SaveItem.emotions := Some [];
     SaveItem.processing_time_ms := Value 0%Q;
     SaveItem.error := Some (UnexpectedError (exn_str e)) |}.

Definition save_single_memory (index : nat) (request : SaveRequest.t) : M SaveItem.t :=
  try_except
    (let* response := svc_save_memory memory_service request in
     ret (response_item index response))
    (fun e => ret (fault_item index e)).

Definition exception_item (index : nat) (e : exn) : SaveItem.t :=
  {| SaveItem.index := index;
     SaveItem.success := false;
     SaveItem.memory_id := None;
     SaveItem.summary := None;
     SaveItem.emotions := None;
     SaveItem.processing_time_ms := Missing;
     SaveItem.error := Some (ProcessingException (exn_str e)) |}.

(** The loop [for result in results] with its three accumulators. *)
Fixpoint tally (results : list (result SaveItem.t))
         (successful_saves failed_saves : nat) (processed_results : list SaveItem.t)
  : nat * nat * list SaveItem.t :=
  match results with
  | [] => (successful_saves, failed_saves, processed_results)
  | Raise e :: rest =>
      tally rest successful_saves (S failed_saves)
            (processed_results ++ [exception_item (length processed_results) e])
  | Return item :: rest =>
      if SaveItem.success item
      then tally rest (S successful_saves) failed_saves (processed_results ++ [item])
      else tally rest successful_saves (S failed_saves) (processed_results ++ [item])
  end.

(** [sum(r.get("processing_time_ms", 0) for r in processed_results)] *)
Fixpoint sum_times (rs : list SaveItem.t) (acc : Q) : result Q :=
  match rs with
  | [] => Return acc
  | r :: rest =>
      match SaveItem.processing_time_ms r with
      | Missing => sum_times rest (acc + 0)%Q
      | NoneValue => Raise (TypeError NoneInSum)
      | Value ms => sum_times rest (acc + ms)%Q
      end
  end.

(** [sum(len(r.get("emotions", [])) for r in processed_results if r.get("success"))] *)
Definition count_emotions (rs : list SaveItem.t) : nat :=
  list_sum (List.map (fun r => match SaveItem.emotions r with
                               | Some es => length es
                               | None => 0
                               end)
                     (List.filter SaveItem.success rs)).

Definition nat_to_Q (n : nat) : Q := inject_Z (Z.of_nat n).

Definition batch_save_memories (requests : list SaveRequest.t) : M BatchSaveReport.t :=
  let* start_time := now rt in
  try_except
    (match requests with
     | [] => raise (HTTPException 400 BatchSaveEmpty)
     | _ =>
       if (max_batch_size <? len requests)%Z
       then raise (HTTPException 400 (BatchTooLarge max_batch_size))
       else
         match check_items (enumerate requests) with
         | Some e => raise e
         | None =>
           let tasks := List.map (fun '(i, request) => save_single_memory i request)
                                 (enumerate requests) in
           let* results := gather tasks in
           let '(successful_saves, failed_saves, processed_results) :=
             tally results 0 0 [] in
           let* end_time := now rt in
           let total_processing_time := ((end_time - start_time) * 1000)%Q in
           let success_rate := (nat_to_Q successful_saves / nat_to_Q (length requests) * 100)%Q in
           let* total_time := lift (sum_times processed_results 0%Q) in
           let average :=
             match processed_results with
             | [] => 0%Q
             | _ => (total_time / nat_to_Q (length processed_results))%Q
             end in
           let overall_success := Nat.eqb failed_saves 0 in
           ret {| BatchSaveReport.success := overall_success;
                  BatchSaveReport.total_requested := length requests;
                  BatchSaveReport.successful_saves := successful_saves;
                  BatchSaveReport.failed_saves := failed_saves;
                  BatchSaveReport.results := processed_results;
                  BatchSaveReport.processing_time_ms := round2 total_processing_time;
                  BatchSaveReport.success_rate := round1 success_rate;
                  BatchSaveReport.average_processing_time_ms := round2 average;
                  BatchSaveReport.total_emotions_detected := count_emotions processed_results |}
         end
     end)
    (reraise_http BatchSaveError).

End WithService.
End BatchSave.

(** One entry of ["results"] in the /batch-search report. *)
Module SearchItem.
Record t := mk {
  index : nat;
  query : pystr;
  success : bool;
  results : list SearchHit.t;
  total_count : nat;
  processing_time_ms : slot Q;
  error : option Text
}.
End SearchItem.

Module BatchSearchReport.
Record t := mk {
  success : bool;
  total_queries : nat;
  successful_searches : nat;
  failed_searches : nat;
  results : list SearchItem.t;
  processing_time_ms : Q
}.
End BatchSearchReport.

Module BatchSearch.
Section WithService.
Context (rt : Runtime).
Context (memory_service : MemoryServiceAPI).

Definition max_batch_size : Z := 50.
Definition max_top_k : Z := 20.

(** [if top_k <= 0 or top_k > 20] *)
Definition top_k_rejected (top_k : Z) : bool :=
  (top_k <=? 0)%Z || (max_top_k <? top_k)%Z.

Fixpoint check_queries (items : list (nat * pystr)) : option exn :=
  match items with
  | [] => None
  | (i, query) :: rest =>
      if negb (truthy (strip query))
      then Some (HTTPException 400 (BatchQueryEmpty i))
      else if (1000 <? len query)%Z
      then Some (HTTPException 400 (BatchQueryTooLong i))
      else check_queries rest
  end.

(** [min(5, len(queries))] *)
Definition max_concurrent (queries : list pystr) : Z := Z.min 5 (len queries).

(** [SearchRequest(query=query, top_k=top_k, user_id=user_id)] *)
Definition make_request (query : pystr) (top_k : Z) (user_id : option pystr)
  : result SearchRequest.t :=
  let! k := SearchEndpoint.check_top_k top_k in
  Return {| SearchRequest.query := query; SearchRequest.top_k := k;
            SearchRequest.emotion_filter := None; SearchRequest.user_id := user_id;
            SearchRequest.date_from := None; SearchRequest.date_to := None |}.

Definition search_single_query (top_k : Z) (user_id : option pystr)
           (index : nat) (query : pystr) : M SearchItem.t :=
  try_except
    (let* search_request := lift (make_request query top_k user_id) in
     let* response := svc_search_memories memory_service search_request in
     ret {| SearchItem.index := index;
            SearchItem.query := query;
            SearchItem.success := SearchResponse.success response;
            SearchItem.results :=
              if SearchResponse.success response then SearchResponse.results response
              else [];
            SearchItem.total_count :=
              if SearchResponse.success response then SearchResponse.total_count response
              else 0;
            SearchItem.processing_time_ms :=
              match SearchResponse.processing_time_ms response with
              | Some ms => Value ms
              | None => NoneValue
              end;
            SearchItem.error :=
              if negb (SearchResponse.success response) then SearchResponse.error response
              else None |})
    (fun e =>
       ret {| SearchItem.index := index;
              SearchItem.query := query;
              SearchItem.success := false;
              SearchItem.results := [];
              SearchItem.total_count := 0;
              SearchItem.processing_time_ms := Value 0%Q;
              SearchItem.error := Some (UnexpectedError (exn_str e)) |}).

Definition exception_item (queries : list pystr) (index : nat) (e : exn) : SearchItem.t :=
  {| SearchItem.index := index;
     SearchItem.query := match nth_error queries index with
                         | Some q => q
                         | None => str "unknown"
                         end;
     SearchItem.success := false;
     SearchItem.results := [];
     SearchItem.total_count := 0;
     SearchItem.processing_time_ms := Missing;
     SearchItem.error := Some (ProcessingException (exn_str e)) |}.

Fixpoint tally (queries : list pystr) (results : list (result SearchItem.t))
         (successful_searches failed_searches : nat)
         (processed_results : list SearchItem.t)
  : nat * nat * list SearchItem.t :=
  match results with
  | [] => (successful_searches, failed_searches, processed_results)
  | Raise e :: rest =>
      tally queries rest successful_searches (S failed_searches)
            (processed_results ++ [exception_item queries (length processed_results) e])
  | Return item :: rest =>
      if SearchItem.success item
      then tally queries rest (S successful_searches) failed_searches
                 (processed_results ++ [item])
      else tally queries rest successful_searches (S failed_searches)
                 (processed_results ++ [item])
  end.

Definition batch_search_memories (queries : list pystr) (top_k : Z)
           (user_id : option pystr) : M BatchSearchReport.t :=
  let* start_time := now rt in
  try_except
    (match queries with
     | [] => raise (HTTPException 400 QueryEmpty)
     | _ =>
       if (max_batch_size <? len queries)%Z
       then raise (HTTPException 400 (BatchTooLarge max_batch_size))
       else if top_k_rejected top_k
       then raise (HTTPException 400 (TopKRange 1 max_top_k))
       else
         match check_queries (enumerate queries) with
         | Some e => raise e
         | None =>
           let tasks := List.map (fun '(i, query) => search_single_query top_k user_id i query)
                                 (enumerate queries) in
           let* results := gather tasks in
           let '(successful_searches, failed_searches, processed_results) :=
             tally queries results 0 0 [] in
           let* end_time := now rt in
           let total_processing_time := ((end_time - start_time) * 1000)%Q in
           ret {| BatchSearchReport.success := Nat.eqb failed_searches 0;
                  BatchSearchReport.total_queries := length queries;
                  BatchSearchReport.successful_searches := successful_searches;
                  BatchSearchReport.failed_searches := failed_searches;
                  BatchSearchReport.results := processed_results;
                  BatchSearchReport.processing_time_ms := round2 total_processing_time |}
         end
     end)
    (reraise_http BatchSearchError).

End WithService.
End BatchSearch.

(* ===================================================================== *)
(** * api/middleware/rate_limit.py *)
(* ===================================================================== *)

Module RateLimiter.

(** [{"rpm": ..., "rph": ..., "burst": ...}] *)
Record Limits := mkLimits { rpm : Z; rph : Z; burst : Z }.

(** The attributes [__init__] reads from the environment.
    [endpoint_limits] keeps the insertion order of the dict. *)
Record Config := mkConfig {
  enabled : bool;
  default_rpm : Z;
  default_rph : Z;
  burst_limit : Z;
  endpoint_limits : list (pystr * Limits);
  cleanup_interval : Q
}.

(** [int(os.getenv(name, default))] *)
Definition getenv_int (env : gmap string Z) (name : string) (default : Z) : Z :=
  match env !! name with Some v => v | None => default end.

Definition _load_endpoint_limits (env : gmap string Z) : list (pystr * Limits) :=
  let debug := {| rpm := getenv_int env "DEBUG_RATE_LIMIT_RPM" 10;
                  rph := getenv_int env "DEBUG_RATE_LIMIT_RPH" 50;
                  burst := getenv_int env "DEBUG_RATE_LIMIT_BURST" 2 |} in
  [ (str "/save", {| rpm := getenv_int env "SAVE_RATE_LIMIT_RPM" 30;
                     rph := getenv_int env "SAVE_RATE_LIMIT_RPH" 500;
                     burst := getenv_int env "SAVE_RATE_LIMIT_BURST" 5 |});
    (str "/search", {| rpm := getenv_int env "SEARCH_RATE_LIMIT_RPM" 60;
                       rph := getenv_int env "SEARCH_RATE_LIMIT_RPH" 1000;
                       burst := getenv_int env "SEARCH_RATE_LIMIT_BURST" 10 |});
    (str "/memories", {| rpm := getenv_int env "MEMORIES_RATE_LIMIT_RPM" 30;
                         rph := getenv_int env "MEMORIES_RATE_LIMIT_RPH" 300;
                         burst := getenv_int env "MEMORIES_RATE_LIMIT_BURST" 5 |});
    (str "/debug/test-memory", debug);
    (str "/debug/backup", debug) ].

(** [RateLimiter.__init__], with [RATE_LIMIT_ENABLED] already decided. *)
Definition init_config (is_enabled : bool) (env : gmap string Z) : Config :=
  {| enabled := is_enabled;
     default_rpm := getenv_int env "RATE_LIMIT_RPM" 60;
     default_rph := getenv_int env "RATE_LIMIT_RPH" 1000;
     burst_limit := getenv_int env "RATE_LIMIT_BURST" 10;
     endpoint_limits := _load_endpoint_limits env;
     cleanup_interval := 300%Q |}.

(** The mutable attributes. *)
Record State := mkState {
  request_counts : gmap pystr (list Q);     (* defaultdict(deque) *)
  burst_counts : gmap pystr Z;              (* defaultdict(int) *)
  last_cleanup : Q
}.

Definition init_state (created : Q) : State :=
  {| request_counts := ∅; burst_counts := ∅; last_cleanup := created |}.

(** What the limiter reads of a request. *)
Record Request := mkRequest {
  path : pystr;
  auth_rate_limit_key : option pystr;
  client_host : option pystr
}.

Definition _get_rate_limit_key (request : Request) : pystr :=
  match auth_rate_limit_key request with
  | Some k => k
  | None => str "ip:" ++ match client_host request with
                         | Some h => h
                         | None => str "unknown"
                         end
  end.

Definition star : pystr := str "*".

Definition _get_endpoint_limits (cfg : Config) (endpoint : pystr) : Limits :=
  match List.find (fun '(pattern, _) => str_eqb pattern endpoint) (endpoint_limits cfg) with
  | Some (_, limits) => limits
  | None =>
      match List.find (fun '(pattern, _) =>
                         endswith pattern star && startswith endpoint (drop_last pattern))
                      (endpoint_limits cfg) with
      | Some (_, limits) => limits
      | None => {| rpm := default_rpm cfg; rph := default_rph cfg;
                   burst := burst_limit cfg |}
      end
  end.

Definition Qltb (a b : Q) : bool := negb (Qle_bool b a).

(** [while request_times and request_times[0] < cutoff_time: popleft()] *)
Fixpoint drop_old (cutoff_time : Q) (request_times : list Q) : list Q :=
  match request_times with
  | t :: rest => if Qltb t cutoff_time then drop_old cutoff_time rest else request_times
  | [] => []
  end.

Definition is_nil {A} (xs : list A) : bool :=
  match xs with [] => true | _ => false end.

(** A key keeps its burst counter unless its history is deleted. *)
Definition survives (cutoff_time : Q) (counts : gmap pystr (list Q)) (key : pystr) : bool :=
  match counts !! key with
  | Some request_times => negb (is_nil (drop_old cutoff_time request_times))
  | None => true
  end.

Definition _cleanup_old_requests (cfg : Config) (s : State) (now : Q) : State :=
  if Qltb (now - last_cleanup s) (cleanup_interval cfg) then s
  else
    let cutoff_time := (now - 3600)%Q in
    {| request_counts :=
         omap (fun request_times =>
                 match drop_old cutoff_time request_times with
                 | [] => None
                 | kept => Some kept
                 end)
              (request_counts s);
       burst_counts :=
         filter (fun kv : pystr * Z => survives cutoff_time (request_counts s) kv.1 = true)
                (burst_counts s);
       last_cleanup := now |}.

Inductive LimitError : Set :=
  | burst_limit_exceeded
  | minute_limit_exceeded
  | hour_limit_exceeded.

Record Denied := mkDenied { error : LimitError; limit : Z; reset_in : Q }.

Record Allowed := mkAllowed {
  minute_requests : Z;
  hour_requests : Z;
  burst_requests : Z;
  limits : Limits
}.

Inductive Decision : Type :=
  | Allow (details : Allowed)
  | Deny (details : Denied).

(** [d.get(key, 0)] *)
Definition burst_get (s : State) (key : pystr) : Z :=
  match burst_counts s !! key with Some n => n | None => 0%Z end.

(** [d.get(key, deque())] *)
Definition times_get (s : State) (key : pystr) : list Q :=
  match request_counts s !! key with Some ts => ts | None => [] end.

(** [sum(1 for t in request_times if t > cutoff)] *)
Definition count_after (cutoff : Q) (request_times : list Q) : Z :=
  len (List.filter (fun t => Qltb cutoff t) request_times).

(** [next((t for t in request_times if t > cutoff), now)] *)
Definition oldest_after (cutoff : Q) (request_times : list Q) (now : Q) : Q :=
  match List.find (fun t => Qltb cutoff t) request_times with
  | Some t => t
  | None => now
  end.

(** The minute and hour checks, after the burst check. *)
Definition window_checks (lim : Limits) (current_burst : Z) (s : State)
           (rate_limit_key : pystr) (now : Q) : Decision * State :=
  let minute_cutoff := (now - 60)%Q in
  (* self.request_counts[key] on a defaultdict creates the entry *)
  let request_times := times_get s rate_limit_key in
  let s := {| request_counts := <[rate_limit_key := request_times]> (request_counts s);
              burst_counts := burst_counts s;
              last_cleanup := last_cleanup s |} in
  let minute_requests := count_after minute_cutoff request_times in
  if (rpm lim <=? minute_requests)%Z then
    (Deny {| error := minute_limit_exceeded; limit := rpm lim;
             reset_in := (60 - (now - oldest_after minute_cutoff request_times now))%Q |}, s)
  else
    let hour_cutoff := (now - 3600)%Q in
    let hour_requests := count_after hour_cutoff request_times in
    if (rph lim <=? hour_requests)%Z then
      (Deny {| error := hour_limit_exceeded; limit := rph lim;
               reset_in := (3600 - (now - oldest_after hour_cutoff request_times now))%Q |}, s)
    else
      (Allow {| minute_requests := minute_requests; hour_requests := hour_requests;
                burst_requests := current_burst; limits := lim |}, s).

Definition _check_rate_limit (cfg : Config) (s : State) (rate_limit_key endpoint : pystr)
           (now : Q) : Decision * State :=
  let lim := _get_endpoint_limits cfg endpoint in
  let current_burst := burst_get s rate_limit_key in
  if (burst lim <=? current_burst)%Z then
    let request_times := times_get s rate_limit_key in
    match last request_times with
    | Some latest =>
        if Qle_bool 1 (now - latest) then
          let s := {| request_counts := request_counts s;
                      burst_counts := <[rate_limit_key := 0%Z]> (burst_counts s);
                      last_cleanup := last_cleanup s |} in
          window_checks lim current_burst s rate_limit_key now
        else
          (Deny {| error := burst_limit_exceeded; limit := burst lim;
                   reset_in := (1 - (now - latest))%Q |}, s)
    | None =>
        (Deny {| error := burst_limit_exceeded; limit := burst lim;
                 reset_in := 1%Q |}, s)
    end
  else window_checks lim current_burst s rate_limit_key now.

Definition _record_request (cfg : Config) (s : State) (rate_limit_key : pystr)
           (now : Q) : State :=
  let s := {| request_counts :=
                <[rate_limit_key := times_get s rate_limit_key ++ [now]]> (request_counts s);
              burst_counts :=
                <[rate_limit_key := (burst_get s rate_limit_key + 1)%Z]> (burst_counts s);
              last_cleanup := last_cleanup s |} in
  _cleanup_old_requests cfg s now.

Inductive Outcome : Type :=
  | AllowedDisabled
  | AllowedPublic
  | AllowedFor (rate_limit_key : pystr) (details : Allowed)
  | DeniedFor (rate_limit_key : pystr) (details : Denied).

Definition public_endpoints : list pystr :=
  [str "/"; str "/health"; str "/docs"; str "/redoc"; str "/openapi.json"].

(** One call of [check_rate_limit]; [now] is the reading of the clock
    during the call. *)
Definition check_rate_limit (cfg : Config) (s : State) (request : Request) (now : Q)
  : Outcome * State :=
  if negb (enabled cfg) then (AllowedDisabled, s)
  else if list_contains public_endpoints (path request) then (AllowedPublic, s)
  else
    let rate_limit_key := _get_rate_limit_key request in
    let endpoint := path request in
    match _check_rate_limit cfg s rate_limit_key endpoint now with
    | (Allow details, s') =>
        (AllowedFor rate_limit_key details, _record_request cfg s' rate_limit_key now)
    | (Deny details, s') => (DeniedFor rate_limit_key details, s')
    end.

Definition is_allowed (o : Outcome) : bool :=
  match o with DeniedFor _ _ => false | _ => true end.

Definition denial_error (o : Outcome) : option LimitError :=
  match o with DeniedFor _ d => Some (error d) | _ => None end.

End RateLimiter.

(* ===================================================================== *)
(** * services/memory_service.py, [get_memories_by_filter] *)
(* ===================================================================== *)

(** services/memory_service.py, [MemoryService.get_memories_by_filter]:
    the filter arrives as text, is converted, and is handed to the store. *)
Module MemoryServiceListing.
Section WithRuntime.
Context (rt : Runtime).

(** [datetime.fromisoformat(s)] *)
Definition parse_date (s : pystr) : result datetime :=
  match fromisoformat rt s with
  | Some d => Return d
  | None => Raise (ValueError (InvalidIsoFormat s))
  end.

(** [if date: date_dt = datetime.fromisoformat(date)] *)
Definition convert_date (date : option pystr) : result (option datetime) :=
  match date with
  | Some (c :: s) => let! d := parse_date (c :: s) in Return (Some d)
  | _ => Return None
  end.

(** [if emotions: emotion_list = [Emotion.from_japanese(e) for e in emotions if e]] *)
Definition convert_emotions (emotions : option (list pystr)) : result (option (list Emotion)) :=
  match emotions with
  | Some (e :: es) =>
      let! emotion_list := rmap from_japanese (List.filter truthy (e :: es)) in
      Return (Some emotion_list)
  | _ => Return None
  end.

Definition get_memories_by_filter (user_id : option pystr)
           (emotions : option (list pystr)) (date_from date_to : option pystr)
           (limit offset : Z) : M (list Memory.t) :=
  try_except
    (let* date_from_dt := lift (convert_date date_from) in
     let* date_to_dt := lift (convert_date date_to) in
     let* emotion_list := lift (convert_emotions emotions) in
     ChromaMemoryStore.get_memories_by_filter rt user_id emotion_list
       date_from_dt date_to_dt limit offset)
    (fun _ => ret []).

End WithRuntime.
End MemoryServiceListing.

(* ===================================================================== *)
(** * core/llm/claude.py *)
(* ===================================================================== *)

Module ClaudeLLM.
Section WithSetIteration.
Context {SI : SetIteration}.

(** [s.replace(old, "")] for a non-empty [old]: the occurrences are taken
    from the left and do not overlap.  [skip] counts the characters of the
    occurrence just found that are still to be passed over. *)
Fixpoint remove_from (old : pystr) (skip : nat) (s : pystr) : pystr :=
  match s with
  | [] => []
  | c :: s' =>
      match skip with
      | S k => remove_from old k s'
      | O => if startswith s old then remove_from old (length old - 1) s'
             else c :: remove_from old 0 s'
      end
  end.

Definition remove (s old : pystr) : pystr := remove_from old 0 s.

(** [s.split(sep)] for a non-empty [sep] of any length: never the empty
    list. *)
Fixpoint split_from (sep : pystr) (skip : nat) (s : pystr) : list pystr :=
  match s with
  | [] => [[]]
  | c :: s' =>
      match skip with
      | S k => split_from sep k s'
      | O => if startswith s sep then [] :: split_from sep (length sep - 1) s'
             else match split_from sep 0 s' with
                  | w :: ws => (c :: w) :: ws
                  | [] => [[c]]
                  end
      end
  end.

Definition split_on (s sep : pystr) : list pystr := split_from sep 0 s.

(** The literal ["\\n"] of the source: a backslash and the letter n. *)
Definition line_break : pystr := [92; 110]%N.

Definition summary_label : pystr := [35201; 32004; 58]%N.            (* "要約:" *)
Definition summary_heading : pystr := [35; 35; 32; 35201; 32004]%N.  (* "## 要約" *)
Definition emotion_label : pystr := [24863; 24773; 58]%N.            (* "感情:" *)
Definition emotion_heading : pystr := [35; 35; 32; 24863; 24773]%N.  (* "## 感情" *)

(** [current_section] when it is not [None]. *)
Inductive section_name : Set := in_summary | in_emotions.

(** The three variables the loop over the lines updates. *)
Record ParseState := mkParseState {
  summary : pystr;
  emotions : list Emotion;
  current_section : option section_name
}.

(** One turn of [for line in lines]. *)
Definition parse_line (st : ParseState) (line : pystr) : ParseState :=
  let line := strip line in
  if startswith line summary_label || startswith line summary_heading then
    let summary_text := strip (remove (remove line summary_label) summary_heading) in
    {| summary := if truthy summary_text then summary_text else summary st;
       emotions := emotions st;
       current_section := Some in_summary |}
  else if startswith line emotion_label || startswith line emotion_heading then
    let emotion_text := strip (remove (remove line emotion_label) emotion_heading) in
    {| summary := summary st;
       emotions := if truthy emotion_text
                   then emotions st ++ BaseLLM._extract_emotions emotion_text
                   else emotions st;
       current_section := Some in_emotions |}
  else
    match current_section st with
    | Some in_summary =>
        if truthy line
        then {| summary := if negb (truthy (summary st)) then line
                           else summary st ++ 32%N :: line;
                emotions := emotions st;
                current_section := current_section st |}
        else st
    | Some in_emotions =>
        if truthy line
        then {| summary := summary st;
                emotions := emotions st ++ BaseLLM._extract_emotions line;
                current_section := current_section st |}
        else st
    | None => st
    end.

Definition _parse_response (response : pystr) : pystr * list Emotion :=
  let lines := split_on (strip response) line_break in
  let st := fold_left parse_line lines
              {| summary := []; emotions := []; current_section := None |} in
  if negb (truthy (summary st)) && match emotions st with [] => true | _ => false end
  then (strip (firstn 200 response), BaseLLM._extract_emotions response)
  else (strip (summary st), emotions st).

(** [process_memory] from the point where the API has answered with
    [response]: the reply is parsed and validated; the [LLMError] raised for
    a reply that does not validate is caught by the method's own
    [except Exception] and raised again, wrapped. *)
Definition read_reply (response : pystr) : result LLMResponse.t :=
  let '(summary, emotions) := _parse_response response in
  if negb (BaseLLM._validate_response summary emotions)
  then Raise (LLMError (Raw (str
         "[claude] Claude processing failed: [claude] Invalid response format")))
  else Return {| LLMResponse.summary := summary; LLMResponse.emotions := emotions |}.

End WithSetIteration.
End ClaudeLLM.

(* ===================================================================== *)
(** * api/middleware/rate_limit.py, [rate_limit_middleware] *)
(* ===================================================================== *)

Module RateLimitMiddleware.

(** The four headers added to a response that went through. *)
Record RateHeaders := mkRateHeaders {
  limit_rpm : Z;              (* X-RateLimit-Limit-RPM *)
  limit_rph : Z;              (* X-RateLimit-Limit-RPH *)
  remaining_minute : Z;       (* X-RateLimit-Remaining-Minute *)
  remaining_hour : Z          (* X-RateLimit-Remaining-Hour *)
}.

(** [HTTPException(status_code=429, detail=..., headers={...})] *)
Record TooManyRequests := mkTooManyRequests {
  wait : Q;                              (* [reset_in], shown in the detail *)
  retry_after : Z;                       (* Retry-After: [int(reset_in)] *)
  limit_error : RateLimiter.LimitError;  (* X-RateLimit-Error *)
  limit_value : Z                        (* X-RateLimit-Limit *)
}.

(** How a call of the middleware ends: with the 429 it raises, with a
    response, or with the exception of [call_next] that it lets through. *)
Inductive Answer (R : Type) : Type :=
  | Rejected (e : TooManyRequests)
  | Responded (response : R) (headers : option RateHeaders)
  | Failed (e : exn).
Arguments Rejected {R} e.
Arguments Responded {R} response headers.
Arguments Failed {R} e.

(** [int(x)] on a float: towards zero. *)
Definition int_of (q : Q) : Z := Z.quot (Qnum q) (Z.pos (Qden q)).

(** [if "limits" in limit_result]: the headers, for a request that was
    counted. *)
Definition headers_of (limit_result : RateLimiter.Outcome) : option RateHeaders :=
  match limit_result with
  | RateLimiter.AllowedFor _ details =>
      let limits := RateLimiter.limits details in
      Some {| limit_rpm := RateLimiter.rpm limits;
              limit_rph := RateLimiter.rph limits;
              remaining_minute :=
                Z.max 0 (RateLimiter.rpm limits - RateLimiter.minute_requests details);
              remaining_hour :=
                Z.max 0 (RateLimiter.rph limits - RateLimiter.hour_requests details) |}
  | _ => None
  end.

Section WithHandler.
(** The rest of the application: [call_next], with the state it works on. *)
Context {H R : Type}.
Context (call_next : H -> result R * H).

Definition rate_limit_middleware (cfg : RateLimiter.Config) (s : RateLimiter.State)
           (request : RateLimiter.Request) (now : Q) (h : H)
  : Answer R * (RateLimiter.State * H) :=
  let checked := RateLimiter.check_rate_limit cfg s request now in
  let limit_result := fst checked in
  let s' := snd checked in
  match limit_result with
  | RateLimiter.DeniedFor _ details =>
      (Rejected {| wait := RateLimiter.reset_in details;
                   retry_after := int_of (RateLimiter.reset_in details);
                   limit_error := RateLimiter.error details;
                   limit_value := RateLimiter.limit details |},
       (s', h))
  | _ =>
      match call_next h with
      | (Return response, h1) =>
          (Responded response (headers_of limit_result), (s', h1))
      | (Raise e, h1) =>
          if is_HTTPException e then (Failed e, (s', h1))
          else
            (* except Exception: return await call_next(request) *)
            match call_next h1 with
            | (Return response, h2) => (Responded response None, (s', h2))
            | (Raise e2, h2) => (Failed e2, (s', h2))
            end
      end
  end.

End WithHandler.
End RateLimitMiddleware.

(* ===================================================================== *)
(** * api/middleware/auth.py *)
(* ===================================================================== *)

Module APIKeyAuth.

(** The attributes [__init__] sets. *)
Record Config := mkConfig {
  auth_enabled : bool;
  allowed_api_keys : list pystr
}.

(** What the authentication reads of a request. *)
Record Request := mkRequest {
  path : pystr;
  authorization : option pystr;     (* headers.get("Authorization") *)
  x_api_key : option pystr;         (* headers.get("X-API-Key") *)
  query_api_key : option pystr;     (* query_params.get("api_key") *)
  client_host : option pystr
}.

Inductive AuthMethod : Set := disabled | public_endpoint | api_key.

(** The dict [authenticate_request] returns ([authenticated] is [True] in
    each of them). *)
Record AuthResult := mkAuthResult {
  auth_method : AuthMethod;
  api_key_prefix : option pystr;
  rate_limit_key : pystr
}.

(** The two [HTTPException(401, ...)] of [authenticate_request]. *)
Inductive Unauthorized : Set :=
  | api_key_required        (* "APIキーが必要です" *)
  | api_key_invalid.        (* "無効なAPIキーです" *)

Definition bearer : pystr := str "Bearer ".
Definition sha256_tag : pystr := str "sha256:".

Definition _extract_api_key (request : Request) : option pystr :=
  match authorization request with
  | Some (c :: header) =>
      if startswith (c :: header) bearer then Some (skipn 7 (c :: header))
      else if truthy_opt_str (x_api_key request) then x_api_key request
      else if truthy_opt_str (query_api_key request) then query_api_key request
      else None
  | _ =>
      if truthy_opt_str (x_api_key request) then x_api_key request
      else if truthy_opt_str (query_api_key request) then query_api_key request
      else None
  end.

Definition public_endpoints : list pystr :=
  [str "/"; str "/health"; str "/docs"; str "/redoc"; str "/openapi.json"].

Section WithDigests.
(** [hashlib.sha256(s.encode()).hexdigest()] and
    [hashlib.md5(s.encode()).hexdigest()]. *)
Context (sha256_hexdigest md5_hexdigest : pystr -> pystr).

Definition _validate_api_key (cfg : Config) (key : pystr) : bool :=
  if negb (truthy key) then false
  else if list_contains (allowed_api_keys cfg) key then true
  else existsb (fun stored_key =>
                  startswith stored_key sha256_tag
                  && str_eqb (sha256_hexdigest key) (skipn 7 stored_key))
               (allowed_api_keys cfg).

Definition _get_rate_limit_key (request : Request) (key : option pystr) : pystr :=
  if truthy_opt_str key
  then str "api_key:" ++ md5_hexdigest (or_empty key)
  else str "ip:" ++ match client_host request with
                    | Some host => host
                    | None => str "unknown"
                    end.

(** [api_key[:8] + "..." if len(api_key) > 8 else api_key] *)
Definition prefix_of (key : pystr) : pystr :=
  if (8 <? len key)%Z then firstn 8 key ++ str "..." else key.

Definition authenticate_request (cfg : Config) (request : Request)
  : Unauthorized + AuthResult :=
  if negb (auth_enabled cfg)
  then inr {| auth_method := disabled; api_key_prefix := None;
              rate_limit_key := _get_rate_limit_key request None |}
  else if list_contains public_endpoints (path request)
  then inr {| auth_method := public_endpoint; api_key_prefix := None;
              rate_limit_key := _get_rate_limit_key request None |}
  else
    match _extract_api_key request with
    | Some (c :: key) =>
        if negb (_validate_api_key cfg (c :: key)) then inl api_key_invalid
        else inr {| auth_method := api_key;
                    api_key_prefix := Some (prefix_of (c :: key));
                    rate_limit_key := _get_rate_limit_key request (Some (c :: key)) |}
    | _ => inl api_key_required
    end.

End WithDigests.
End APIKeyAuth.

(* ===================================================================== *)
(** * Concrete collaborators, for running the model *)
(* ===================================================================== *)

Module Mock.

(** Distinct elements in the order of their first occurrence. *)
Fixpoint dedup (xs : list Emotion) : list Emotion :=
  match xs with
  | [] => []
  | x :: rest => x :: List.filter (fun y => negb (bool_decide (x = y))) (dedup rest)
  end.

(** A hash table that happens to iterate in insertion order. *)
Definition insertion_order : SetIteration.
Proof.
  refine {| list_of_set := dedup |}.
  - induction xs as [|x xs IH]; simpl; constructor.
    + rewrite filter_In. intros [_ H].
      rewrite bool_decide_eq_true_2 in H by reflexivity. discriminate.
    + now apply List.NoDup_filter.
  - induction xs as [|x xs IH]; intros y; simpl; [tauto|].
    rewrite filter_In, IH.
    destruct (decide (x = y)) as [->|Hne]; [tauto|].
    rewrite bool_decide_eq_false_2 by exact Hne. simpl. tauto.
Defined.

(** A hash table that happens to iterate in the opposite order. *)
Definition reverse_order : SetIteration.
Proof.
  refine {| list_of_set := fun xs => rev (@list_of_set insertion_order xs) |}.
  - intros xs. apply List.NoDup_rev, list_of_set_NoDup.
  - intros xs x. rewrite <- in_rev. apply list_of_set_elem.
Defined.

(** A clock that advances by one second per reading, a summarizer and an
    embedder given as functions, and a vector store that answers every
    query with [answer] and fails an [add] with [add_fault]. *)
Definition runtime (llm : LLMRequest.t -> result LLMResponse.t)
           (embed : pystr -> result Embedding)
           (add_fault : option exn)
           (answer : result QueryResult.t) : Runtime :=
  {| time_time := fun n => inject_Z (Z.of_nat n);
     utcnow := fun n => Z.of_nat n;
     fromisoformat := fun _ => None;
     isoformat := fun _ => [];
     parse_uuid := fun _ => None;
     process_memory := fun _ request => llm request;
     get_embedding := fun _ text => embed text;
     collection_add := fun _ _ _ _ => add_fault;
     collection_query := fun _ _ _ _ _ => answer |}.

Definition llm_ok (request : LLMRequest.t) : result LLMResponse.t :=
  Return {| LLMResponse.summary := str "a short talk";
            LLMResponse.emotions := [JOY] |}.

Definition llm_down (request : LLMRequest.t) : result LLMResponse.t :=
  Raise (LLMError (Raw (str "API key invalid"))).

Definition embed_ok (text : pystr) : result Embedding := Return [1%Q; 0%Q].

Definition no_answer : result QueryResult.t :=
  Return ChromaDBClient.empty_result.

Definition store_down : result QueryResult.t :=
  Raise (OtherException (Raw (str "Database connection failed"))).

Definition save_request (user_message ai_message : pystr) : SaveRequest.t :=
  {| SaveRequest.user_message := user_message;
     SaveRequest.ai_message := ai_message;
     SaveRequest.user_id := None; SaveRequest.session_id := None;
     SaveRequest.app_name := None; SaveRequest.context_window := None |}.

Definition search_request (query : pystr) (top_k : Z)
           (emotion_filter : option (list Emotion)) : SearchRequest.t :=
  {| SearchRequest.query := query; SearchRequest.top_k := top_k;
     SearchRequest.emotion_filter := emotion_filter;
     SearchRequest.user_id := None;
     SearchRequest.date_from := None; SearchRequest.date_to := None |}.

(** A stored record that carries only its tag list. *)
Definition tagged (tags : list Emotion) : Metadata :=
  <["emotions"%string := join comma (List.map EmotionEnum.value tags)]> ∅.

End Mock.

(* ===================================================================== *)
(** * Vocabulary of the statements *)
(* ===================================================================== *)

(** The record a vector-store answer describes at one position. *)
Definition Candidate : Type := pystr * (Metadata * Q).

(** The candidates of an answer with one inner list per field. *)
Definition candidates (ids : list pystr) (metadatas : list Metadata) (distances : list Q)
  : list Candidate :=
  combine ids (combine metadatas distances).

Definition candidate_hit (c : Candidate) : SearchHit.t :=
  ChromaMemoryStore.make_hit (fst c) (snd (snd c)) (fst (snd c)).

(** The emotion set of a stored record. *)
Definition record_tags (metadata : Metadata) : list pystr :=
  split comma (get_or_empty metadata "emotions").

(** The filter set and the record's set have a tag in common. *)
Definition intersects (emotion_filter : list Emotion) (tags : list pystr) : Prop :=
  exists e, List.In e emotion_filter /\ List.In (EmotionEnum.value e) tags.

(** An answer of the vector store with one query vector. *)
Definition answer (ids : list pystr) (metadatas : list Metadata) (distances : list Q)
  : QueryResult.t :=
  {| QueryResult.ids := [ids]; QueryResult.metadatas := [metadatas];
     QueryResult.distances := [distances] |}.

(** The [n_results] of the last [collection.query] in a trace. *)
Definition last_requested (tr : list Event) : option Z :=
  match last tr with
  | Some (EvCollectionQuery n _ _) => Some n
  | _ => None
  end.

(** The records {喜び, 希望}, {怒り}, {喜び} at distances 0.1, 1.5 and 0.2. *)
Definition three_records : QueryResult.t :=
  answer [str "id1"; str "id2"; str "id3"]
         [Mock.tagged [JOY; HOPE]; Mock.tagged [ANGER]; Mock.tagged [JOY]]
         [(1 # 10)%Q; (3 # 2)%Q; (2 # 10)%Q].

Definition three_records_runtime : Runtime :=
  Mock.runtime Mock.llm_ok Mock.embed_ok None (Return three_records).

(** Every id in use was handed out by [uuid4]. *)
Definition world_ok (w : World) : Prop :=
  (forall id, List.In (EvUuid4 id) (trace w) -> id < issued w) /\
  (forall id m, List.In (id, m) (collection w) -> id < issued w).

(** A request body for /search with only [query] and [top_k] set. *)
Definition search_body (query : pystr) (top_k : option Z) : SearchBody.t :=
  {| SearchBody.query := Some query; SearchBody.top_k := top_k;
     SearchBody.emotion_filter := None; SearchBody.user_id := None;
     SearchBody.date_from := None; SearchBody.date_to := None |}.

(** A message of 10,001 characters. *)
Definition oversized_message : pystr := replicate_char 120%N (Z.to_nat 10001).

(** The service of the repository on collaborators that all work. *)
Definition working_runtime : Runtime :=
  Mock.runtime Mock.llm_ok Mock.embed_ok None Mock.no_answer.

Definition working_service : MemoryServiceAPI :=
  MemoryService.service working_runtime None.

(** The summarizer is down, everything else works. *)
Definition llm_down_runtime : Runtime :=
  Mock.runtime Mock.llm_down Mock.embed_ok None Mock.no_answer.

(** Some query of the batch is blank or has more than 1,000 characters. *)
Definition has_bad_query (queries : list pystr) : Prop :=
  exists query, List.In query queries /\
    (strip query = [] \/ (1000 < len query)%Z).

(** Some item of the batch has a blank message. *)
Definition has_blank_item (requests : list SaveRequest.t) : Prop :=
  exists request, List.In request requests /\
    (strip (SaveRequest.user_message request) = [] \/
     strip (SaveRequest.ai_message request) = []).

(** What the service did for each item of a batch, the items taken in
    input order: a response, or the exception that escaped. *)
Fixpoint service_outcomes (save : SaveRequest.t -> M SaveResponse.t)
         (requests : list SaveRequest.t) (w : World)
  : list (result SaveResponse.t) * World :=
  match requests with
  | [] => ([], w)
  | request :: rest =>
      let '(o, w1) := save request w in
      let '(os, w2) := service_outcomes save rest w1 in
      (o :: os, w2)
  end.

(** The item failed at run time: the service raised, or it answered
    [success = False]. *)
Definition item_failed (o : result SaveResponse.t) : bool :=
  match o with
  | Return response => negb (SaveResponse.success response)
  | Raise _ => true
  end.

(** A response of the service carries a number in [processing_time_ms]. *)
Definition carries_time (o : result SaveResponse.t) : Prop :=
  match o with
  | Return response => SaveResponse.processing_time_ms response <> None
  | Raise _ => True
  end.

(** The per-item Result of an outcome. *)
Definition item_of (index : nat) (o : result SaveResponse.t) : SaveItem.t :=
  match o with
  | Return response => BatchSave.response_item index response
  | Raise e => BatchSave.fault_item index e
  end.

(** A batch that passes the pre-flight checks of /batch-save. *)
Definition valid_batch (requests : list SaveRequest.t) : Prop :=
  requests <> [] /\ length requests <= 100 /\
  Forall (fun request => strip (SaveRequest.user_message request) <> [] /\
                         strip (SaveRequest.ai_message request) <> [])
         requests.

(** A summarizer that fails on the message "fail" and works otherwise. *)
Definition llm_picky (request : LLMRequest.t) : result LLMResponse.t :=
  if str_eqb (LLMRequest.user_message request) (str "fail")
  then Mock.llm_down request
  else Mock.llm_ok request.

Definition picky_runtime : Runtime :=
  Mock.runtime llm_picky Mock.embed_ok None Mock.no_answer.

Definition three_items : list SaveRequest.t :=
  [ Mock.save_request (str "hello") (str "hi");
    Mock.save_request (str "fail") (str "hi");
    Mock.save_request (str "thanks") (str "welcome") ].

(** The service of the repository when the missing declaration of
    [SaveResponse] gives [processing_time_ms] the default [0.0]. *)
Definition picky_service_zero : MemoryServiceAPI :=
  MemoryService.service picky_runtime (Some 0%Q).

(** The same service when the default is [None]. *)
Definition picky_service_none : MemoryServiceAPI :=
  MemoryService.service picky_runtime None.

(** A caller of a debug endpoint (burst 2, 10 per minute, 50 per hour). *)
Definition debug_request : RateLimiter.Request :=
  {| RateLimiter.path := str "/debug/backup";
     RateLimiter.auth_rate_limit_key := None;
     RateLimiter.client_host := Some (str "10.0.0.7") |}.

Definition default_config : RateLimiter.Config :=
  RateLimiter.init_config true ∅.

(** The state [window_checks] leaves: reading [request_counts[key]] on a
    defaultdict creates the entry. *)
Definition touched (s : RateLimiter.State) (key : pystr) : RateLimiter.State :=
  {| RateLimiter.request_counts :=
       <[key := RateLimiter.times_get s key]> (RateLimiter.request_counts s);
     RateLimiter.burst_counts := RateLimiter.burst_counts s;
     RateLimiter.last_cleanup := RateLimiter.last_cleanup s |}.

(** Successive calls of [check_rate_limit] for one request, one per clock
    reading; each reading is paired with the outcome of its call. *)
Fixpoint serve (cfg : RateLimiter.Config) (s : RateLimiter.State)
         (request : RateLimiter.Request) (readings : list Q)
  : list (Q * RateLimiter.Outcome) :=
  match readings with
  | [] => []
  | now :: rest =>
      let r := RateLimiter.check_rate_limit cfg s request now in
      (now, fst r) :: serve cfg (snd r) request rest
  end.

(** The readings at which a call was let through. *)
Definition admitted_at (log : list (Q * RateLimiter.Outcome)) : list Q :=
  List.map fst (List.filter (fun e => RateLimiter.is_allowed (snd e)) log).

(** The state after the burst counter of [key] was set back to 0. *)
Definition burst_cleared (s : RateLimiter.State) (key : pystr) : RateLimiter.State :=
  {| RateLimiter.request_counts := RateLimiter.request_counts s;
     RateLimiter.burst_counts := <[key := 0%Z]> (RateLimiter.burst_counts s);
     RateLimiter.last_cleanup := RateLimiter.last_cleanup s |}.

(** The seconds of the window a denial speaks of. *)
Definition window_of (e : RateLimiter.LimitError) : Q :=
  match e with
  | RateLimiter.burst_limit_exceeded => 1
  | RateLimiter.minute_limit_exceeded => 60
  | RateLimiter.hour_limit_exceeded => 3600
  end%Q.

(** The limits of an endpoint the table does not list. *)
Definition default_limits (env : gmap string Z) : RateLimiter.Limits :=
  {| RateLimiter.rpm := RateLimiter.getenv_int env "RATE_LIMIT_RPM" 60;
     RateLimiter.rph := RateLimiter.getenv_int env "RATE_LIMIT_RPH" 1000;
     RateLimiter.burst := RateLimiter.getenv_int env "RATE_LIMIT_BURST" 10 |}.

(** A deployment that lets a debug endpoint be called once a minute. *)
Definition strict_config : RateLimiter.Config :=
  RateLimiter.init_config true {[ "DEBUG_RATE_LIMIT_RPM" := 1%Z ]}.

(** The limiter after [debug_request] was served at the given readings. *)
Definition state_after (cfg : RateLimiter.Config) (readings : list Q) : RateLimiter.State :=
  fold_left (fun s now => snd (RateLimiter.check_rate_limit cfg s debug_request now))
            readings (RateLimiter.init_state 0).

(** Clock readings that never go back. *)
Fixpoint nondecreasing (readings : list Q) : Prop :=
  match readings with
  | [] => True
  | t :: rest => Forall (Qle t) rest /\ nondecreasing rest
  end.

(** The metadata [add_memory] hands to [collection.add] for [memory]: the
    keys it sets itself, overridden by those [save_memory] prepared. *)
Definition stored_metadata (rt : Runtime) (memory : Memory.t) : Metadata :=
  ChromaMemoryStore.build_metadata rt memory
  ∪ <["emotions"%string :=
        join comma (List.map EmotionEnum.value (Memory.emotions memory))]>
      (<["summary"%string := Memory.summary memory]> ∅).

(** What [to_memory] can rebuild of [memory] from its stored metadata: the
    embedding is not read, and an empty user, session or application name
    reads as an absent one. *)
Definition read_back (memory : Memory.t) : Memory.t :=
  {| Memory.id := Memory.id memory;
     Memory.summary := Memory.summary memory;
     Memory.emotions := Memory.emotions memory;
     Memory.original_user := Memory.original_user memory;
     Memory.original_ai := Memory.original_ai memory;
     Memory.user_id := or_None (or_empty (Memory.user_id memory));
     Memory.session_id := or_None (or_empty (Memory.session_id memory));
     Memory.app_name := or_None (or_empty (Memory.app_name memory));
     Memory.embedding := None;
     Memory.created_at := Memory.created_at memory |}.

(** No character of [s] is [sep]. *)
Definition free_of (sep : N) (s : pystr) : bool :=
  forallb (fun c => negb (c =? sep)%N) s.

(** Collaborators that all work, with a calendar of one-character stamps
    and ids written as that many characters. *)
Definition stamp_runtime : Runtime :=
  {| time_time := fun n => inject_Z (Z.of_nat n);
     utcnow := fun n => Z.of_nat n;
     fromisoformat := fun s => match s with [n] => Some (Z.of_N n) | _ => None end;
     isoformat := fun d => [Z.to_N d];
     parse_uuid := fun s => Some (length s);
     process_memory := fun _ request => Mock.llm_ok request;
     get_embedding := fun _ text => Mock.embed_ok text;
     collection_add := fun _ _ _ _ => None;
     collection_query := fun _ _ _ _ _ => Mock.no_answer |}.

(** A memory with two tags, an empty user id and no session. *)
Definition sample_memory : Memory.t :=
  {| Memory.id := 3;
     Memory.summary := str "a short talk";
     Memory.emotions := [JOY; TRUST];
     Memory.original_user := str "hello";
     Memory.original_ai := str "hi";
     Memory.user_id := Some [];
     Memory.session_id := None;
     Memory.app_name := Some (str "demo");
     Memory.embedding := Some [1%Q];
     Memory.created_at := 7%Z |}.

(** The memories the listing builds from an answer of the vector store,
    before the page is cut out. *)
Definition listed (rt : Runtime) (emotions : option (list Emotion))
           (date_from date_to : option datetime) (results : QueryResult.t)
  : result (list Memory.t) :=
  match QueryResult.ids results with
  | (id0 :: ids0) :: _ =>
      collect (ChromaMemoryStore.filter_item rt emotions date_from date_to results)
              (enumerate (id0 :: ids0))
  | _ => Return []
  end.


(** The text names no emotion. *)
Definition unknown_tag (v : pystr) : Prop :=
  v <> [] /\ forall e : Emotion, EmotionEnum.value e <> v.

(** What a call did for each element of a list, the elements taken in
    order and the world threaded through: a value, or the exception that
    escaped. *)
Fixpoint outcomes {A B} (call : A -> M B) (xs : list A) (w : World)
  : list (result B) * World :=
  match xs with
  | [] => ([], w)
  | x :: rest =>
      let r := call x w in
      let rs := outcomes call rest (snd r) in
      (fst r :: fst rs, snd rs)
  end.

(** The request /batch-search builds for one query. *)
Definition batch_request (top_k : Z) (user_id : option pystr) (query : pystr)
  : SearchRequest.t :=
  {| SearchRequest.query := query; SearchRequest.top_k := top_k;
     SearchRequest.emotion_filter := None; SearchRequest.user_id := user_id;
     SearchRequest.date_from := None; SearchRequest.date_to := None |}.

(** The query failed at run time: the service raised, or it answered
    [success = False]. *)
Definition query_failed (o : result SearchResponse.t) : bool :=
  match o with
  | Return response => negb (SearchResponse.success response)
  | Raise _ => true
  end.

(** The per-query Result of an outcome: the dict of the [try] branch of
    [search_single_query] for a response, that of its [except] branch for an
    exception. *)
Definition search_item_of (index : nat) (query : pystr) (o : result SearchResponse.t)
  : SearchItem.t :=
  match o with
  | Return response =>
      {| SearchItem.index := index;
         SearchItem.query := query;
         SearchItem.success := SearchResponse.success response;
         SearchItem.results :=
           if SearchResponse.success response then SearchResponse.results response
           else [];
         SearchItem.total_count :=
           if SearchResponse.success response then SearchResponse.total_count response
           else 0;
         SearchItem.processing_time_ms :=
           match SearchResponse.processing_time_ms response with
           | Some ms => Value ms
           | None => NoneValue
           end;
         SearchItem.error :=
           if negb (SearchResponse.success response) then SearchResponse.error response
           else None |}
  | Raise e =>
      {| SearchItem.index := index;
         SearchItem.query := query;
         SearchItem.success := false;
         SearchItem.results := [];
         SearchItem.total_count := 0;
         SearchItem.processing_time_ms := Value 0%Q;
         SearchItem.error := Some (UnexpectedError (exn_str e)) |}
  end.

(** A batch that passes the pre-flight checks of /batch-search. *)
Definition valid_queries (queries : list pystr) (top_k : Z) : Prop :=
  queries <> [] /\ length queries <= 50 /\ (1 <= top_k <= 20)%Z /\
  Forall (fun query => strip query <> [] /\ (len query <= 1000)%Z) queries.

(** A body of /search names a date bound. *)
Definition has_date_bound (body : SearchBody.t) : Prop :=
  SearchBody.date_from body <> None \/ SearchBody.date_to body <> None.

(** An embedder that fails on the text "fail" and works otherwise. *)
Definition embed_picky (text : pystr) : result Embedding :=
  if str_eqb text (str "fail")
  then Raise (OtherException (Raw (str "embedding service unavailable")))
  else Mock.embed_ok text.

Definition picky_search_runtime : Runtime :=
  Mock.runtime Mock.llm_ok embed_picky None Mock.no_answer.

Definition picky_search_service : MemoryServiceAPI :=
  MemoryService.service picky_search_runtime None.

(** A body of /search with a readable lower date bound. *)
Definition dated_body : SearchBody.t :=
  {| SearchBody.query := Some (str "walk"); SearchBody.top_k := None;
     SearchBody.emotion_filter := None; SearchBody.user_id := None;
     SearchBody.date_from := Some [7%N]; SearchBody.date_to := None |}.


(** A reply in the format the prompt asks for: a summary line, a line
    feed, an emotion line ("要約: a walk in the park" and "感情: 喜び"). *)
Definition prompted_reply : pystr :=
  ClaudeLLM.summary_label ++ str " a walk in the park" ++ [10%N]
  ++ ClaudeLLM.emotion_label ++ 32%N :: EmotionEnum.value JOY.

(** [s] is empty or starts with a character that is not blank. *)
Definition left_clean (s : pystr) : Prop :=
  match s with
  | [] => True
  | c :: _ => isspace c = false
  end.


(** A handler that counts its invocations and fails with an exception that
    is not an HTTP error the first time it runs. *)
Definition flaky_handler (calls : nat) : result nat * nat :=
  match calls with
  | 0 => (Raise (RuntimeError (Raw (str "connection reset"))), 1)
  | S n => (Return calls, S calls)
  end.


(** A digest for running the model: the text itself. *)
Definition plain_digest (s : pystr) : pystr := s.

(** A deployment that stores one key as its SHA-256 digest. *)
Definition hashed_config : APIKeyAuth.Config :=
  {| APIKeyAuth.auth_enabled := true;
     APIKeyAuth.allowed_api_keys := [str "sha256:0a1b2c"] |}.

(** A request with an empty bearer token and a good key in [X-API-Key]. *)
Definition shadowed_request : APIKeyAuth.Request :=
  {| APIKeyAuth.path := str "/save";
     APIKeyAuth.authorization := Some (str "Bearer ");
     APIKeyAuth.x_api_key := Some (str "0a1b2c");
     APIKeyAuth.query_api_key := None;
     APIKeyAuth.client_host := Some (str "10.0.0.7") |}.

(** The request the service hands to the summarizer for a save. *)
Definition llm_request_of (request : SaveRequest.t) : LLMRequest.t :=
  {| LLMRequest.user_message := SaveRequest.user_message request;
     LLMRequest.ai_message := SaveRequest.ai_message request;
     LLMRequest.context_window := SaveRequest.context_window request;
     LLMRequest.user_id := SaveRequest.user_id request;
     LLMRequest.session_id := SaveRequest.session_id request |}.

(** A request that passes the checks of the /save route. *)
Definition valid_save_request (request : SaveRequest.t) : Prop :=
  strip (SaveRequest.user_message request) <> []
  /\ strip (SaveRequest.ai_message request) <> []
  /\ (len (SaveRequest.user_message request) <= 10000)%Z
  /\ (len (SaveRequest.ai_message request) <= 10000)%Z.

(** A request without date bounds that passes the checks of the /search
    route. *)
Definition valid_search_request (request : SearchRequest.t) : Prop :=
  strip (SearchRequest.query request) <> []
  /\ (1 <= SearchRequest.top_k request <= 100)%Z
  /\ (len (SearchRequest.query request) <= 1000)%Z
  /\ SearchRequest.date_from request = None
  /\ SearchRequest.date_to request = None.

(** The embedder is down, everything else works. *)
Definition embedder_down_runtime : Runtime :=
  Mock.runtime Mock.llm_ok
    (fun _ => Raise (OtherException (Raw (str "embedding service unavailable"))))
    None Mock.no_answer.

(* ===================================================================== *)
(** * Properties *)
(* ===================================================================== *)

(** ** Lists *)

Lemma NoDup_firstn {A} (n : nat) (l : list A) : List.NoDup l -> List.NoDup (firstn n l).
Proof.
  revert n. induction l as [|a l IH]; intros [|n] Hnd; simpl; try constructor.
  - inversion Hnd as [|? ? Hnot Hnd']; subst.
    intros Hin. apply Hnot.
    rewrite <- (firstn_skipn n l). apply in_or_app. now left.
  - inversion Hnd; subst. now apply IH.
Qed.

Lemma In_firstn {A} (n : nat) (l : list A) (x : A) : In x (firstn n l) -> In x l.
Proof.
  intros Hin. rewrite <- (firstn_skipn n l). apply in_or_app. now left.
Qed.

(** ** Emotion extraction (core/llm/base.py) *)

Section ExtractEmotions.
Context {SI : SetIteration}.

Lemma parsed_emotions_spec (text : pystr) (e : Emotion) :
  In e (BaseLLM.parsed_emotions text) <->
  str_contains text (EmotionEnum.value e) = true.
Proof.
  unfold BaseLLM.parsed_emotions. rewrite filter_In.
  split; [tauto|]. intros H. split; [|exact H].
  destruct e; vm_compute; tauto.
Qed.


End ExtractEmotions.

(** Six tags, in the order of the enumeration: 喜び 幸せ 興奮 愛情 感謝 希望. *)
Definition six_tags : pystr :=
  EmotionEnum.value JOY ++ EmotionEnum.value HAPPINESS ++
  EmotionEnum.value EXCITEMENT ++ EmotionEnum.value LOVE ++
  EmotionEnum.value GRATITUDE ++ EmotionEnum.value HOPE.


(** ** The store adapter and the filter (infrastructure/db/memory_store.py) *)

Lemma index_app_here {A} (pre : list A) (x : A) (post : list A) :
  index (pre ++ x :: post) (length pre) = Return x.
Proof.
  unfold index. rewrite nth_error_app2 by lia.
  rewrite Nat.sub_diag. reflexivity.
Qed.

Lemma list_contains_In (xs : list pystr) (x : pystr) :
  list_contains xs x = true <-> List.In x xs.
Proof.
  unfold list_contains. rewrite existsb_exists. split.
  - intros (y & Hy & Heq). unfold str_eqb in Heq.
    apply bool_decide_eq_true_1 in Heq. now subst.
  - intros Hin. exists x. split; [exact Hin|].
    unfold str_eqb. now apply bool_decide_eq_true_2.
Qed.

Lemma emotion_match_intersects (f : list Emotion) (m : Metadata) :
  ChromaMemoryStore.emotion_match f m = true <-> intersects f (record_tags m).
Proof.
  unfold ChromaMemoryStore.emotion_match, intersects, record_tags.
  rewrite existsb_exists. split.
  - intros (v & Hv & Hin). apply in_map_iff in Hv as (e & <- & He).
    exists e. split; [exact He|]. now apply list_contains_In.
  - intros (e & He & Hin). exists (EmotionEnum.value e). split.
    + now apply in_map.
    + now apply list_contains_In.
Qed.

Section Store.
Context (rt : Runtime).

Lemma date_filter_absent (m : Metadata) :
  ChromaMemoryStore.date_filter_keeps rt None None m = Return true.
Proof. reflexivity. Qed.

Lemma collect_search_items (request : SearchRequest.t) (ids0 : list (list pystr)) :
  SearchRequest.date_from request = None ->
  SearchRequest.date_to request = None ->
  forall (ids : list pystr) (metas : list Metadata) (dists : list Q)
         (pre_m : list Metadata) (pre_d : list Q),
    length metas = length ids -> length dists = length ids ->
    length pre_d = length pre_m ->
    collect (ChromaMemoryStore.search_item rt request
               {| QueryResult.ids := ids0;
                  QueryResult.metadatas := [pre_m ++ metas];
                  QueryResult.distances := [pre_d ++ dists] |})
            (combine (seq (length pre_m) (length ids)) ids)
    = Return (List.map candidate_hit
                (List.filter
                   (fun c => ChromaMemoryStore.emotion_filter_keeps
                               (SearchRequest.emotion_filter request) (fst (snd c)))
                   (candidates ids metas dists))).
Proof.
  intros Hfrom Hto.
  induction ids as [|memory_id ids IH]; intros metas dists pre_m pre_d Hm Hd Hpre.
  - reflexivity.
  - destruct metas as [|m metas]; [discriminate|].
    destruct dists as [|d dists]; [discriminate|].
    simpl in Hm, Hd. injection Hm as Hm. injection Hd as Hd.
    cbn [length seq combine collect candidates List.filter fst snd].
    unfold ChromaMemoryStore.search_item at 1.
    cbn [QueryResult.metadatas QueryResult.distances].
    change (index [pre_m ++ m :: metas] 0) with (Return (pre_m ++ m :: metas)).
    change (index [pre_d ++ d :: dists] 0) with (Return (pre_d ++ d :: dists)).
    cbn [rbind]. rewrite index_app_here. cbn [rbind].
    rewrite <- Hpre, index_app_here. cbn [rbind].
    rewrite Hfrom, Hto, date_filter_absent. cbn [rbind].
    specialize (IH metas dists (pre_m ++ [m]) (pre_d ++ [d]) Hm Hd).
    rewrite !length_app in IH. simpl in IH.
    rewrite <- !app_assoc in IH. simpl in IH.
    rewrite Hpre, Nat.add_1_r in IH.
    rewrite Hpre. rewrite IH by lia.
    unfold candidates.
    destruct (ChromaMemoryStore.emotion_filter_keeps
                (SearchRequest.emotion_filter request) m); reflexivity.
Qed.

Lemma convert_results_filtered (request : SearchRequest.t)
      (ids : list pystr) (metas : list Metadata) (dists : list Q) :
  SearchRequest.date_from request = None ->
  SearchRequest.date_to request = None ->
  length metas = length ids -> length dists = length ids ->
  ChromaMemoryStore.convert_results rt request (answer ids metas dists)
  = Return (List.map candidate_hit
              (List.filter
                 (fun c => ChromaMemoryStore.emotion_filter_keeps
                             (SearchRequest.emotion_filter request) (fst (snd c)))
                 (candidates ids metas dists))).
Proof.
  intros Hfrom Hto Hm Hd.
  unfold ChromaMemoryStore.convert_results, answer.
  cbn [QueryResult.ids].
  destruct ids as [|id0 ids]; [reflexivity|].
  unfold enumerate.
  exact (collect_search_items request _ Hfrom Hto (id0 :: ids) metas dists [] [] Hm Hd eq_refl).
Qed.

(** The store adapter asks the vector store once, for exactly [top_k]
    candidates, whatever comes back. *)
Lemma search_memories_trace (qe : Embedding) (request : SearchRequest.t) (w : World) :
  trace (snd (ChromaMemoryStore.search_memories rt qe request w))
  = trace w ++ [EvCollectionQuery (SearchRequest.top_k request)
                  (ChromaMemoryStore.where_filter_of (SearchRequest.user_id request)) qe].
Proof.
  unfold ChromaMemoryStore.search_memories, ChromaDBClient.search_memories,
    try_except, bind, chroma_collection_query, lift, ret.
  destruct (collection_query rt _ _ _ _ _) as [results|e]; cbn.
  - destruct (ChromaMemoryStore.convert_results rt request results); reflexivity.
  - destruct (ChromaMemoryStore.convert_results rt request ChromaDBClient.empty_result);
      reflexivity.
Qed.

Lemma get_memories_by_filter_trace (user_id : option pystr)
      (emotions : option (list Emotion)) (date_from date_to : option datetime)
      (limit offset : Z) (w : World) :
  trace (snd (ChromaMemoryStore.get_memories_by_filter rt user_id emotions
                date_from date_to limit offset w))
  = trace w ++ [EvCollectionQuery (ChromaMemoryStore.fetch_size limit)
                  (ChromaMemoryStore.where_filter_of user_id)
                  ChromaMemoryStore.dummy_vector].
Proof.
  unfold ChromaMemoryStore.get_memories_by_filter, ChromaDBClient.search_memories,
    try_except, bind, chroma_collection_query, lift, ret.
  destruct (collection_query rt _ _ _ _ _) as [results|e]; cbn.
  - match goal with |- context [match ?r with Return _ => _ | Raise _ => _ end] =>
      destruct r end; reflexivity.
  - reflexivity.
Qed.

(** An exception while the candidates are converted (a missing entry, a
    creation date that does not parse) empties the result: the hits
    converted before it are not returned. *)
Lemma search_never_partial (request : SearchRequest.t) (qe : Embedding) (w : World)
      (results : QueryResult.t) (e : exn) :
  collection_query rt (trace w) (collection w) qe (SearchRequest.top_k request)
    (ChromaMemoryStore.where_filter_of (SearchRequest.user_id request))
    = Return results ->
  ChromaMemoryStore.convert_results rt request results = Raise e ->
  fst (ChromaMemoryStore.search_memories rt qe request w) = Return [].
Proof.
  intros Hq Hc.
  unfold ChromaMemoryStore.search_memories, ChromaDBClient.search_memories,
    try_except, bind, chroma_collection_query, lift.
  rewrite Hq. cbn [trace collection]. rewrite Hc. reflexivity.
Qed.

Lemma collect_sound {A B} (f : A -> result (option B)) (xs : list A) :
  forall ys, collect f xs = Return ys ->
  forall y, List.In y ys -> exists x, List.In x xs /\ f x = Return (Some y).
Proof.
  induction xs as [|x xs IH]; intros ys Hc y Hy.
  - injection Hc as <-. destruct Hy.
  - cbn [collect] in Hc.
    destruct (f x) as [o|e] eqn:Hfx; [|discriminate].
    cbn [rbind] in Hc.
    destruct (collect f xs) as [ys'|e] eqn:Hrest; [|discriminate].
    cbn [rbind] in Hc. injection Hc as <-.
    destruct o as [y0|].
    + destruct Hy as [<-|Hy].
      * exists x. split; [now left|exact Hfx].
      * destruct (IH ys' eq_refl y Hy) as (x' & Hx' & Hf).
        exists x'. split; [now right|exact Hf].
    + destruct (IH ys' eq_refl y Hy) as (x' & Hx' & Hf).
      exists x'. split; [now right|exact Hf].
Qed.

(** A hit comes from a candidate that passed the emotion filter. *)
Lemma search_item_sound (request : SearchRequest.t) (results : QueryResult.t)
      (item : nat * pystr) (hit : SearchHit.t) :
  ChromaMemoryStore.search_item rt request results item = Return (Some hit) ->
  exists m, SearchHit.emotions hit = record_tags m
            /\ ChromaMemoryStore.emotion_filter_keeps
                 (SearchRequest.emotion_filter request) m = true.
Proof.
  destruct item as [i memory_id]. unfold ChromaMemoryStore.search_item.
  destruct (index (QueryResult.metadatas results) 0) as [metadatas0|]; [|discriminate].
  cbn [rbind].
  destruct (index metadatas0 i) as [m|]; [|discriminate]. cbn [rbind].
  destruct (index (QueryResult.distances results) 0) as [distances0|]; [|discriminate].
  cbn [rbind].
  destruct (index distances0 i) as [d|]; [|discriminate]. cbn [rbind].
  destruct (ChromaMemoryStore.emotion_filter_keeps
              (SearchRequest.emotion_filter request) m) eqn:Hk; [|discriminate].
  cbn [negb].
  destruct (ChromaMemoryStore.date_filter_keeps rt _ _ m) as [[|]|]; try discriminate.
  cbn [rbind]. intros H. injection H as <-.
  exists m. split; [reflexivity|exact Hk].
Qed.

Lemma convert_results_sound (request : SearchRequest.t) (results : QueryResult.t)
      (hits : list SearchHit.t) :
  ChromaMemoryStore.convert_results rt request results = Return hits ->
  forall hit, List.In hit hits ->
  exists m, SearchHit.emotions hit = record_tags m
            /\ ChromaMemoryStore.emotion_filter_keeps
                 (SearchRequest.emotion_filter request) m = true.
Proof.
  unfold ChromaMemoryStore.convert_results. intros Hc hit Hin.
  destruct (QueryResult.ids results) as [|[|id0 ids0] rest].
  - injection Hc as <-. destruct Hin.
  - injection Hc as <-. destruct Hin.
  - destruct (collect_sound _ _ _ Hc hit Hin) as (item & _ & Hitem).
    exact (search_item_sound request results item hit Hitem).
Qed.

(** C7.  With a non-empty emotion filter, a candidate the vector store
    returned is kept exactly when its emotion set and the filter set have a
    tag in common (any match), and an absent or empty filter keeps every
    candidate.  Every hit of every search with a non-empty filter has a tag
    of the filter; and for a search without date range, on an answer with
    one entry per candidate in each of its lists, the hits are exactly the
    candidates the filter keeps, in the order of the answer. *)
Theorem emotion_filter_any_match (request : SearchRequest.t) (qe : Embedding) (w : World) :
  (forall (e : Emotion) (es : list Emotion) (m : Metadata),
      ChromaMemoryStore.emotion_filter_keeps (Some (e :: es)) m = true
      <-> intersects (e :: es) (record_tags m))
  /\ (forall m : Metadata,
        ChromaMemoryStore.emotion_filter_keeps None m = true /\
        ChromaMemoryStore.emotion_filter_keeps (Some []) m = true)
  /\ (forall (e : Emotion) (es : list Emotion) (hits : list SearchHit.t),
        SearchRequest.emotion_filter request = Some (e :: es) ->
        fst (ChromaMemoryStore.search_memories rt qe request w) = Return hits ->
        forall hit, List.In hit hits -> intersects (e :: es) (SearchHit.emotions hit))
  /\ (forall (ids : list pystr) (metas : list Metadata) (dists : list Q),
        SearchRequest.date_from request = None ->
        SearchRequest.date_to request = None ->
        length metas = length ids -> length dists = length ids ->
        collection_query rt (trace w) (collection w) qe (SearchRequest.top_k request)
          (ChromaMemoryStore.where_filter_of (SearchRequest.user_id request))
          = Return (answer ids metas dists) ->
        fst (ChromaMemoryStore.search_memories rt qe request w)
        = Return (List.map candidate_hit
                    (List.filter
                       (fun c => ChromaMemoryStore.emotion_filter_keeps
                                   (SearchRequest.emotion_filter request) (fst (snd c)))
                       (candidates ids metas dists)))).
Proof.
  split; [|split; [|split]].
  - intros e es m. apply emotion_match_intersects.
  - intros m. split; reflexivity.
  - intros e es hits Hfilter.
    unfold ChromaMemoryStore.search_memories, ChromaDBClient.search_memories,
      try_except, bind, chroma_collection_query, lift, ret.
    destruct (collection_query rt _ _ _ _ _) as [results|e0]; cbn [trace collection].
    + destruct (ChromaMemoryStore.convert_results rt request results) as [hits'|e1] eqn:Hc;
        cbn [fst]; intros H; injection H as <-; intros hit Hin; [|destruct Hin].
      destruct (convert_results_sound request results hits' Hc hit Hin) as (m & -> & Hk).
      rewrite Hfilter in Hk. now apply emotion_match_intersects.
    + cbn. intros H. injection H as <-. intros hit [].
  - intros ids metas dists Hfrom Hto Hm Hd Hq.
    unfold ChromaMemoryStore.search_memories, ChromaDBClient.search_memories,
      try_except, bind, chroma_collection_query, lift.
    rewrite Hq. cbn [trace collection].
    rewrite (convert_results_filtered request ids metas dists Hfrom Hto Hm Hd).
    reflexivity.
Qed.

End Store.

(** The records {喜び, 希望}, {怒り}, {喜び} searched with the filter {喜び}:
    exactly the first and the third come back. *)
Lemma emotion_filter_example :
  fst (ChromaMemoryStore.search_memories three_records_runtime []
         (Mock.search_request (str "q") 5 (Some [JOY])) initial_world)
  = Return (List.map candidate_hit
              [ (str "id1", (Mock.tagged [JOY; HOPE], (1 # 10)%Q));
                (str "id3", (Mock.tagged [JOY], (2 # 10)%Q)) ]).
Proof.
  destruct (emotion_filter_any_match three_records_runtime
              (Mock.search_request (str "q") 5 (Some [JOY])) [] initial_world)
    as (_ & _ & _ & Hexact).
  exact (Hexact [str "id1"; str "id2"; str "id3"]
                [Mock.tagged [JOY; HOPE]; Mock.tagged [ANGER]; Mock.tagged [JOY]]
                [(1 # 10)%Q; (3 # 2)%Q; (2 # 10)%Q]
                eq_refl eq_refl eq_refl eq_refl eq_refl).
Defined.

Lemma fetch_size_exceeds_limit (limit : Z) :
  (1 <= limit < 1000)%Z -> (limit < ChromaMemoryStore.fetch_size limit)%Z.
Proof. unfold ChromaMemoryStore.fetch_size. lia. Qed.




(** ** The service (services/memory_service.py) *)

(** C2, as the code behaves.  The score of a hit is [1 - distance] for the
    distance the store returned, and nothing clamps it: a candidate at a
    distance above 1 comes back with a score below 0 (and one at a negative
    distance with a score above 1). *)
Theorem score_not_clamped (rt : Runtime) (request : SearchRequest.t) (qe : Embedding)
        (w : World) (memory_id : pystr) (m : Metadata) (d : Q) :
  SearchRequest.emotion_filter request = None ->
  SearchRequest.date_from request = None ->
  SearchRequest.date_to request = None ->
  collection_query rt (trace w) (collection w) qe (SearchRequest.top_k request)
    (ChromaMemoryStore.where_filter_of (SearchRequest.user_id request))
    = Return (answer [memory_id] [m] [d]) ->
  exists hit : SearchHit.t,
    fst (ChromaMemoryStore.search_memories rt qe request w) = Return [hit]
    /\ SearchHit.id hit = memory_id
    /\ SearchHit.score hit = (1 - d)%Q
    /\ ((1 < d)%Q -> (SearchHit.score hit < 0)%Q)
    /\ ((d < 0)%Q -> (1 < SearchHit.score hit)%Q).
Proof.
  intros Hfilter Hfrom Hto Hq.
  exists (ChromaMemoryStore.make_hit memory_id d m).
  split.
  - unfold ChromaMemoryStore.search_memories, ChromaDBClient.search_memories,
      try_except, bind, chroma_collection_query, lift.
    rewrite Hq. cbn [trace collection].
    rewrite (convert_results_filtered rt request [memory_id] [m] [d]
               Hfrom Hto eq_refl eq_refl).
    rewrite Hfilter. reflexivity.
  - cbn [ChromaMemoryStore.make_hit SearchHit.id SearchHit.score].
    repeat split; intros; lra.
Qed.

Lemma score_not_clamped_witness :
  exists hit : SearchHit.t,
    fst (ChromaMemoryStore.search_memories
           (Mock.runtime Mock.llm_ok Mock.embed_ok None
              (Return (answer [str "id2"] [Mock.tagged [ANGER]] [(3 # 2)%Q])))
           [] (Mock.search_request (str "q") 5 None) initial_world) = Return [hit]
    /\ SearchHit.score hit = (1 - (3 # 2))%Q
    /\ (SearchHit.score hit < 0)%Q.
Proof.
  destruct (score_not_clamped
              (Mock.runtime Mock.llm_ok Mock.embed_ok None
                 (Return (answer [str "id2"] [Mock.tagged [ANGER]] [(3 # 2)%Q])))
              (Mock.search_request (str "q") 5 None) [] initial_world
              (str "id2") (Mock.tagged [ANGER]) (3 # 2)%Q
              eq_refl eq_refl eq_refl eq_refl)
    as (hit & Hrun & _ & Hscore & Hlow & _).
  exists hit. split; [exact Hrun|]. split; [exact Hscore|].
  apply Hlow. reflexivity.
Defined.

(** The negative score reaches the caller: the service answers
    [success = True] with the record at distance 1.5 scored -0.5. *)
Lemma negative_score_reaches_caller :
  exists (response : SearchResponse.t) (h1 h2 h3 : SearchHit.t),
    fst (MemoryService.search_memories three_records_runtime
           (Mock.search_request (str "q") 5 None) initial_world) = Return response
    /\ SearchResponse.success response = true
    /\ SearchResponse.results response = [h1; h2; h3]
    /\ SearchHit.score h2 = (1 - (3 # 2))%Q
    /\ (SearchHit.score h2 < 0)%Q.
Proof.
  do 4 eexists. split; [vm_compute; reflexivity|].
  repeat split.
Qed.

(** Closes one branch of the case analysis of [save_memory]: the response
    and the later calls are read off the branch. *)
Ltac save_branch Hfresh :=
  eexists; eexists;
  split; [reflexivity|];
  split; [reflexivity|];
  split; [rewrite <- ?app_assoc; reflexivity|];
  split; [intros ev Hev; cbn in Hev;
          repeat (destruct Hev as [<-|Hev]; [reflexivity|]); destruct Hev|];
  split; [reflexivity|];
  split; intros Hs;
  [ first [ discriminate Hs
          | split; [discriminate|]; split; [reflexivity|exact Hfresh] ]
  | first [ discriminate Hs | eexists; reflexivity ] ].

Section Service.
Context (rt : Runtime).
Context (default_processing_time_ms : option Q).

(** C5, as the code behaves.  When the embedder answers and the vector
    store's query raises, the service still reports success, with no
    results: the failure is absorbed below the service and cannot be told
    from an empty answer. *)
Theorem store_failure_reported_as_success (request : SearchRequest.t) (w : World)
        (qe : Embedding) (e : exn) :
  get_embedding rt (trace w) (SearchRequest.query request) = Return qe ->
  collection_query rt (trace w ++ [EvGetEmbedding (SearchRequest.query request)])
    (collection w) qe (SearchRequest.top_k request)
    (ChromaMemoryStore.where_filter_of (SearchRequest.user_id request)) = Raise e ->
  exists response : SearchResponse.t,
    fst (MemoryService.search_memories rt request w) = Return response
    /\ SearchResponse.success response = true
    /\ SearchResponse.results response = []
    /\ SearchResponse.total_count response = 0
    /\ SearchResponse.error response = None.
Proof.
  intros Hemb Hquery.
  unfold MemoryService.search_memories, ChromaMemoryStore.search_memories,
    ChromaDBClient.search_memories, try_except, bind, now,
    embedding_get_embedding, chroma_collection_query, lift, ret.
  cbn [trace collection clock_reads issued]. rewrite Hemb.
  cbn [trace collection clock_reads issued]. rewrite Hquery.
  cbn. eexists. repeat split.
Qed.


End Service.

Lemma store_failure_reported_as_success_witness :
  exists response : SearchResponse.t,
    fst (MemoryService.search_memories
           (Mock.runtime Mock.llm_ok Mock.embed_ok None Mock.store_down)
           (Mock.search_request (str "q") 5 None) initial_world) = Return response
    /\ SearchResponse.success response = true
    /\ SearchResponse.results response = []
    /\ SearchResponse.total_count response = 0
    /\ SearchResponse.error response = None.
Proof.
  exact (store_failure_reported_as_success
           (Mock.runtime Mock.llm_ok Mock.embed_ok None Mock.store_down)
           (Mock.search_request (str "q") 5 None) initial_world [1%Q; 0%Q]
           (OtherException (Raw (str "Database connection failed")))
           eq_refl eq_refl).
Defined.


(** ** Validation at the endpoints (api/endpoints) *)

Lemma truthy_nil_iff (s : pystr) : truthy s = false <-> s = [].
Proof. destruct s; simpl; split; congruence. Qed.

Section Endpoints.
Context (rt : Runtime).
Context (memory_service : MemoryServiceAPI).

(** /save turns away a blank or oversized message with status 400 and
    leaves the world as it was: the service is not called. *)
Lemma save_rejects_before_service (request : SaveRequest.t) (w : World) :
  strip (SaveRequest.user_message request) = [] \/
  strip (SaveRequest.ai_message request) = [] \/
  (10000 < len (SaveRequest.user_message request))%Z \/
  (10000 < len (SaveRequest.ai_message request))%Z ->
  exists detail,
    SaveEndpoint.save_memory memory_service request w
    = (Raise (HTTPException 400 detail), w).
Proof.
  intros H.
  unfold SaveEndpoint.save_memory, SaveEndpoint.max_message_length,
    try_except, reraise_http, raise.
  destruct (truthy (strip (SaveRequest.user_message request))) eqn:Hu; cbn;
    [|eexists; reflexivity].
  destruct (truthy (strip (SaveRequest.ai_message request))) eqn:Ha; cbn;
    [|eexists; reflexivity].
  destruct (10000 <? len (SaveRequest.user_message request))%Z eqn:Hlu; cbn;
    [eexists; reflexivity|].
  destruct (10000 <? len (SaveRequest.ai_message request))%Z eqn:Hla; cbn;
    [eexists; reflexivity|].
  exfalso. destruct H as [H|[H|[H|H]]].
  - rewrite H in Hu. discriminate.
  - rewrite H in Ha. discriminate.
  - apply Z.ltb_ge in Hlu. lia.
  - apply Z.ltb_ge in Hla. lia.
Qed.

(** /search turns away a blank or oversized query the same way. *)
Lemma search_rejects_before_service (request : SearchRequest.t) (w : World) :
  strip (SearchRequest.query request) = [] \/
  (1000 < len (SearchRequest.query request))%Z ->
  exists detail,
    SearchEndpoint.search_memories memory_service request w
    = (Raise (HTTPException 400 detail), w).
Proof.
  intros H.
  unfold SearchEndpoint.search_memories, SearchEndpoint.max_query_length,
    try_except, reraise_http, raise.
  destruct (truthy (strip (SearchRequest.query request))) eqn:Hq; cbn;
    [|eexists; reflexivity].
  destruct ((SearchRequest.top_k request <=? 0)%Z || (100 <? SearchRequest.top_k request)%Z);
    cbn; [eexists; reflexivity|].
  destruct (1000 <? len (SearchRequest.query request))%Z eqn:Hl; cbn;
    [eexists; reflexivity|].
  exfalso. destruct H as [H|H].
  - rewrite H in Hq. discriminate.
  - apply Z.ltb_ge in Hl. lia.
Qed.

Lemma check_items_blank (items : list (nat * SaveRequest.t)) :
  (exists i request, List.In (i, request) items /\
     (strip (SaveRequest.user_message request) = [] \/
      strip (SaveRequest.ai_message request) = [])) ->
  exists detail, BatchSave.check_items items = Some (HTTPException 400 detail).
Proof.
  induction items as [|[i request] items IH]; intros (j & r & Hin & Hblank).
  - destruct Hin.
  - simpl.
    destruct (truthy (strip (SaveRequest.user_message request))) eqn:Hu; cbn;
      [|eexists; reflexivity].
    destruct (truthy (strip (SaveRequest.ai_message request))) eqn:Ha; cbn;
      [|eexists; reflexivity].
    apply IH. destruct Hin as [Heq|Hin].
    + injection Heq as <- <-. destruct Hblank as [H|H].
      * rewrite H in Hu. discriminate.
      * rewrite H in Ha. discriminate.
    + exists j, r. split; assumption.
Qed.

Lemma In_enumerate {A} (xs : list A) (x : A) :
  List.In x xs -> exists i, List.In (i, x) (enumerate xs).
Proof.
  unfold enumerate. generalize 0.
  induction xs as [|y xs IH]; intros k Hin; [destruct Hin|].
  destruct Hin as [->|Hin].
  - exists k. now left.
  - destruct (IH (S k) Hin) as (i & Hi). exists i. now right.
Qed.

(** /batch-save turns away a batch with a blank message before any item
    is handed to the service. *)
Lemma batch_save_rejects_blank_item (requests : list SaveRequest.t) (w : World) :
  has_blank_item requests ->
  exists detail,
    fst (BatchSave.batch_save_memories rt memory_service requests w)
      = Raise (HTTPException 400 detail)
    /\ trace (snd (BatchSave.batch_save_memories rt memory_service requests w))
       = trace w.
Proof.
  intros (request & Hin & Hblank).
  unfold BatchSave.batch_save_memories, try_except, reraise_http, raise, bind, now.
  destruct (In_enumerate requests request Hin) as (i & Hi).
  destruct (check_items_blank (enumerate requests)) as (detail & Hc).
  { exists i, request. split; assumption. }
  rewrite Hc.
  destruct requests as [|r0 requests]; [destruct Hin|].
  destruct (BatchSave.max_batch_size <? len (r0 :: requests))%Z; cbn;
    eexists; split; reflexivity.
Qed.

Lemma check_queries_bad (items : list (nat * pystr)) :
  (exists i query, List.In (i, query) items /\
     (strip query = [] \/ (1000 < len query)%Z)) ->
  exists detail, BatchSearch.check_queries items = Some (HTTPException 400 detail).
Proof.
  induction items as [|[i query] items IH]; intros (j & q & Hin & Hbad).
  - destruct Hin.
  - simpl.
    destruct (truthy (strip query)) eqn:Hq; cbn; [|eexists; reflexivity].
    destruct (1000 <? len query)%Z eqn:Hl; cbn; [eexists; reflexivity|].
    apply IH. destruct Hin as [Heq|Hin].
    + injection Heq as <- <-. destruct Hbad as [H|H].
      * rewrite H in Hq. discriminate.
      * apply Z.ltb_ge in Hl. lia.
    + exists j, q. split; assumption.
Qed.

(** /batch-search turns away a batch with a blank or oversized query before
    any query is handed to the service. *)
Lemma batch_search_rejects_bad_query (queries : list pystr) (top_k : Z)
      (user_id : option pystr) (w : World) :
  has_bad_query queries ->
  exists detail,
    fst (BatchSearch.batch_search_memories rt memory_service queries top_k user_id w)
      = Raise (HTTPException 400 detail)
    /\ trace (snd (BatchSearch.batch_search_memories rt memory_service queries
                     top_k user_id w)) = trace w.
Proof.
  intros (query & Hin & Hbad).
  unfold BatchSearch.batch_search_memories, try_except, reraise_http, raise, bind, now.
  destruct (In_enumerate queries query Hin) as (i & Hi).
  destruct (check_queries_bad (enumerate queries)) as (detail & Hc).
  { exists i, query. split; assumption. }
  rewrite Hc.
  destruct queries as [|q0 queries]; [destruct Hin|].
  destruct (BatchSearch.max_batch_size <? len (q0 :: queries))%Z; cbn;
    [eexists; split; reflexivity|].
  destruct (BatchSearch.top_k_rejected top_k); cbn; eexists; split; reflexivity.
Qed.

(** C9, as the code behaves.  A /search body with [top_k] from 21 to 100
    is turned away with status 422 when the request object is built, before
    the route runs and before the service is called; the route's own check,
    which allows 1 to 100, would have let it through. *)
Theorem search_top_k_above_20_refused_by_schema (query : pystr) (k : Z) (w : World) :
  (20 < k <= 100)%Z ->
  SearchEndpoint.post_search rt memory_service (search_body query (Some k)) w
    = (Raise (HTTPException 422 (SchemaViolation "top_k")), w)
  /\ ((k <=? 0)%Z || (100 <? k)%Z) = false.
Proof.
  intros Hk. split.
  - unfold SearchEndpoint.post_search, SearchEndpoint.parse_body, search_body,
      SearchEndpoint.check_top_k, SearchRequest.top_k_ge, SearchRequest.top_k_le,
      bind, lift.
    cbn [SearchBody.query SearchBody.top_k rbind].
    destruct (k <? 1)%Z eqn:H1; [apply Z.ltb_lt in H1; lia|].
    destruct (20 <? k)%Z eqn:H2; [reflexivity|apply Z.ltb_ge in H2; lia].
  - apply orb_false_iff. split; [apply Z.leb_gt|apply Z.ltb_ge]; lia.
Qed.

(** The request object takes [top_k] from 1 to 20 and nothing else. *)
Lemma schema_top_k_range (k : Z) :
  SearchEndpoint.check_top_k k = Return k <-> (1 <= k <= 20)%Z.
Proof.
  unfold SearchEndpoint.check_top_k, SearchEndpoint.unprocessable,
    SearchRequest.top_k_ge, SearchRequest.top_k_le.
  destruct (k <? 1)%Z eqn:H1; destruct (20 <? k)%Z eqn:H2; cbn;
    rewrite ?Z.ltb_lt, ?Z.ltb_ge in *; split; intros H;
    try discriminate; try lia; try reflexivity.
Qed.

(** A body without [top_k] asks for five results. *)
Lemma search_top_k_default (query : pystr) :
  exists request,
    SearchEndpoint.parse_body rt (search_body query None) = Return request
    /\ SearchRequest.top_k request = 5%Z.
Proof. eexists. split; reflexivity. Qed.

(** The route of /search refuses [top_k] outside 1 to 100. *)
Lemma route_top_k_range (request : SearchRequest.t) (w : World) :
  strip (SearchRequest.query request) <> [] ->
  ((SearchRequest.top_k request <= 0)%Z \/ (100 < SearchRequest.top_k request)%Z) ->
  SearchEndpoint.search_memories memory_service request w
  = (Raise (HTTPException 400 (TopKRange 1 100)), w).
Proof.
  intros Hq Hk.
  unfold SearchEndpoint.search_memories, try_except, reraise_http, raise.
  destruct (truthy (strip (SearchRequest.query request))) eqn:Ht.
  2:{ apply truthy_nil_iff in Ht. contradiction. }
  cbn.
  destruct ((SearchRequest.top_k request <=? 0)%Z || (100 <? SearchRequest.top_k request)%Z) eqn:Hb.
  - reflexivity.
  - apply orb_false_iff in Hb as [H1 H2].
    apply Z.leb_gt in H1. apply Z.ltb_ge in H2. lia.
Qed.

(** /batch-search takes [top_k] from 1 to 20. *)
Lemma batch_search_top_k_range (k : Z) :
  BatchSearch.top_k_rejected k = false <-> (1 <= k <= 20)%Z.
Proof.
  unfold BatchSearch.top_k_rejected, BatchSearch.max_top_k.
  rewrite orb_false_iff, Z.leb_gt, Z.ltb_ge. lia.
Qed.

End Endpoints.

Lemma search_top_k_50_refused :
  SearchEndpoint.post_search working_runtime working_service
    (search_body (str "test") (Some 50%Z)) initial_world
    = (Raise (HTTPException 422 (SchemaViolation "top_k")), initial_world)
  /\ ((50 <=? 0)%Z || (100 <? 50)%Z) = false.
Proof.
  apply (search_top_k_above_20_refused_by_schema working_runtime working_service
           (str "test") 50%Z initial_world).
  lia.
Defined.

(** C4, at a failing input.  A /batch-save whose only item has a user
    message of 10,001 characters is not turned away: the item goes through
    the service, the summarizer, the embedder and the store are called and a
    record is stored, whereas /save refuses the same request with status 400
    and calls nothing. *)
Theorem batch_save_accepts_oversized_message :
  let request := Mock.save_request oversized_message (str "ok") in
  let run := BatchSave.batch_save_memories working_runtime working_service
               [request] initial_world in
  len (SaveRequest.user_message request) = 10001%Z
  /\ (exists report, fst run = Return report
                     /\ BatchSaveReport.successful_saves report = 1)
  /\ length (List.filter is_provider_or_store_call (trace (snd run))) = 3
  /\ length (collection (snd run)) = 1
  /\ SaveEndpoint.save_memory working_service request initial_world
     = (Raise (HTTPException 400 (UserMessageTooLong 10000)), initial_world).
Proof.
  cbv zeta. split; [vm_compute; reflexivity|].
  split; [eexists; split; vm_compute; reflexivity|].
  split; [vm_compute; reflexivity|].
  split; vm_compute; reflexivity.
Qed.

(** ** Batch save (api/endpoints/batch.py) *)

Section BatchSaveIsolation.
Context (rt : Runtime).
Context (memory_service : MemoryServiceAPI).

Abbreviation save := (svc_save_memory memory_service).
Abbreviation items_of k os :=
  (List.map (fun io : nat * result SaveResponse.t => item_of (fst io) (snd io))
            (combine (seq k (length os)) os)).

Lemma service_outcomes_length (requests : list SaveRequest.t) (w : World) :
  length (fst (service_outcomes save requests w)) = length requests.
Proof.
  revert w. induction requests as [|r requests IH]; intros w; [reflexivity|].
  simpl. destruct (save r w) as [o w1].
  specialize (IH w1). destruct (service_outcomes save requests w1) as [os w2].
  simpl in *. now rewrite IH.
Qed.

(** A task ends with the Result of its own item, whatever the service
    did for it. *)
Lemma run_save_task (i : nat) (request : SaveRequest.t) (w : World) :
  try_except (let* x := BatchSave.save_single_memory memory_service i request in
              ret (Return x))
             (fun e => ret (Raise e)) w
  = (Return (Return (item_of i (fst (save request w)))), snd (save request w)).
Proof.
  unfold BatchSave.save_single_memory, try_except, bind, ret.
  destruct (save request w) as [[response|e] w1]; reflexivity.
Qed.

(** The tasks run one after the other and each leaves its Result. *)
Lemma gather_save_tasks (requests : list SaveRequest.t) :
  forall (k : nat) (w : World),
    gather (List.map (fun '(i, request) =>
                        BatchSave.save_single_memory memory_service i request)
                     (combine (seq k (length requests)) requests)) w
    = (Return (List.map Return
                 (items_of k (fst (service_outcomes save requests w)))),
       snd (service_outcomes save requests w)).
Proof.
  induction requests as [|r requests IH]; intros k w; [reflexivity|].
  cbn [length seq combine List.map service_outcomes].
  unfold gather in *. cbn [mapM].
  unfold bind at 1. rewrite run_save_task.
  destruct (save r w) as [o w1] eqn:Ho.
  specialize (IH (S k) w1).
  pose proof (service_outcomes_length requests w1) as Hlen.
  destruct (service_outcomes save requests w1) as [os w2] eqn:Hos.
  cbn [fst snd] in *.
  unfold bind at 1. rewrite IH.
  cbn [ret length seq combine List.map fst snd].
  rewrite Hlen. reflexivity.
Qed.

Lemma tally_returns (items : list SaveItem.t) :
  forall (s f : nat) (processed : list SaveItem.t),
    BatchSave.tally (List.map Return items) s f processed
    = (s + length (List.filter SaveItem.success items),
       f + length (List.filter (fun it => negb (SaveItem.success it)) items),
       processed ++ items).
Proof.
  induction items as [|it items IH]; intros s f processed.
  - cbn. now rewrite !Nat.add_0_r, app_nil_r.
  - cbn [List.map BatchSave.tally List.filter].
    destruct (SaveItem.success it); cbn [negb length]; rewrite IH;
      rewrite <- app_assoc; cbn [app]; f_equal; f_equal; lia.
Qed.

Lemma item_of_success (i : nat) (o : result SaveResponse.t) :
  SaveItem.success (item_of i o) = negb (item_failed o).
Proof. destruct o; cbn; [now rewrite negb_involutive|reflexivity]. Qed.

Lemma count_failed_items (os : list (result SaveResponse.t)) (k : nat) :
  length (List.filter (fun it => negb (SaveItem.success it)) (items_of k os))
  = length (List.filter item_failed os).
Proof.
  revert k. induction os as [|o os IH]; intros k; [reflexivity|].
  cbn [length seq combine List.map List.filter fst snd].
  rewrite item_of_success, negb_involutive.
  destruct (item_failed o); cbn [length]; now rewrite IH.
Qed.

Lemma count_succeeded_items (os : list (result SaveResponse.t)) (k : nat) :
  length (List.filter SaveItem.success (items_of k os))
  + length (List.filter item_failed os) = length os.
Proof.
  revert k. induction os as [|o os IH]; intros k; [reflexivity|].
  cbn [length seq combine List.map List.filter fst snd].
  rewrite item_of_success.
  destruct (item_failed o); cbn [negb length]; specialize (IH (S k)); lia.
Qed.

Lemma sum_times_defined (os : list (result SaveResponse.t)) :
  Forall carries_time os ->
  forall (k : nat) (acc : Q),
    exists total, BatchSave.sum_times (items_of k os) acc = Return total.
Proof.
  induction 1 as [|o os Ho _ IH]; intros k acc; [now exists acc|].
  cbn [length seq combine List.map BatchSave.sum_times fst snd].
  destruct o as [response|e]; cbn.
  - cbn in Ho.
    destruct (SaveResponse.processing_time_ms response) as [ms|]; [|congruence].
    apply IH.
  - apply IH.
Qed.

Lemma check_items_pass (requests : list SaveRequest.t) :
  Forall (fun request => strip (SaveRequest.user_message request) <> [] /\
                         strip (SaveRequest.ai_message request) <> [])
         requests ->
  forall k, BatchSave.check_items (combine (seq k (length requests)) requests) = None.
Proof.
  induction 1 as [|r requests [Hu Ha] _ IH]; intros k; [reflexivity|].
  cbn [length seq combine BatchSave.check_items].
  destruct (truthy (strip (SaveRequest.user_message r))) eqn:Htu.
  2:{ apply truthy_nil_iff in Htu. contradiction. }
  destruct (truthy (strip (SaveRequest.ai_message r))) eqn:Hta.
  2:{ apply truthy_nil_iff in Hta. contradiction. }
  cbn. apply IH.
Qed.



End BatchSaveIsolation.


(** The hypothesis on [processing_time_ms] is needed.  If the answers of
    the service carry [None] there, the average in the summary cannot be
    computed, and a batch with one failing item ends with status 500 and no
    report, after the two other items were stored. *)
Lemma batch_report_lost_when_time_is_None :
  fst (BatchSave.batch_save_memories picky_runtime picky_service_none
         three_items initial_world)
    = Raise (HTTPException 500 (BatchSaveError NoneInSum))
  /\ length (collection (snd (BatchSave.batch_save_memories picky_runtime
                                picky_service_none three_items initial_world))) = 2.
Proof. split; vm_compute; reflexivity. Qed.

(** ** The rate limiter (api/middleware/rate_limit.py) *)

Section RateLimit.
Context (cfg : RateLimiter.Config).

Lemma Qle_bool_false (x y : Q) : (y < x)%Q -> Qle_bool x y = false.
Proof.
  intros H. destruct (Qle_bool x y) eqn:E; [|reflexivity].
  apply Qle_bool_iff in E. lra.
Qed.

Lemma Qle_bool_true (x y : Q) : (x <= y)%Q -> Qle_bool x y = true.
Proof. apply Qle_bool_iff. Qed.

Lemma drop_old_snoc (now : Q) (ts : list Q) :
  exists ts', RateLimiter.drop_old (now - 3600)%Q (ts ++ [now]) = ts' ++ [now]
              /\ length ts' <= length ts.
Proof.
  induction ts as [|t ts IH].
  - exists []. split; [|reflexivity]. simpl.
    unfold RateLimiter.Qltb. rewrite Qle_bool_true by lra. reflexivity.
  - simpl. destruct (RateLimiter.Qltb t (now - 3600)).
    + destruct IH as (ts' & -> & Hle). exists ts'. split; [reflexivity|]. simpl. lia.
    + exists (t :: ts). split; reflexivity.
Qed.

Lemma count_after_le (cutoff : Q) (ts : list Q) :
  (RateLimiter.count_after cutoff ts <= len ts)%Z.
Proof.
  unfold RateLimiter.count_after, len.
  apply inj_le, List.filter_length_le.
Qed.

Lemma touched_times (s : RateLimiter.State) (key : pystr) :
  RateLimiter.times_get (touched s key) key = RateLimiter.times_get s key.
Proof.
  unfold RateLimiter.times_get at 1, touched. cbn [RateLimiter.request_counts].
  now rewrite lookup_insert_eq.
Qed.

Lemma touched_burst (s : RateLimiter.State) (key : pystr) :
  RateLimiter.burst_get (touched s key) key = RateLimiter.burst_get s key.
Proof. reflexivity. Qed.

(** Below both window caps the request passes the window checks. *)
Lemma window_checks_allow (lim : RateLimiter.Limits) (current_burst : Z)
      (s : RateLimiter.State) (key : pystr) (now : Q) :
  (len (RateLimiter.times_get s key) < RateLimiter.rpm lim)%Z ->
  (len (RateLimiter.times_get s key) < RateLimiter.rph lim)%Z ->
  exists details,
    RateLimiter.window_checks lim current_burst s key now
    = (RateLimiter.Allow details, touched s key).
Proof.
  intros Hm Hh. unfold RateLimiter.window_checks.
  pose proof (count_after_le (now - 60)%Q (RateLimiter.times_get s key)) as H1.
  pose proof (count_after_le (now - 3600)%Q (RateLimiter.times_get s key)) as H2.
  destruct (RateLimiter.rpm lim <=? _)%Z eqn:E1; [apply Z.leb_le in E1; lia|].
  destruct (RateLimiter.rph lim <=? _)%Z eqn:E2; [apply Z.leb_le in E2; lia|].
  eexists. reflexivity.
Qed.

(** The window checks never touch the burst counters. *)
Lemma window_checks_burst (lim : RateLimiter.Limits) (current_burst : Z)
      (s : RateLimiter.State) (key : pystr) (now : Q) :
  RateLimiter.burst_counts (snd (RateLimiter.window_checks lim current_burst s key now))
  = RateLimiter.burst_counts s.
Proof.
  unfold RateLimiter.window_checks.
  destruct (RateLimiter.rpm lim <=? _)%Z; [reflexivity|].
  destruct (RateLimiter.rph lim <=? _)%Z; reflexivity.
Qed.

(** Recording a request appends its time and adds one to the burst
    counter; a cleanup in the same call keeps both. *)
Lemma record_request_effect (s : RateLimiter.State) (key : pystr) (now : Q) :
  RateLimiter.burst_get (RateLimiter._record_request cfg s key now) key
    = (RateLimiter.burst_get s key + 1)%Z
  /\ exists ts',
       RateLimiter.times_get (RateLimiter._record_request cfg s key now) key
         = ts' ++ [now]
       /\ length ts' <= length (RateLimiter.times_get s key).
Proof.
  unfold RateLimiter._record_request, RateLimiter._cleanup_old_requests.
  cbn [RateLimiter.last_cleanup RateLimiter.request_counts RateLimiter.burst_counts].
  destruct (drop_old_snoc now (RateLimiter.times_get s key)) as (ts' & Hdrop & Hle).
  destruct (RateLimiter.Qltb _ _);
    unfold RateLimiter.burst_get, RateLimiter.times_get in *;
    cbn [RateLimiter.request_counts RateLimiter.burst_counts].
  - rewrite !lookup_insert_eq. split; [reflexivity|].
    eexists. split; [reflexivity|lia].
  - split.
    + rewrite map_lookup_filter, lookup_insert_eq. cbn.
      rewrite option_guard_True; [reflexivity|].
      unfold RateLimiter.survives. rewrite lookup_insert_eq, Hdrop.
      destruct ts'; reflexivity.
    + rewrite lookup_omap, lookup_insert_eq. cbn. rewrite Hdrop.
      exists ts'. split; [|exact Hle].
      destruct ts'; reflexivity.
Qed.

(** The burst reset rule: a saturated counter is set to 0 by the check
    when the latest recorded request is at least one second old. *)
Lemma burst_reset_when_saturated (s : RateLimiter.State) (key endpoint : pystr)
      (now latest : Q) (ts : list Q) :
  (RateLimiter.burst (RateLimiter._get_endpoint_limits cfg endpoint)
     <= RateLimiter.burst_get s key)%Z ->
  RateLimiter.times_get s key = ts ++ [latest] ->
  (1 <= now - latest)%Q ->
  RateLimiter.burst_get
    (snd (RateLimiter._check_rate_limit cfg s key endpoint now)) key = 0%Z.
Proof.
  intros Hsat Hts Hold. unfold RateLimiter._check_rate_limit.
  apply Z.leb_le in Hsat. rewrite Hsat, Hts, last_snoc.
  rewrite Qle_bool_true by exact Hold.
  unfold RateLimiter.burst_get. rewrite window_checks_burst.
  cbn [RateLimiter.burst_counts]. now rewrite lookup_insert_eq.
Qed.

Context (request : RateLimiter.Request).
Hypothesis Henabled : RateLimiter.enabled cfg = true.
Hypothesis Hprivate :
  list_contains RateLimiter.public_endpoints (RateLimiter.path request) = false.

Abbreviation key := (RateLimiter._get_rate_limit_key request).
Abbreviation lim := (RateLimiter._get_endpoint_limits cfg (RateLimiter.path request)).

(** Below the burst cap and both window caps the request is admitted and
    recorded. *)
Lemma admitted_below_caps (s : RateLimiter.State) (now : Q) :
  (RateLimiter.burst_get s key < RateLimiter.burst lim)%Z ->
  (len (RateLimiter.times_get s key) < RateLimiter.rpm lim)%Z ->
  (len (RateLimiter.times_get s key) < RateLimiter.rph lim)%Z ->
  RateLimiter.is_allowed (fst (RateLimiter.check_rate_limit cfg s request now)) = true
  /\ RateLimiter.burst_get (snd (RateLimiter.check_rate_limit cfg s request now)) key
     = (RateLimiter.burst_get s key + 1)%Z
  /\ exists ts',
       RateLimiter.times_get (snd (RateLimiter.check_rate_limit cfg s request now)) key
         = ts' ++ [now]
       /\ length ts' <= length (RateLimiter.times_get s key).
Proof.
  intros Hb Hm Hh. unfold RateLimiter.check_rate_limit.
  rewrite Henabled, Hprivate. cbn [negb].
  unfold RateLimiter._check_rate_limit.
  destruct (RateLimiter.burst lim <=? RateLimiter.burst_get s key)%Z eqn:E;
    [apply Z.leb_le in E; lia|].
  destruct (window_checks_allow lim (RateLimiter.burst_get s key) s key now Hm Hh)
    as (details & ->).
  cbn [fst snd RateLimiter.is_allowed].
  destruct (record_request_effect (touched s key) key now) as (Hburst & ts' & Hts & Hle).
  rewrite touched_burst in Hburst. rewrite touched_times in Hle.
  split; [reflexivity|]. split; [exact Hburst|].
  exists ts'. split; assumption.
Qed.

(** At the burst cap, less than a second after the latest recorded
    request, the request is denied and nothing changes. *)
Lemma denied_within_a_second (s : RateLimiter.State) (now latest : Q) (ts : list Q) :
  (RateLimiter.burst lim <= RateLimiter.burst_get s key)%Z ->
  RateLimiter.times_get s key = ts ++ [latest] ->
  (now - latest < 1)%Q ->
  RateLimiter.denial_error (fst (RateLimiter.check_rate_limit cfg s request now))
    = Some RateLimiter.burst_limit_exceeded
  /\ snd (RateLimiter.check_rate_limit cfg s request now) = s.
Proof.
  intros Hsat Hts Hnew. unfold RateLimiter.check_rate_limit.
  rewrite Henabled, Hprivate. cbn [negb].
  unfold RateLimiter._check_rate_limit.
  apply Z.leb_le in Hsat. rewrite Hsat, Hts, last_snoc.
  rewrite Qle_bool_false by exact Hnew.
  split; reflexivity.
Qed.

(** At the burst cap, a second or more after the latest recorded request,
    the counter is reset, the request is admitted and recorded, and the
    counter stands at 1. *)
Lemma admitted_after_a_second (s : RateLimiter.State) (now latest : Q) (ts : list Q) :
  (RateLimiter.burst lim <= RateLimiter.burst_get s key)%Z ->
  RateLimiter.times_get s key = ts ++ [latest] ->
  (1 <= now - latest)%Q ->
  (len (RateLimiter.times_get s key) < RateLimiter.rpm lim)%Z ->
  (len (RateLimiter.times_get s key) < RateLimiter.rph lim)%Z ->
  RateLimiter.is_allowed (fst (RateLimiter.check_rate_limit cfg s request now)) = true
  /\ RateLimiter.burst_get (snd (RateLimiter.check_rate_limit cfg s request now)) key
     = 1%Z.
Proof.
  intros Hsat Hts Hold Hm Hh. unfold RateLimiter.check_rate_limit.
  rewrite Henabled, Hprivate. cbn [negb].
  unfold RateLimiter._check_rate_limit.
  apply Z.leb_le in Hsat. rewrite Hsat.
  destruct (last (RateLimiter.times_get s key)) as [l|] eqn:Hlast;
    rewrite Hts, last_snoc in Hlast; [|discriminate].
  injection Hlast as <-.
  rewrite Qle_bool_true by exact Hold.
  set (s0 := {| RateLimiter.request_counts := RateLimiter.request_counts s;
                RateLimiter.burst_counts := <[key := 0%Z]> (RateLimiter.burst_counts s);
                RateLimiter.last_cleanup := RateLimiter.last_cleanup s |}).
  assert (Ht0 : RateLimiter.times_get s0 key = RateLimiter.times_get s key) by reflexivity.
  assert (Hb0 : RateLimiter.burst_get s0 key = 0%Z).
  { unfold RateLimiter.burst_get, s0. cbn [RateLimiter.burst_counts].
    now rewrite lookup_insert_eq. }
  destruct (window_checks_allow lim (RateLimiter.burst_get s key) s0 key now)
    as (details & ->); [rewrite Ht0; exact Hm|rewrite Ht0; exact Hh|].
  cbn [fst snd RateLimiter.is_allowed].
  destruct (record_request_effect (touched s0 key) key now) as (Hburst & _).
  rewrite touched_burst, Hb0 in Hburst.
  split; [reflexivity|exact Hburst].
Qed.


End RateLimit.



(** ** More on the rate limiter: histories, windows and identities *)

Section RateLimitHistory.
Context (cfg : RateLimiter.Config).

Lemma Qltb_true (a b : Q) : RateLimiter.Qltb a b = true <-> (a < b)%Q.
Proof.
  unfold RateLimiter.Qltb. split; intros H.
  - destruct (Qle_bool b a) eqn:E; [discriminate|].
    destruct (Qlt_le_dec a b) as [Hlt|Hle]; [exact Hlt|].
    apply Qle_bool_iff in Hle. congruence.
  - destruct (Qle_bool b a) eqn:E; [|reflexivity].
    apply Qle_bool_iff in E. lra.
Qed.

Lemma Qltb_false (a b : Q) : RateLimiter.Qltb a b = false <-> (b <= a)%Q.
Proof.
  unfold RateLimiter.Qltb. split; intros H.
  - destruct (Qle_bool b a) eqn:E; [|discriminate]. now apply Qle_bool_iff.
  - apply Qle_bool_iff in H. now rewrite H.
Qed.

Lemma count_after_app (c : Q) (xs ys : list Q) :
  RateLimiter.count_after c (xs ++ ys)
  = (RateLimiter.count_after c xs + RateLimiter.count_after c ys)%Z.
Proof.
  unfold RateLimiter.count_after, len.
  rewrite List.filter_app, length_app. lia.
Qed.

Lemma count_after_cons (c t : Q) (ts : list Q) :
  RateLimiter.count_after c (t :: ts)
  = ((if RateLimiter.Qltb c t then 1 else 0) + RateLimiter.count_after c ts)%Z.
Proof.
  unfold RateLimiter.count_after, len. cbn [List.filter].
  destruct (RateLimiter.Qltb c t); cbn [length]; lia.
Qed.

(** What the cleanup pops is older than every cutoff it can be asked
    about afterwards. *)
Lemma count_after_drop_old (cutoff c : Q) (ts : list Q) :
  (cutoff <= c)%Q ->
  RateLimiter.count_after c (RateLimiter.drop_old cutoff ts)
  = RateLimiter.count_after c ts.
Proof.
  intros Hc. induction ts as [|t ts IH]; [reflexivity|].
  cbn [RateLimiter.drop_old].
  destruct (RateLimiter.Qltb t cutoff) eqn:E; [|reflexivity].
  rewrite IH, count_after_cons.
  apply Qltb_true in E.
  destruct (RateLimiter.Qltb c t) eqn:E'; [apply Qltb_true in E'; lra|lia].
Qed.

Lemma touched_times_any (s : RateLimiter.State) (key k : pystr) :
  RateLimiter.times_get (touched s key) k = RateLimiter.times_get s k.
Proof.
  unfold RateLimiter.times_get at 1, touched. cbn [RateLimiter.request_counts].
  destruct (decide (key = k)) as [->|Hne].
  - now rewrite lookup_insert_eq.
  - now rewrite lookup_insert_ne.
Qed.

Lemma window_checks_state (lim : RateLimiter.Limits) (current_burst : Z)
      (s : RateLimiter.State) (key : pystr) (now : Q) :
  snd (RateLimiter.window_checks lim current_burst s key now) = touched s key.
Proof.
  unfold RateLimiter.window_checks.
  destruct (RateLimiter.rpm lim <=? _)%Z; [reflexivity|].
  destruct (RateLimiter.rph lim <=? _)%Z; reflexivity.
Qed.

(** The three states [_check_rate_limit] can leave. *)
Lemma check_state (s : RateLimiter.State) (key endpoint : pystr) (now : Q) :
  let s' := snd (RateLimiter._check_rate_limit cfg s key endpoint now) in
  s' = s \/ s' = touched s key \/ s' = touched (burst_cleared s key) key.
Proof.
  unfold RateLimiter._check_rate_limit. cbv zeta.
  destruct (_ <=? _)%Z.
  - destruct (last _); [|now left].
    destruct (Qle_bool _ _); [|now left].
    right; right. apply window_checks_state.
  - right; left. apply window_checks_state.
Qed.

Lemma check_keeps_times (s : RateLimiter.State) (key endpoint k : pystr) (now : Q) :
  RateLimiter.times_get (snd (RateLimiter._check_rate_limit cfg s key endpoint now)) k
  = RateLimiter.times_get s k.
Proof.
  destruct (check_state s key endpoint now) as [-> | [-> | ->]];
    [reflexivity|apply touched_times_any|].
  now rewrite touched_times_any.
Qed.

Lemma check_keeps_other_burst (s : RateLimiter.State) (key endpoint k : pystr) (now : Q) :
  k <> key ->
  RateLimiter.burst_get (snd (RateLimiter._check_rate_limit cfg s key endpoint now)) k
  = RateLimiter.burst_get s k.
Proof.
  intros Hne.
  destruct (check_state s key endpoint now) as [-> | [-> | ->]]; try reflexivity.
  unfold RateLimiter.burst_get, touched, burst_cleared.
  cbn [RateLimiter.burst_counts]. now rewrite lookup_insert_ne.
Qed.

Lemma check_keeps_last_cleanup (s : RateLimiter.State) (key endpoint : pystr) (now : Q) :
  RateLimiter.last_cleanup (snd (RateLimiter._check_rate_limit cfg s key endpoint now))
  = RateLimiter.last_cleanup s.
Proof.
  destruct (check_state s key endpoint now) as [-> | [-> | ->]]; reflexivity.
Qed.

(** The history of a key after the cleanup: as it was, or with its old
    head popped. *)
Lemma cleanup_times (s : RateLimiter.State) (now : Q) (k : pystr) :
  RateLimiter.times_get (RateLimiter._cleanup_old_requests cfg s now) k
  = RateLimiter.times_get s k
  \/ RateLimiter.times_get (RateLimiter._cleanup_old_requests cfg s now) k
     = RateLimiter.drop_old (now - 3600)%Q (RateLimiter.times_get s k).
Proof.
  unfold RateLimiter._cleanup_old_requests.
  destruct (RateLimiter.Qltb _ _); [now left|right].
  unfold RateLimiter.times_get. cbn [RateLimiter.request_counts].
  rewrite lookup_omap.
  destruct (RateLimiter.request_counts s !! k) as [ts|]; [|reflexivity].
  cbn. destruct (RateLimiter.drop_old _ ts); reflexivity.
Qed.

Lemma cleanup_count_after (s : RateLimiter.State) (now c : Q) (k : pystr) :
  (now - 3600 <= c)%Q ->
  RateLimiter.count_after c
    (RateLimiter.times_get (RateLimiter._cleanup_old_requests cfg s now) k)
  = RateLimiter.count_after c (RateLimiter.times_get s k).
Proof.
  intros Hc. destruct (cleanup_times s now k) as [E|E]; rewrite E; [reflexivity|].
  now apply count_after_drop_old.
Qed.

Lemma cleanup_burst_kept (s : RateLimiter.State) (now : Q) (k : pystr) :
  RateLimiter.times_get (RateLimiter._cleanup_old_requests cfg s now) k <> [] ->
  RateLimiter.burst_get (RateLimiter._cleanup_old_requests cfg s now) k
  = RateLimiter.burst_get s k.
Proof.
  unfold RateLimiter._cleanup_old_requests.
  destruct (RateLimiter.Qltb _ _); [reflexivity|].
  unfold RateLimiter.times_get, RateLimiter.burst_get.
  cbn [RateLimiter.request_counts RateLimiter.burst_counts].
  rewrite lookup_omap, map_lookup_filter. intros Hkept.
  destruct (RateLimiter.burst_counts s !! k) as [n|]; [|reflexivity].
  cbn. rewrite option_guard_True; [reflexivity|].
  unfold RateLimiter.survives.
  destruct (RateLimiter.request_counts s !! k) as [ts|]; [|reflexivity].
  cbn in Hkept. destruct (RateLimiter.drop_old _ ts); [now elim Hkept|reflexivity].
Qed.

(** X1.  The periodic cleanup never changes what a later window check
    counts: for every cutoff not older than the hour before the cleanup,
    each identity has as many recorded requests after the cutoff as before
    the cleanup.  An identity whose history is not emptied also keeps its
    burst counter. *)
Theorem cleanup_keeps_window_counts (s : RateLimiter.State) (now c : Q) (k : pystr) :
  (now - 3600 <= c)%Q ->
  let s' := RateLimiter._cleanup_old_requests cfg s now in
  RateLimiter.count_after c (RateLimiter.times_get s' k)
  = RateLimiter.count_after c (RateLimiter.times_get s k)
  /\ (RateLimiter.times_get s' k <> [] ->
      RateLimiter.burst_get s' k = RateLimiter.burst_get s k).
Proof.
  intros Hc s'. split; [now apply cleanup_count_after|apply cleanup_burst_kept].
Qed.

(** X2.  A refused call is not counted: when [check_rate_limit] denies a
    request, every identity's history of recorded requests is what it was,
    the burst counters of the other identities are what they were, and no
    cleanup has run. *)
Theorem denied_request_not_recorded (s : RateLimiter.State)
        (request : RateLimiter.Request) (now : Q) :
  RateLimiter.is_allowed (fst (RateLimiter.check_rate_limit cfg s request now)) = false ->
  let s' := snd (RateLimiter.check_rate_limit cfg s request now) in
  (forall k, RateLimiter.times_get s' k = RateLimiter.times_get s k)
  /\ (forall k, k <> RateLimiter._get_rate_limit_key request ->
                RateLimiter.burst_get s' k = RateLimiter.burst_get s k)
  /\ RateLimiter.last_cleanup s' = RateLimiter.last_cleanup s.
Proof.
  unfold RateLimiter.check_rate_limit.
  destruct (negb _); [discriminate|].
  destruct (list_contains _ _); [discriminate|].
  pose proof (fun k => check_keeps_times s (RateLimiter._get_rate_limit_key request)
                          (RateLimiter.path request) k now) as Ht.
  pose proof (fun k => check_keeps_other_burst s (RateLimiter._get_rate_limit_key request)
                          (RateLimiter.path request) k now) as Hb.
  pose proof (check_keeps_last_cleanup s (RateLimiter._get_rate_limit_key request)
                (RateLimiter.path request) now) as Hl.
  destruct (RateLimiter._check_rate_limit _ _ _ _ _) as [[d|d] s1];
    cbn [fst snd RateLimiter.is_allowed]; [discriminate|].
  intros _. split; [exact Ht|]. split; [exact Hb|exact Hl].
Qed.

Lemma window_checks_allow_inv (lim : RateLimiter.Limits) (current_burst : Z)
      (s s' : RateLimiter.State) (key : pystr) (now : Q) (d : RateLimiter.Allowed) :
  RateLimiter.window_checks lim current_burst s key now = (RateLimiter.Allow d, s') ->
  (RateLimiter.count_after (now - 60) (RateLimiter.times_get s key) < RateLimiter.rpm lim)%Z
  /\ (RateLimiter.count_after (now - 3600) (RateLimiter.times_get s key)
      < RateLimiter.rph lim)%Z
  /\ d = {| RateLimiter.minute_requests :=
              RateLimiter.count_after (now - 60) (RateLimiter.times_get s key);
            RateLimiter.hour_requests :=
              RateLimiter.count_after (now - 3600) (RateLimiter.times_get s key);
            RateLimiter.burst_requests := current_burst;
            RateLimiter.limits := lim |}
  /\ s' = touched s key.
Proof.
  unfold RateLimiter.window_checks.
  destruct (RateLimiter.rpm lim <=? _)%Z eqn:E1; [discriminate|].
  destruct (RateLimiter.rph lim <=? _)%Z eqn:E2; [discriminate|].
  intros H. injection H as <- <-.
  apply Z.leb_gt in E1, E2. repeat split; assumption.
Qed.

(** X3.  A request is let through only under all three caps of its
    endpoint: fewer recorded requests of its identity in the last minute
    than the per-minute cap, fewer in the last hour than the per-hour cap,
    and a burst counter below the burst cap or a latest recorded request at
    least a second old.  The counts handed back are those window counts, and
    the admitted request is then the last entry of the history. *)
Theorem admitted_request_within_caps (s : RateLimiter.State)
        (request : RateLimiter.Request) (now : Q) (key : pystr) (d : RateLimiter.Allowed) :
  fst (RateLimiter.check_rate_limit cfg s request now) = RateLimiter.AllowedFor key d ->
  let lim := RateLimiter._get_endpoint_limits cfg (RateLimiter.path request) in
  let ts := RateLimiter.times_get s key in
  key = RateLimiter._get_rate_limit_key request
  /\ (RateLimiter.count_after (now - 60) ts < RateLimiter.rpm lim)%Z
  /\ (RateLimiter.count_after (now - 3600) ts < RateLimiter.rph lim)%Z
  /\ ((RateLimiter.burst_get s key < RateLimiter.burst lim)%Z
      \/ exists latest, last ts = Some latest /\ (1 <= now - latest)%Q)
  /\ RateLimiter.minute_requests d = RateLimiter.count_after (now - 60) ts
  /\ RateLimiter.hour_requests d = RateLimiter.count_after (now - 3600) ts
  /\ RateLimiter.limits d = lim
  /\ exists ts', RateLimiter.times_get
                   (snd (RateLimiter.check_rate_limit cfg s request now)) key
                 = ts' ++ [now].
Proof.
  unfold RateLimiter.check_rate_limit.
  destruct (negb _); [discriminate|].
  destruct (list_contains _ _); [discriminate|].
  destruct (RateLimiter._check_rate_limit _ _ _ _ _) as [[d0|d0] s1] eqn:Hc;
    cbn [fst snd]; [|discriminate].
  intros H. injection H as <- <-. cbv zeta.
  split; [reflexivity|].
  destruct (record_request_effect cfg s1 (RateLimiter._get_rate_limit_key request) now)
    as (_ & ts' & Hts & _).
  revert Hc. unfold RateLimiter._check_rate_limit.
  destruct (_ <=? _)%Z eqn:Eb.
  - destruct (last _) as [latest|] eqn:El; [|discriminate].
    destruct (Qle_bool 1 _) eqn:Eq; [|discriminate].
    intros Hw. apply window_checks_allow_inv in Hw as (Hm & Hh & -> & _).
    cbn [RateLimiter.minute_requests RateLimiter.hour_requests RateLimiter.limits].
    repeat split; try assumption; try reflexivity.
    + right. exists latest. split; [reflexivity|]. now apply Qle_bool_iff.
    + now exists ts'.
  - intros Hw. apply window_checks_allow_inv in Hw as (Hm & Hh & -> & _).
    cbn [RateLimiter.minute_requests RateLimiter.hour_requests RateLimiter.limits].
    apply Z.leb_gt in Eb.
    repeat split; try assumption; try reflexivity.
    + now left.
    + now exists ts'.
Qed.


(** What recording a request does to the window counts of every key. *)
Lemma record_request_counts (s : RateLimiter.State) (key k : pystr) (now c : Q) :
  (now - 3600 <= c)%Q ->
  RateLimiter.count_after c
    (RateLimiter.times_get (RateLimiter._record_request cfg s key now) k)
  = (RateLimiter.count_after c (RateLimiter.times_get s k)
     + if decide (k = key) then RateLimiter.count_after c [now] else 0)%Z.
Proof.
  intros Hc. unfold RateLimiter._record_request.
  rewrite cleanup_count_after by exact Hc.
  unfold RateLimiter.times_get at 1. cbn [RateLimiter.request_counts].
  destruct (decide (k = key)) as [->|Hne].
  - rewrite lookup_insert_eq. apply count_after_app.
  - rewrite lookup_insert_ne by congruence.
    fold (RateLimiter.times_get s k). lia.
Qed.

Lemma record_request_other_burst (s : RateLimiter.State) (key k : pystr) (now : Q) :
  k <> key ->
  RateLimiter.times_get (RateLimiter._record_request cfg s key now) k <> [] ->
  RateLimiter.burst_get (RateLimiter._record_request cfg s key now) k
  = RateLimiter.burst_get s k.
Proof.
  intros Hne Hkept. unfold RateLimiter._record_request in *.
  rewrite cleanup_burst_kept by exact Hkept.
  unfold RateLimiter.burst_get. cbn [RateLimiter.burst_counts].
  now rewrite lookup_insert_ne by congruence.
Qed.

(** X4.  Identities do not interfere: a call of [check_rate_limit] for one
    identity, admitted or not, leaves the window counts of every other
    identity as they were, for every cutoff within the hour before the
    call; and another identity that still has a history keeps its burst
    counter. *)
Theorem other_identities_unaffected (s : RateLimiter.State)
        (request : RateLimiter.Request) (now c : Q) (k : pystr) :
  k <> RateLimiter._get_rate_limit_key request ->
  (now - 3600 <= c)%Q ->
  let s' := snd (RateLimiter.check_rate_limit cfg s request now) in
  RateLimiter.count_after c (RateLimiter.times_get s' k)
  = RateLimiter.count_after c (RateLimiter.times_get s k)
  /\ (RateLimiter.times_get s' k <> [] ->
      RateLimiter.burst_get s' k = RateLimiter.burst_get s k).
Proof.
  intros Hne Hc. unfold RateLimiter.check_rate_limit.
  destruct (negb _); [now split|].
  destruct (list_contains _ _); [now split|].
  pose proof (check_keeps_times s (RateLimiter._get_rate_limit_key request)
                (RateLimiter.path request) k now) as Ht.
  pose proof (check_keeps_other_burst s (RateLimiter._get_rate_limit_key request)
                (RateLimiter.path request) k now Hne) as Hb.
  destruct (RateLimiter._check_rate_limit _ _ _ _ _) as [[d|d] s1]; cbn [snd] in *.
  - split.
    + rewrite record_request_counts by exact Hc.
      destruct (decide _) as [E|_]; [contradiction|]. rewrite Ht. lia.
    + intros Hkept. rewrite record_request_other_burst by assumption. exact Hb.
  - split; [now rewrite Ht|intros _; exact Hb].
Qed.

Lemma check_allow_inv (s s1 : RateLimiter.State) (key endpoint : pystr) (now : Q)
      (d : RateLimiter.Allowed) :
  RateLimiter._check_rate_limit cfg s key endpoint now = (RateLimiter.Allow d, s1) ->
  let lim := RateLimiter._get_endpoint_limits cfg endpoint in
  (RateLimiter.count_after (now - 60) (RateLimiter.times_get s key)
   < RateLimiter.rpm lim)%Z
  /\ (RateLimiter.count_after (now - 3600) (RateLimiter.times_get s key)
      < RateLimiter.rph lim)%Z.
Proof.
  unfold RateLimiter._check_rate_limit.
  destruct (_ <=? _)%Z.
  - destruct (last _); [|discriminate].
    destruct (Qle_bool 1 _); [|discriminate].
    intros Hw. apply window_checks_allow_inv in Hw as (Hm & Hh & _). now split.
  - intros Hw. apply window_checks_allow_inv in Hw as (Hm & Hh & _). now split.
Qed.

Lemma admitted_at_cons (p : Q * RateLimiter.Outcome) (log : list (Q * RateLimiter.Outcome)) :
  admitted_at (p :: log)
  = (if RateLimiter.is_allowed (snd p) then [fst p] else []) ++ admitted_at log.
Proof.
  unfold admitted_at. cbn [List.filter].
  destruct (RateLimiter.is_allowed (snd p)); reflexivity.
Qed.

Section OneClient.
Context (request : RateLimiter.Request).
Hypothesis Henabled : RateLimiter.enabled cfg = true.
Hypothesis Hprivate :
  list_contains RateLimiter.public_endpoints (RateLimiter.path request) = false.

Abbreviation key := (RateLimiter._get_rate_limit_key request).
Abbreviation lim := (RateLimiter._get_endpoint_limits cfg (RateLimiter.path request)).

Lemma allowed_under_window_caps (s : RateLimiter.State) (now : Q) :
  RateLimiter.is_allowed (fst (RateLimiter.check_rate_limit cfg s request now)) = true ->
  (RateLimiter.count_after (now - 60) (RateLimiter.times_get s key)
   < RateLimiter.rpm lim)%Z
  /\ (RateLimiter.count_after (now - 3600) (RateLimiter.times_get s key)
      < RateLimiter.rph lim)%Z.
Proof.
  unfold RateLimiter.check_rate_limit. rewrite Henabled, Hprivate. cbn [negb].
  destruct (RateLimiter._check_rate_limit _ _ _ _ _) as [[d|d] s1] eqn:Hc;
    cbn [fst RateLimiter.is_allowed]; [|discriminate].
  intros _. exact (check_allow_inv _ _ _ _ _ _ Hc).
Qed.

(** One call adds its own reading to the window counts of the caller
    exactly when it is let through. *)
Lemma check_step_counts (s : RateLimiter.State) (now c : Q) :
  (now - 3600 <= c)%Q ->
  let r := RateLimiter.check_rate_limit cfg s request now in
  RateLimiter.count_after c (RateLimiter.times_get (snd r) key)
  = RateLimiter.count_after c
      (RateLimiter.times_get s key
       ++ if RateLimiter.is_allowed (fst r) then [now] else []).
Proof.
  intros Hc. unfold RateLimiter.check_rate_limit. rewrite Henabled, Hprivate.
  cbn [negb].
  pose proof (check_keeps_times s key (RateLimiter.path request) key now) as Ht.
  destruct (RateLimiter._check_rate_limit _ _ _ _ _) as [[d|d] s1];
    cbn [fst snd RateLimiter.is_allowed] in *.
  - rewrite record_request_counts by exact Hc.
    destruct (decide _) as [_|E]; [|now elim E].
    now rewrite count_after_app, Ht.
  - now rewrite app_nil_r, Ht.
Qed.

Lemma serve_within_caps (readings : list Q) :
  forall (s : RateLimiter.State) (adm : list Q) (lo : Q),
    nondecreasing readings ->
    Forall (Qle lo) readings ->
    (forall c, (lo - 3600 <= c)%Q ->
               RateLimiter.count_after c (RateLimiter.times_get s key)
               = RateLimiter.count_after c adm) ->
    forall pre now o post,
      serve cfg s request readings = pre ++ (now, o) :: post ->
      RateLimiter.is_allowed o = true ->
      (RateLimiter.count_after (now - 60) (adm ++ admitted_at pre)
       < RateLimiter.rpm lim)%Z
      /\ (RateLimiter.count_after (now - 3600) (adm ++ admitted_at pre)
          < RateLimiter.rph lim)%Z.
Proof.
  induction readings as [|t rest IH]; intros s adm lo Hsorted Hlo Hinv pre now o post Hs Ha.
  - destruct pre; discriminate.
  - cbn [serve] in Hs. cbv zeta in Hs.
    destruct Hsorted as (Hrest & Hsorted).
    apply Forall_cons_iff in Hlo as (Hlo & _).
    destruct pre as [|p pre].
    + cbn [app] in Hs. injection Hs as -> <- _.
      unfold admitted_at. cbn [List.filter List.map]. rewrite app_nil_r.
      rewrite <- !Hinv by lra.
      now apply allowed_under_window_caps.
    + cbn [app] in Hs. injection Hs as <- Hs.
      rewrite admitted_at_cons, app_assoc. cbn [fst snd].
      apply (IH (snd (RateLimiter.check_rate_limit cfg s request t)) _ t Hsorted Hrest)
        with (post := post) (o := o); [|exact Hs|exact Ha].
      intros c Hc. rewrite check_step_counts by exact Hc.
      rewrite !count_after_app. rewrite Hinv by lra. reflexivity.
Qed.

(** X5.  The window caps hold over a whole run.  Let one client, not seen
    before, call a limited endpoint at non-decreasing clock readings.
    Whenever a call is let through, the calls of the run let through before
    it within the preceding minute number fewer than the per-minute cap, and
    those within the preceding hour fewer than the per-hour cap - whatever
    was refused in between, and whatever the cleanup removed. *)
Theorem admissions_respect_window_caps (s0 : RateLimiter.State) (readings : list Q)
        (pre post : list (Q * RateLimiter.Outcome)) (now : Q) (o : RateLimiter.Outcome) :
  RateLimiter.times_get s0 key = [] ->
  nondecreasing readings ->
  serve cfg s0 request readings = pre ++ (now, o) :: post ->
  RateLimiter.is_allowed o = true ->
  (RateLimiter.count_after (now - 60) (admitted_at pre) < RateLimiter.rpm lim)%Z
  /\ (RateLimiter.count_after (now - 3600) (admitted_at pre) < RateLimiter.rph lim)%Z.
Proof.
  intros Hnew Hsorted Hs Ha.
  destruct readings as [|t rest]; [destruct pre; discriminate|].
  apply (serve_within_caps (t :: rest) s0 [] t Hsorted) with (post := post) (o := o);
    [|now rewrite Hnew|exact Hs|exact Ha].
  constructor; [apply Qle_refl|]. exact (proj1 Hsorted).
Qed.

End OneClient.

Lemma count_after_antitone (c c' : Q) (ts : list Q) :
  (c <= c')%Q -> (RateLimiter.count_after c' ts <= RateLimiter.count_after c ts)%Z.
Proof.
  intros Hc. induction ts as [|t ts IH]; [reflexivity|].
  rewrite !count_after_cons.
  destruct (RateLimiter.Qltb c' t) eqn:E'; destruct (RateLimiter.Qltb c t) eqn:E; try lia.
  apply Qltb_true in E'. apply Qltb_false in E. lra.
Qed.

(** Moving the cutoff up to the first counted reading uncounts it. *)
Lemma count_after_past_oldest (c c' now : Q) (ts : list Q) :
  (0 < RateLimiter.count_after c ts)%Z ->
  (c' == RateLimiter.oldest_after c ts now)%Q ->
  (c < c')%Q
  /\ (RateLimiter.count_after c' ts < RateLimiter.count_after c ts)%Z.
Proof.
  unfold RateLimiter.oldest_after.
  induction ts as [|t ts IH]; intros Hpos Hc';
    [unfold RateLimiter.count_after, len in Hpos; simpl in Hpos; lia|].
  cbn [List.find] in Hc'. rewrite count_after_cons in Hpos. rewrite !count_after_cons.
  destruct (RateLimiter.Qltb c t) eqn:E.
  - apply Qltb_true in E. split; [lra|].
    assert (Hf : RateLimiter.Qltb c' t = false) by (apply Qltb_false; lra).
    rewrite Hf.
    assert (Hle : (c <= c')%Q) by lra.
    pose proof (count_after_antitone c c' ts Hle). lia.
  - apply Qltb_false in E.
    destruct (IH) as (Hlt & Hcount); [lia|exact Hc'|].
    split; [exact Hlt|].
    assert (Hf : RateLimiter.Qltb c' t = false) by (apply Qltb_false; lra).
    rewrite Hf. lia.
Qed.

Lemma window_checks_deny_inv (l : RateLimiter.Limits) (current_burst : Z)
      (s s' : RateLimiter.State) (key : pystr) (now : Q) (d : RateLimiter.Denied) :
  RateLimiter.window_checks l current_burst s key now = (RateLimiter.Deny d, s') ->
  RateLimiter.error d <> RateLimiter.burst_limit_exceeded
  /\ (RateLimiter.limit d
      <= RateLimiter.count_after (now - window_of (RateLimiter.error d))
           (RateLimiter.times_get s key))%Z
  /\ RateLimiter.reset_in d
     = (window_of (RateLimiter.error d)
        - (now - RateLimiter.oldest_after (now - window_of (RateLimiter.error d))
                   (RateLimiter.times_get s key) now))%Q.
Proof.
  unfold RateLimiter.window_checks.
  destruct (RateLimiter.rpm l <=? _)%Z eqn:E1.
  - intros H. injection H as <- _. cbn. apply Z.leb_le in E1.
    split; [discriminate|]. split; [exact E1|reflexivity].
  - destruct (RateLimiter.rph l <=? _)%Z eqn:E2; [|discriminate].
    intros H. injection H as <- _. cbn. apply Z.leb_le in E2.
    split; [discriminate|]. split; [exact E2|reflexivity].
Qed.

(** X6.  The waiting time of a window denial is the time until the oldest
    counted request leaves the window.  When a request is refused for the
    per-minute or the per-hour cap (a positive cap), the [reset_in] handed
    back is positive, and that many seconds later the identity's history
    holds strictly fewer requests inside the window than at the refusal. *)
Theorem retry_after_frees_a_slot (s : RateLimiter.State)
        (request : RateLimiter.Request) (now : Q) (key : pystr) (d : RateLimiter.Denied) :
  fst (RateLimiter.check_rate_limit cfg s request now) = RateLimiter.DeniedFor key d ->
  RateLimiter.error d <> RateLimiter.burst_limit_exceeded ->
  (0 < RateLimiter.limit d)%Z ->
  let w := window_of (RateLimiter.error d) in
  let ts := RateLimiter.times_get s key in
  (0 < RateLimiter.reset_in d)%Q
  /\ (RateLimiter.count_after (now + RateLimiter.reset_in d - w) ts
      < RateLimiter.count_after (now - w) ts)%Z.
Proof.
  unfold RateLimiter.check_rate_limit.
  destruct (negb _); [discriminate|].
  destruct (list_contains _ _); [discriminate|].
  destruct (RateLimiter._check_rate_limit _ _ _ _ _) as [[d0|d0] s1] eqn:Hc;
    cbn [fst]; [discriminate|].
  intros H Hkind Hcap. injection H as <- <-. cbv zeta.
  revert Hc. unfold RateLimiter._check_rate_limit.
  assert (Hw : forall l b s0,
             RateLimiter.times_get s0 (RateLimiter._get_rate_limit_key request)
             = RateLimiter.times_get s (RateLimiter._get_rate_limit_key request) ->
             RateLimiter.window_checks l b s0 (RateLimiter._get_rate_limit_key request) now
             = (RateLimiter.Deny d0, s1) ->
             (0 < RateLimiter.reset_in d0)%Q
             /\ (RateLimiter.count_after
                   (now + RateLimiter.reset_in d0 - window_of (RateLimiter.error d0))
                   (RateLimiter.times_get s (RateLimiter._get_rate_limit_key request))
                 < RateLimiter.count_after (now - window_of (RateLimiter.error d0))
                     (RateLimiter.times_get s (RateLimiter._get_rate_limit_key request)))%Z).
  { intros l b s0 Hsame Hwc.
    apply window_checks_deny_inv in Hwc as (_ & Hfull & Hreset).
    rewrite Hsame in Hfull, Hreset.
    destruct (count_after_past_oldest
                (now - window_of (RateLimiter.error d0))
                (now + RateLimiter.reset_in d0 - window_of (RateLimiter.error d0))
                now
                (RateLimiter.times_get s (RateLimiter._get_rate_limit_key request)))
      as (Hlt & Hcount); [lia|rewrite Hreset; ring|].
    split; [lra|exact Hcount]. }
  destruct (_ <=? _)%Z.
  - destruct (last _) as [latest|].
    + destruct (Qle_bool 1 _).
      * apply Hw. reflexivity.
      * intros H. injection H as <- _. now elim Hkind.
    + intros H. injection H as <- _. now elim Hkind.
  - apply Hw. reflexivity.
Qed.

(** X7.  No entry of the shipped table of endpoint limits is a prefix
    pattern, so only the five listed paths have limits of their own: every
    other path - a sub-path of a listed one, or a batch endpoint - is held to
    the global defaults (60 per minute, 1000 per hour, burst 10, unless the
    environment says otherwise). *)
Theorem unlisted_endpoint_gets_defaults (is_enabled : bool) (env : gmap string Z)
        (endpoint : pystr) :
  ~ List.In endpoint (List.map fst (RateLimiter._load_endpoint_limits env)) ->
  RateLimiter._get_endpoint_limits (RateLimiter.init_config is_enabled env) endpoint
  = default_limits env.
Proof.
  intros Hnot. unfold RateLimiter._get_endpoint_limits, RateLimiter.init_config.
  cbn [RateLimiter.endpoint_limits RateLimiter.default_rpm RateLimiter.default_rph
       RateLimiter.burst_limit].
  unfold RateLimiter._load_endpoint_limits in *. cbn [List.map fst List.In] in Hnot.
  cbn [List.find]. unfold str_eqb.
  rewrite !bool_decide_eq_false_2 by (intros E; apply Hnot; rewrite E; tauto).
  change (endswith (str "/save") RateLimiter.star) with false.
  change (endswith (str "/search") RateLimiter.star) with false.
  change (endswith (str "/memories") RateLimiter.star) with false.
  change (endswith (str "/debug/test-memory") RateLimiter.star) with false.
  change (endswith (str "/debug/backup") RateLimiter.star) with false.
  reflexivity.
Qed.

End RateLimitHistory.

Lemma cleanup_keeps_window_counts_witness :
  let s := state_after default_config [0%Q; (1 # 10)%Q] in
  let key := RateLimiter._get_rate_limit_key debug_request in
  (4000 - 3600 <= 3940)%Q
  /\ RateLimiter.count_after 3940
       (RateLimiter.times_get (RateLimiter._cleanup_old_requests default_config s 4000) key)
     = RateLimiter.count_after 3940 (RateLimiter.times_get s key).
Proof.
  cbv zeta.
  assert (H : (4000 - 3600 <= 3940)%Q) by (vm_compute; discriminate).
  split; [exact H|].
  exact (proj1 (cleanup_keeps_window_counts default_config
                  (state_after default_config [0%Q; (1 # 10)%Q]) 4000 3940
                  (RateLimiter._get_rate_limit_key debug_request) H)).
Defined.

Lemma denied_request_not_recorded_witness :
  let s := state_after default_config [0%Q; (1 # 10)%Q] in
  let r := RateLimiter.check_rate_limit default_config s debug_request (1 # 2) in
  RateLimiter.is_allowed (fst r) = false
  /\ forall k, RateLimiter.times_get (snd r) k = RateLimiter.times_get s k.
Proof.
  cbv zeta.
  assert (H : RateLimiter.is_allowed
                (fst (RateLimiter.check_rate_limit default_config
                        (state_after default_config [0%Q; (1 # 10)%Q])
                        debug_request (1 # 2))) = false)
    by (vm_compute; reflexivity).
  split; [exact H|].
  exact (proj1 (denied_request_not_recorded default_config _ debug_request (1 # 2) H)).
Defined.

Lemma admitted_request_within_caps_witness :
  let key := RateLimiter._get_rate_limit_key debug_request in
  let s := state_after default_config [0%Q] in
  (RateLimiter.count_after (10 - 60) (RateLimiter.times_get s key) < 10)%Z
  /\ exists ts',
       RateLimiter.times_get
         (snd (RateLimiter.check_rate_limit default_config s debug_request 10)) key
       = ts' ++ [10%Q].
Proof.
  cbv zeta.
  destruct (admitted_request_within_caps default_config
              (state_after default_config [0%Q]) debug_request 10
              (RateLimiter._get_rate_limit_key debug_request)
              {| RateLimiter.minute_requests := 1; RateLimiter.hour_requests := 1;
                 RateLimiter.burst_requests := 1;
                 RateLimiter.limits := {| RateLimiter.rpm := 10; RateLimiter.rph := 50;
                                          RateLimiter.burst := 2 |} |})
    as (_ & Hm & _ & _ & _ & _ & _ & Hrec); [vm_compute; reflexivity|].
  split; [exact Hm|exact Hrec].
Defined.

Lemma other_identities_unaffected_witness :
  let s := state_after default_config [0%Q; (1 # 10)%Q] in
  let other : RateLimiter.Request :=
    {| RateLimiter.path := str "/save";
       RateLimiter.auth_rate_limit_key := Some (str "key:reader");
       RateLimiter.client_host := None |} in
  let key := RateLimiter._get_rate_limit_key debug_request in
  RateLimiter.count_after (100 - 60)
    (RateLimiter.times_get (snd (RateLimiter.check_rate_limit default_config s other 100)) key)
  = RateLimiter.count_after (100 - 60) (RateLimiter.times_get s key).
Proof.
  cbv zeta.
  refine (proj1 (other_identities_unaffected default_config
                   (state_after default_config [0%Q; (1 # 10)%Q])
                   _ 100 (100 - 60)
                   (RateLimiter._get_rate_limit_key debug_request) _ _)).
  - vm_compute. discriminate.
  - vm_compute. discriminate.
Defined.

Lemma admissions_respect_window_caps_witness :
  let readings := [0%Q; (1 # 10)%Q; (1 # 2)%Q; (6 # 5)%Q] in
  let log := serve default_config (RateLimiter.init_state 0) debug_request readings in
  List.map (fun e => RateLimiter.is_allowed (snd e)) log = [true; true; false; true]
  /\ (RateLimiter.count_after ((6 # 5) - 60) (admitted_at (firstn 3 log)) < 10)%Z.
Proof.
  cbv zeta. split; [vm_compute; reflexivity|].
  refine (proj1 (admissions_respect_window_caps default_config debug_request
                   eq_refl eq_refl (RateLimiter.init_state 0)
                   [0%Q; (1 # 10)%Q; (1 # 2)%Q; (6 # 5)%Q]
                   (firstn 3 (serve default_config (RateLimiter.init_state 0) debug_request
                                [0%Q; (1 # 10)%Q; (1 # 2)%Q; (6 # 5)%Q]))
                   []
                   (6 # 5)
                   (RateLimiter.AllowedFor (RateLimiter._get_rate_limit_key debug_request)
                      {| RateLimiter.minute_requests := 2; RateLimiter.hour_requests := 2;
                         RateLimiter.burst_requests := 2;
                         RateLimiter.limits :=
                           {| RateLimiter.rpm := 10; RateLimiter.rph := 50;
                              RateLimiter.burst := 2 |} |})
                   eq_refl _ _ eq_refl)).
  - cbn [nondecreasing]. repeat split; repeat constructor; vm_compute; discriminate.
  - vm_compute. reflexivity.
Defined.

Lemma retry_after_frees_a_slot_witness :
  let key := RateLimiter._get_rate_limit_key debug_request in
  let s := state_after strict_config [0%Q] in
  let r := RateLimiter.check_rate_limit strict_config s debug_request 5 in
  RateLimiter.denial_error (fst r) = Some RateLimiter.minute_limit_exceeded
  /\ (RateLimiter.count_after (5 + (60 - (5 - 0)) - 60) (RateLimiter.times_get s key)
      < RateLimiter.count_after (5 - 60) (RateLimiter.times_get s key))%Z.
Proof.
  cbv zeta. split; [vm_compute; reflexivity|].
  refine (proj2 (retry_after_frees_a_slot strict_config
                   (state_after strict_config [0%Q]) debug_request 5
                   (RateLimiter._get_rate_limit_key debug_request)
                   {| RateLimiter.error := RateLimiter.minute_limit_exceeded;
                      RateLimiter.limit := 1;
                      RateLimiter.reset_in := (60 - (5 - 0))%Q |} _ _ _)).
  - vm_compute. reflexivity.
  - discriminate.
  - reflexivity.
Defined.

Lemma unlisted_endpoint_gets_defaults_witness :
  RateLimiter._get_endpoint_limits default_config (str "/batch-save")
  = {| RateLimiter.rpm := 60; RateLimiter.rph := 1000; RateLimiter.burst := 10 |}
  /\ RateLimiter._get_endpoint_limits default_config (str "/save/")
     = {| RateLimiter.rpm := 60; RateLimiter.rph := 1000; RateLimiter.burst := 10 |}.
Proof.
  unfold default_config. split.
  - rewrite (unlisted_endpoint_gets_defaults true ∅ (str "/batch-save"));
      [reflexivity|vm_compute; intuition discriminate].
  - rewrite (unlisted_endpoint_gets_defaults true ∅ (str "/save/"));
      [reflexivity|vm_compute; intuition discriminate].
Defined.

(** ** The store adapter: what is written and what is read back
    (infrastructure/db/memory_store.py) *)

Lemma split_nonempty (sep : N) (s : pystr) : split sep s <> [].
Proof.
  destruct s as [|c s]; [discriminate|]. cbn [split].
  destruct (c =? sep)%N; [discriminate|].
  destruct (split sep s); discriminate.
Qed.

Lemma split_free_app (sep : N) (x rest : pystr) :
  free_of sep x = true ->
  split sep (x ++ rest)
  = match split sep rest with
    | w :: ws => (x ++ w) :: ws
    | [] => [x]
    end.
Proof.
  induction x as [|c x IH]; intros Hfree.
  - cbn [app]. destruct (split sep rest) eqn:E; [|reflexivity].
    now apply split_nonempty in E.
  - cbn [free_of forallb] in Hfree. apply andb_prop in Hfree as [Hc Hx].
    cbn [app split]. apply negb_true_iff in Hc. rewrite Hc.
    rewrite (IH Hx). destruct (split sep rest); reflexivity.
Qed.

(** Splitting undoes joining when no piece holds the separator. *)
Lemma split_join (sep : N) (xs : list pystr) :
  xs <> [] -> Forall (fun x => free_of sep x = true) xs ->
  split sep (join sep xs) = xs.
Proof.
  intros Hne Hfree. induction Hfree as [|x xs Hx Hxs IH]; [contradiction|].
  destruct xs as [|y xs].
  - cbn [join]. rewrite <- (app_nil_r x) at 1.
    rewrite (split_free_app sep x [] Hx). cbn. now rewrite app_nil_r.
  - change (join sep (x :: y :: xs)) with (x ++ sep :: join sep (y :: xs)).
    rewrite (split_free_app sep x _ Hx). cbn [split].
    rewrite N.eqb_refl, IH by discriminate. now rewrite app_nil_r.
Qed.

(** Every tag is free of commas and of outer blanks, is not empty, and
    names its own member. *)
Lemma emotion_value_clean (e : Emotion) :
  free_of comma (EmotionEnum.value e) = true
  /\ strip (EmotionEnum.value e) = EmotionEnum.value e
  /\ truthy (EmotionEnum.value e) = true
  /\ from_japanese (EmotionEnum.value e) = Return e.
Proof. destruct e; repeat split; vm_compute; reflexivity. Qed.

Lemma parse_joined_emotions (emotions : list Emotion) :
  ChromaMemoryStore.parse_emotions
    (join comma (List.map EmotionEnum.value emotions)) = Return emotions.
Proof.
  unfold ChromaMemoryStore.parse_emotions.
  destruct emotions as [|e emotions]; [reflexivity|].
  rewrite split_join.
  - induction (e :: emotions) as [|e' es IH]; [reflexivity|].
    destruct (emotion_value_clean e') as (_ & Hstrip & Htruthy & Hfrom).
    cbn [List.map List.filter]. rewrite Hstrip, Htruthy.
    cbn [rmap]. rewrite Hstrip, Hfrom. cbn [rbind]. rewrite IH. reflexivity.
  - discriminate.
  - apply List.Forall_forall. intros v Hv.
    apply List.in_map_iff in Hv as (e' & <- & _).
    apply emotion_value_clean.
Qed.

(** X8.  The emotion tags survive the store.  [save_memory] writes the
    tags of a memory as one comma-joined string.  The reader used by the
    listing and by the lookup by id turns that string back into the same
    members, in the same order, repeated ones included; and the tag list a
    search hit shows, the string split at the commas, is the list of the
    tags written - except for a memory without tags, whose hit shows one
    empty tag. *)
Theorem emotions_survive_the_store (emotions : list Emotion) :
  ChromaMemoryStore.parse_emotions
    (join comma (List.map EmotionEnum.value emotions)) = Return emotions
  /\ split comma (join comma (List.map EmotionEnum.value emotions))
     = match emotions with
       | [] => [[]]
       | _ => List.map EmotionEnum.value emotions
       end.
Proof.
  split; [apply parse_joined_emotions|].
  destruct emotions as [|e emotions]; [reflexivity|].
  apply split_join; [discriminate|].
  apply List.Forall_forall. intros v Hv.
  apply List.in_map_iff in Hv as (e' & <- & _).
  apply emotion_value_clean.
Qed.

Section StoreRoundTrip.
Context (rt : Runtime).

Lemma to_memory_of_stored (memory : Memory.t) (id_text : pystr) :
  parse_uuid rt id_text = Some (Memory.id memory) ->
  fromisoformat rt (isoformat rt (Memory.created_at memory))
    = Some (Memory.created_at memory) ->
  ChromaMemoryStore.to_memory rt id_text (stored_metadata rt memory)
  = Return (read_back memory).
Proof.
  intros Hid Hiso. unfold ChromaMemoryStore.to_memory. rewrite Hid. cbn [rbind].
  change (getitem (stored_metadata rt memory) "summary")
    with (Return (A := pystr) (Memory.summary memory)).
  change (getitem (stored_metadata rt memory) "emotions")
    with (Return (A := pystr)
            (join comma (List.map EmotionEnum.value (Memory.emotions memory)))).
  change (getitem (stored_metadata rt memory) "original_user")
    with (Return (A := pystr) (Memory.original_user memory)).
  change (getitem (stored_metadata rt memory) "original_ai")
    with (Return (A := pystr) (Memory.original_ai memory)).
  change (getitem (stored_metadata rt memory) "created_at")
    with (Return (A := pystr) (isoformat rt (Memory.created_at memory))).
  cbn [rbind]. rewrite parse_joined_emotions, Hiso. cbn [rbind].
  reflexivity.
Qed.

(** X9.  What [save_memory] writes, [to_memory] reads back.  The store
    adapter never raises: it answers [True] after appending one record under
    the id of the memory, and [False] with the collection as it was.  Read
    through [to_memory] (given an id text that parses to the id and a
    creation date that survives [isoformat]), the record written is the
    memory saved, without its embedding and with an empty user, session or
    application name read as absent. *)
Theorem stored_memory_reads_back (memory : Memory.t) (id_text : pystr) (w : World) :
  parse_uuid rt id_text = Some (Memory.id memory) ->
  fromisoformat rt (isoformat rt (Memory.created_at memory))
    = Some (Memory.created_at memory) ->
  exists saved : bool,
    fst (ChromaMemoryStore.save_memory rt memory w) = Return saved
    /\ if saved
       then exists m,
              collection (snd (ChromaMemoryStore.save_memory rt memory w))
                = collection w ++ [(Memory.id memory, m)]
              /\ ChromaMemoryStore.to_memory rt id_text m = Return (read_back memory)
       else collection (snd (ChromaMemoryStore.save_memory rt memory w)) = collection w.
Proof.
  intros Hid Hiso.
  pose proof (to_memory_of_stored memory id_text Hid Hiso) as Hback.
  unfold stored_metadata in Hback.
  unfold ChromaMemoryStore.save_memory, ChromaDBClient.add_memory, try_except, bind,
    ret, embedding_get_embedding, chroma_collection_add.
  destruct (Memory.embedding memory) as [[|x e]|];
    cbn [trace collection];
    try (destruct (get_embedding rt _ _) as [embedding|e1];
         [|exists false; split; reflexivity]);
    cbn [trace collection];
    (destruct (collection_add rt _ _ _ _) as [e2|];
     [exists false; split; reflexivity
     |exists true; split; [reflexivity|]; eexists; split; [reflexivity|exact Hback]]).
Qed.

Lemma collect_length {A B} (f : A -> result (option B)) (xs : list A) :
  forall ys, collect f xs = Return ys -> length ys <= length xs.
Proof.
  induction xs as [|x xs IH]; intros ys Hc.
  - injection Hc as <-. reflexivity.
  - cbn [collect] in Hc.
    destruct (f x) as [o|e]; [|discriminate]. cbn [rbind] in Hc.
    destruct (collect f xs) as [ys'|e]; [|discriminate]. cbn [rbind] in Hc.
    injection Hc as <-. specialize (IH ys' eq_refl).
    destruct o; cbn [length]; lia.
Qed.

Lemma collect_raises {A B} (f : A -> result (option B)) (xs : list A) (x : A) (e : exn) :
  List.In x xs -> f x = Raise e -> exists e', collect f xs = Raise e'.
Proof.
  induction xs as [|y xs IH]; intros Hin Hx; [destruct Hin|].
  cbn [collect]. destruct Hin as [->|Hin].
  - rewrite Hx. now exists e.
  - destruct (f y) as [o|e1]; [|now exists e1]. cbn [rbind].
    destruct (IH Hin Hx) as (e' & ->). now exists e'.
Qed.

Lemma py_slice_length {A} (xs : list A) (offset limit : Z) :
  (0 <= limit)%Z -> (len (py_slice xs offset (offset + limit)) <= limit)%Z.
Proof.
  intros Hl. unfold py_slice, len. cbv zeta beta.
  match goal with |- context [firstn ?n ?l] =>
    pose proof (List.firstn_le_length n l) as Hle; revert Hle;
    generalize (length (firstn n l)) end.
  intros k Hk.
  destruct (offset <? 0)%Z eqn:Ea; destruct (offset + limit <? 0)%Z eqn:Eb;
    rewrite ?Z.ltb_lt, ?Z.ltb_ge in *; lia.
Qed.

Lemma py_slice_past {A} (xs : list A) (offset b : Z) :
  (0 <= offset)%Z -> (len xs <= offset)%Z -> py_slice xs offset b = [].
Proof.
  intros H0 Hlen. unfold py_slice, len in *. cbv zeta beta.
  destruct (offset <? 0)%Z eqn:Ea; [apply Z.ltb_lt in Ea; lia|].
  rewrite (Z.min_r offset) by lia. rewrite Nat2Z.id.
  rewrite skipn_all. apply firstn_nil.
Qed.

(** The listing in terms of the answer of the vector store. *)
Lemma listing_outcome (user_id : option pystr) (emotions : option (list Emotion))
      (date_from date_to : option datetime) (limit offset : Z) (w : World) :
  fst (ChromaMemoryStore.get_memories_by_filter rt user_id emotions date_from date_to
         limit offset w)
  = Return
      match collection_query rt (trace w) (collection w) ChromaMemoryStore.dummy_vector
              (ChromaMemoryStore.fetch_size limit)
              (ChromaMemoryStore.where_filter_of user_id) with
      | Return results =>
          match listed rt emotions date_from date_to results with
          | Return memories => py_slice memories offset (offset + limit)
          | Raise _ => []
          end
      | Raise _ => []
      end.
Proof.
  unfold ChromaMemoryStore.get_memories_by_filter, ChromaDBClient.search_memories,
    try_except, bind, chroma_collection_query, lift, ret, listed.
  destruct (collection_query rt _ _ _ _ _) as [results|e]; cbn [fst snd].
  - match goal with |- context [match ?r with Return _ => _ | Raise _ => _ end] =>
      destruct r end; reflexivity.
  - cbn. f_equal. unfold py_slice. cbv zeta beta.
    now rewrite List.skipn_nil, List.firstn_nil.
Qed.

Lemma listed_length (emotions : option (list Emotion))
      (date_from date_to : option datetime) (results : QueryResult.t)
      (memories : list Memory.t) :
  listed rt emotions date_from date_to results = Return memories ->
  length memories <= match QueryResult.ids results with
                     | ids0 :: _ => length ids0
                     | [] => 0
                     end.
Proof.
  unfold listed. destruct (QueryResult.ids results) as [|[|id0 ids0] rest].
  - intros H. injection H as <-. reflexivity.
  - intros H. injection H as <-. reflexivity.
  - intros H. apply collect_length in H.
    unfold enumerate in H. rewrite length_combine, length_seq in H. lia.
Qed.

(** X10.  The listing never raises and never returns more than [limit]
    memories (for a limit that is not negative), whatever the offset and
    whatever the vector store does. *)
Theorem listing_returns_at_most_limit (user_id : option pystr)
        (emotions : option (list Emotion)) (date_from date_to : option datetime)
        (limit offset : Z) (w : World) :
  (0 <= limit)%Z ->
  exists page,
    fst (ChromaMemoryStore.get_memories_by_filter rt user_id emotions date_from date_to
           limit offset w) = Return page
    /\ (len page <= limit)%Z.
Proof.
  intros Hl. rewrite listing_outcome. eexists. split; [reflexivity|].
  destruct (collection_query rt _ _ _ _ _) as [results|e];
    [|unfold len; simpl; lia].
  destruct (listed rt emotions date_from date_to results) as [memories|e];
    [|unfold len; simpl; lia].
  now apply py_slice_length.
Qed.

(** X11.  The listing pages over what one query of [min(1000, 10 * limit)]
    candidates brought back, not over the collection.  If the vector store
    returns no more candidates than it is asked for, every page at an offset
    of [min(1000, 10 * limit)] or more is empty, however many memories are
    stored. *)
Theorem listing_cannot_reach_past_fetch (user_id : option pystr)
        (emotions : option (list Emotion)) (date_from date_to : option datetime)
        (limit offset : Z) (w : World) :
  (0 <= offset)%Z ->
  (ChromaMemoryStore.fetch_size limit <= offset)%Z ->
  (forall results ids0 rest,
      collection_query rt (trace w) (collection w) ChromaMemoryStore.dummy_vector
        (ChromaMemoryStore.fetch_size limit) (ChromaMemoryStore.where_filter_of user_id)
        = Return results ->
      QueryResult.ids results = ids0 :: rest ->
      (len ids0 <= ChromaMemoryStore.fetch_size limit)%Z) ->
  fst (ChromaMemoryStore.get_memories_by_filter rt user_id emotions date_from date_to
         limit offset w) = Return [].
Proof.
  intros H0 Hpast Hstore. rewrite listing_outcome. f_equal.
  destruct (collection_query rt _ _ _ _ _) as [results|e] eqn:Hq; [|reflexivity].
  destruct (listed rt emotions date_from date_to results) as [memories|e] eqn:Hl;
    [|reflexivity].
  apply py_slice_past; [exact H0|].
  apply listed_length in Hl.
  destruct (QueryResult.ids results) as [|ids0 rest] eqn:Hids.
  - unfold len. lia.
  - specialize (Hstore results ids0 rest eq_refl Hids). unfold len in *. lia.
Qed.

Lemma In_enumerate_nth {A} (xs : list A) (i : nat) (x : A) :
  nth_error xs i = Some x -> List.In (i, x) (enumerate xs).
Proof.
  unfold enumerate. intros H.
  assert (Hgen : forall k, List.In (k + i, x) (combine (seq k (length xs)) xs)).
  { revert i H. induction xs as [|y xs IH]; intros i H k; [destruct i; discriminate|].
    destruct i as [|i]; cbn in H |- *.
    - injection H as ->. left. f_equal. lia.
    - right. replace (k + S i) with (S k + i) by lia. now apply IH. }
  exact (Hgen 0).
Qed.


End StoreRoundTrip.

(** ** The service (services/memory_service.py) *)

Lemma rmap_raises {A B} (f : A -> result B) (xs : list A) (x : A) (e : exn) :
  List.In x xs -> f x = Raise e -> exists e', rmap f xs = Raise e'.
Proof.
  induction xs as [|y xs IH]; intros Hin Hx; [destruct Hin|].
  cbn [rmap]. destruct Hin as [->|Hin].
  - rewrite Hx. now exists e.
  - destruct (f y) as [b|e1]; [|now exists e1]. cbn [rbind].
    destruct (IH Hin Hx) as (e' & ->). now exists e'.
Qed.

Lemma from_japanese_unknown (v : pystr) :
  (forall e : Emotion, EmotionEnum.value e <> v) ->
  from_japanese v = Raise (ValueError (UnknownEmotion v)).
Proof.
  intros Hno. unfold from_japanese.
  destruct (List.find _ EmotionEnum.members) as [e|] eqn:Hfind; [|reflexivity].
  apply List.find_some in Hfind as [_ Heq].
  unfold str_eqb in Heq. apply bool_decide_eq_true in Heq. now elim (Hno e).
Qed.

Section ServiceListing.
Context (rt : Runtime).

(** X13.  A tag that names no emotion silently empties the listing.  When
    the emotion filter handed to the service holds a text that is not the
    Japanese tag of any member (an English name, a misspelling), the service
    returns the empty list and the vector store is not asked: the error is
    not reported to the caller. *)
Theorem listing_with_unknown_tag_is_empty (user_id : option pystr)
        (emotions : list pystr) (date_from date_to : option pystr)
        (limit offset : Z) (w : World) (v : pystr) :
  List.In v emotions -> unknown_tag v ->
  MemoryServiceListing.get_memories_by_filter rt user_id (Some emotions)
    date_from date_to limit offset w
  = (Return [], w).
Proof.
  intros Hin (Hne & Hno).
  unfold MemoryServiceListing.get_memories_by_filter, try_except, bind, lift, ret.
  destruct (MemoryServiceListing.convert_date rt date_from); [|reflexivity].
  destruct (MemoryServiceListing.convert_date rt date_to); [|reflexivity].
  assert (Hc : exists e, MemoryServiceListing.convert_emotions (Some emotions) = Raise e).
  { unfold MemoryServiceListing.convert_emotions.
    destruct emotions as [|e0 es]; [destruct Hin|].
    destruct (rmap_raises from_japanese (List.filter truthy (e0 :: es)) v
                (ValueError (UnknownEmotion v))) as (e' & ->).
    - apply List.filter_In. split; [exact Hin|]. destruct v; [contradiction|reflexivity].
    - now apply from_japanese_unknown.
    - now exists e'. }
  destruct Hc as (e & ->). reflexivity.
Qed.

End ServiceListing.

Section ServiceSave.
Context (rt : Runtime).
Context (default_processing_time_ms : option Q).

(** X14.  A save that answers [success] has stored the exchange as it
    came.  The record appended to the collection, under the id the response
    carries, holds the two messages of the request unchanged, the summary
    and the tags the response reports (the tags comma-joined), and the
    user id of the request, an absent one as the empty text. *)
Theorem successful_save_stores_the_exchange (request : SaveRequest.t) (w : World)
        (response : SaveResponse.t) :
  fst (MemoryService.save_memory rt default_processing_time_ms request w)
    = Return response ->
  SaveResponse.success response = true ->
  exists (m : Metadata) (summary : pystr) (emotions : list Emotion),
    collection (snd (MemoryService.save_memory rt default_processing_time_ms request w))
      = collection w ++ [(issued w, m)]
    /\ SaveResponse.memory_id response = Some (issued w)
    /\ SaveResponse.summary response = Some summary
    /\ SaveResponse.emotions response = Some emotions
    /\ m !! "summary"%string = Some summary
    /\ m !! "emotions"%string = Some (join comma (List.map EmotionEnum.value emotions))
    /\ m !! "original_user"%string = Some (SaveRequest.user_message request)
    /\ m !! "original_ai"%string = Some (SaveRequest.ai_message request)
    /\ m !! "user_id"%string = Some (or_empty (SaveRequest.user_id request)).
Proof.
  unfold MemoryService.save_memory, MemoryService.save_failed,
    ChromaMemoryStore.save_memory, ChromaDBClient.add_memory,
    try_except, bind, now, uuid4, datetime_utcnow, llm_process_memory,
    embedding_get_embedding, chroma_collection_add, raise, ret.
  cbn [trace collection clock_reads issued].
  destruct (process_memory rt _ _) as [llm_response|e1].
  2:{ destruct (is_LLMError e1); cbn; intros H; injection H as <-; discriminate. }
  cbn [trace collection clock_reads issued].
  destruct (get_embedding rt _ _) as [embedding|e2].
  2:{ destruct (is_LLMError e2); cbn; intros H; injection H as <-; discriminate. }
  cbn [trace collection clock_reads issued Memory.embedding Memory.summary
       Memory.id Memory.emotions].
  destruct embedding as [|x embedding].
  - cbn [trace collection clock_reads issued].
    destruct (get_embedding rt _ _) as [embedding2|e3].
    + cbn [trace collection clock_reads issued].
      destruct (collection_add rt _ _ _ _) as [e4|]; cbn;
        intros H; injection H as <-; try discriminate.
      intros _. do 3 eexists. repeat split; reflexivity.
    + cbn. intros H; injection H as <-; discriminate.
  - cbn [trace collection clock_reads issued].
    destruct (collection_add rt _ _ _ _) as [e4|]; cbn;
      intros H; injection H as <-; try discriminate.
    intros _. do 3 eexists. repeat split; reflexivity.
Qed.

End ServiceSave.

Lemma stored_memory_reads_back_witness :
  exists m,
    collection (snd (ChromaMemoryStore.save_memory stamp_runtime sample_memory
                       initial_world)) = [(3, m)]
    /\ ChromaMemoryStore.to_memory stamp_runtime (str "abc") m
       = Return (read_back sample_memory).
Proof.
  destruct (stored_memory_reads_back stamp_runtime sample_memory (str "abc")
              initial_world eq_refl eq_refl) as (saved & Hs & H).
  vm_compute in Hs. injection Hs as <-. exact H.
Defined.

Lemma listing_returns_at_most_limit_witness :
  exists page,
    fst (ChromaMemoryStore.get_memories_by_filter three_records_runtime
           None None None None 50 0 initial_world) = Return page
    /\ (len page <= 50)%Z.
Proof.
  apply (listing_returns_at_most_limit three_records_runtime None None None None
           50 0 initial_world).
  lia.
Defined.

Lemma listing_cannot_reach_past_fetch_witness :
  ChromaMemoryStore.fetch_size 1 = 10%Z
  /\ fst (ChromaMemoryStore.get_memories_by_filter three_records_runtime
            None None None None 1 10 initial_world) = Return [].
Proof.
  split; [reflexivity|].
  apply (listing_cannot_reach_past_fetch three_records_runtime None None None None
           1 10 initial_world); [lia|vm_compute; discriminate|].
  intros results ids0 rest Hq Hids. cbn in Hq. injection Hq as <-.
  cbn in Hids. injection Hids as <- _. vm_compute. discriminate.
Defined.


Lemma listing_with_unknown_tag_is_empty_witness :
  MemoryServiceListing.get_memories_by_filter three_records_runtime None
    (Some [EmotionEnum.value JOY; str "joy"]) None None 50 0 initial_world
  = (Return [], initial_world).
Proof.
  apply (listing_with_unknown_tag_is_empty three_records_runtime None
           [EmotionEnum.value JOY; str "joy"] None None 50 0 initial_world (str "joy")).
  - right. left. reflexivity.
  - split; [discriminate|]. intros e. destruct e; discriminate.
Defined.

Lemma successful_save_stores_the_exchange_witness :
  exists m,
    collection (snd (MemoryService.save_memory working_runtime None
                       (Mock.save_request (str "hello") (str "hi")) initial_world))
      = [(0, m)]
    /\ m !! "original_user"%string = Some (str "hello")
    /\ m !! "original_ai"%string = Some (str "hi").
Proof.
  destruct (fst (MemoryService.save_memory working_runtime None
                   (Mock.save_request (str "hello") (str "hi")) initial_world))
    as [response|e] eqn:Hr.
  - pose proof Hr as Hr'. vm_compute in Hr'. injection Hr' as <-.
    destruct (successful_save_stores_the_exchange working_runtime None
                (Mock.save_request (str "hello") (str "hi")) initial_world _ Hr eq_refl)
      as (m & summary & emotions & Hc & _ & _ & _ & _ & _ & Hu & Ha & _).
    exists m. split; [exact Hc|]. split; [exact Hu|exact Ha].
  - vm_compute in Hr. discriminate Hr.
Defined.

(** ** The routes: what they answer and what they refuse (api/endpoints) *)

Section Routes.
Context (rt : Runtime).
Context (memory_service : MemoryServiceAPI).

(** X15.  /save and /search answer with a response that says [success],
    or with an HTTP error, and nothing else: a response of the service that
    says the operation failed is turned into an HTTP error, and so is every
    exception, whatever the service does. *)
Theorem routes_answer_success_or_http_error (save_request : SaveRequest.t)
        (search_request : SearchRequest.t) (w : World) :
  match fst (SaveEndpoint.save_memory memory_service save_request w) with
  | Return response => SaveResponse.success response = true
  | Raise e => is_HTTPException e = true
  end
  /\ match fst (SearchEndpoint.search_memories memory_service search_request w) with
     | Return response => SearchResponse.success response = true
     | Raise e => is_HTTPException e = true
     end.
Proof.
  split.
  - unfold SaveEndpoint.save_memory, try_except, reraise_http, raise, bind, ret.
    destruct (negb (truthy (strip (SaveRequest.user_message save_request))));
      [reflexivity|].
    destruct (negb (truthy (strip (SaveRequest.ai_message save_request))));
      [reflexivity|].
    destruct (_ <? len (SaveRequest.user_message save_request))%Z; [reflexivity|].
    destruct (_ <? len (SaveRequest.ai_message save_request))%Z; [reflexivity|].
    destruct (svc_save_memory memory_service save_request w) as [[response|e] w1].
    + destruct (SaveResponse.success response) eqn:Hs; [exact Hs|reflexivity].
    + destruct (is_HTTPException e) eqn:He; [exact He|reflexivity].
  - unfold SearchEndpoint.search_memories, SearchEndpoint.check_date_format,
      try_except, reraise_http, raise, bind, ret.
    destruct (negb (truthy (strip (SearchRequest.query search_request))));
      [reflexivity|].
    destruct (_ || _); [reflexivity|].
    destruct (_ <? len (SearchRequest.query search_request))%Z; [reflexivity|].
    destruct (SearchRequest.date_from search_request); [reflexivity|].
    destruct (SearchRequest.date_to search_request); [reflexivity|].
    destruct (svc_search_memories memory_service search_request w) as [[response|e] w1].
    + destruct (SearchResponse.success response) eqn:Hs; [exact Hs|reflexivity].
    + destruct (is_HTTPException e) eqn:He; [exact He|reflexivity].
Qed.

(** X16.  No /search request with a date bound is served.  A body that
    names [date_from] or [date_to] always ends in an HTTP error, and the
    service is never called: a bound the framework cannot read is refused
    with status 422, and a bound it can read reaches the route as a
    [datetime], which the route's own format check hands to
    [datetime.fromisoformat]; that raises a [TypeError], answered with
    status 500. *)
Theorem search_with_date_bound_never_served (body : SearchBody.t) (w : World) :
  has_date_bound body ->
  exists status detail,
    SearchEndpoint.post_search rt memory_service body w
    = (Raise (HTTPException status detail), w)
    /\ (forall request,
          SearchEndpoint.parse_body rt body = Return request ->
          strip (SearchRequest.query request) <> [] ->
          (len (SearchRequest.query request) <= 1000)%Z ->
          status = 500%Z /\ detail = ServerError FromIsoFormatNotStr).
Proof.
  intros Hbound.
  unfold SearchEndpoint.post_search, bind, lift.
  destruct (SearchEndpoint.parse_body rt body) as [request|e] eqn:Hparse.
  - assert (Hdates : SearchRequest.date_from request <> None
                     \/ SearchRequest.date_to request <> None).
    { revert Hparse. unfold SearchEndpoint.parse_body, SearchEndpoint.unprocessable,
        SearchEndpoint.parse_optional_datetime.
      destruct (SearchBody.query body); cbn [rbind]; [|discriminate].
      destruct (SearchEndpoint.check_top_k _); cbn [rbind]; [|discriminate].
      destruct (SearchBody.emotion_filter body) as [vs|]; cbn [rbind].
      - destruct (rmap from_japanese vs); cbn [rbind]; [|discriminate].
        destruct Hbound as [Hb|Hb].
        + destruct (SearchBody.date_from body) as [s|]; [|contradiction].
          destruct (fromisoformat rt s); cbn [rbind]; [|discriminate].
          destruct (SearchBody.date_to body) as [s'|]; cbn [rbind].
          * destruct (fromisoformat rt s'); cbn [rbind]; [|discriminate].
            intros H; injection H as <-. left. discriminate.
          * intros H; injection H as <-. left. discriminate.
        + destruct (SearchBody.date_to body) as [s'|]; [|contradiction].
          destruct (SearchBody.date_from body) as [s|]; cbn [rbind].
          * destruct (fromisoformat rt s); cbn [rbind]; [|discriminate].
            destruct (fromisoformat rt s'); cbn [rbind]; [|discriminate].
            intros H; injection H as <-. left. discriminate.
          * destruct (fromisoformat rt s'); cbn [rbind]; [|discriminate].
            intros H; injection H as <-. right. discriminate.
      - destruct Hbound as [Hb|Hb].
        + destruct (SearchBody.date_from body) as [s|]; [|contradiction].
          destruct (fromisoformat rt s); cbn [rbind]; [|discriminate].
          destruct (SearchBody.date_to body) as [s'|]; cbn [rbind].
          * destruct (fromisoformat rt s'); cbn [rbind]; [|discriminate].
            intros H; injection H as <-. left. discriminate.
          * intros H; injection H as <-. left. discriminate.
        + destruct (SearchBody.date_to body) as [s'|]; [|contradiction].
          destruct (SearchBody.date_from body) as [s|]; cbn [rbind].
          * destruct (fromisoformat rt s); cbn [rbind]; [|discriminate].
            destruct (fromisoformat rt s'); cbn [rbind]; [|discriminate].
            intros H; injection H as <-. left. discriminate.
          * destruct (fromisoformat rt s'); cbn [rbind]; [|discriminate].
            intros H; injection H as <-. right. discriminate. }
    assert (Hk : ((SearchRequest.top_k request <=? 0)%Z
                  || (100 <? SearchRequest.top_k request)%Z) = false).
    { revert Hparse. unfold SearchEndpoint.parse_body, SearchEndpoint.unprocessable.
      destruct (SearchBody.query body); cbn [rbind]; [|discriminate].
      unfold SearchEndpoint.check_top_k, SearchRequest.top_k_ge, SearchRequest.top_k_le.
      destruct (_ || _) eqn:Hc; cbn [rbind]; [discriminate|].
      destruct (match SearchBody.emotion_filter body with
                | Some vs => _ | None => _ end); cbn [rbind]; [|discriminate].
      destruct (SearchEndpoint.parse_optional_datetime rt "date_from" _);
        cbn [rbind]; [|discriminate].
      destruct (SearchEndpoint.parse_optional_datetime rt "date_to" _);
        cbn [rbind]; [|discriminate].
      intros H; injection H as <-. cbn [SearchRequest.top_k].
      apply orb_false_iff in Hc as [H1 H2].
      apply Z.ltb_ge in H1, H2.
      apply orb_false_iff. split; [apply Z.leb_gt|apply Z.ltb_ge]; lia. }
    unfold SearchEndpoint.search_memories, SearchEndpoint.check_date_format,
      SearchEndpoint.max_query_length, try_except, reraise_http, raise, bind, ret.
    rewrite Hk.
    destruct (truthy (strip (SearchRequest.query request))) eqn:Hq; cbn [negb].
    2:{ do 2 eexists. split; [reflexivity|].
        intros r Hr Hne _. injection Hr as <-.
        apply truthy_nil_iff in Hq. contradiction. }
    destruct (1000 <? len (SearchRequest.query request))%Z eqn:Hl.
    { do 2 eexists. split; [reflexivity|].
      intros r Hr _ Hle. injection Hr as <-. apply Z.ltb_lt in Hl. lia. }
    destruct (SearchRequest.date_from request) as [d|].
    { do 2 eexists. split; [reflexivity|]. intros; split; reflexivity. }
    destruct (SearchRequest.date_to request) as [d|].
    { do 2 eexists. split; [reflexivity|]. intros; split; reflexivity. }
    destruct Hdates as [H|H]; now elim H.
  - assert (He : exists field, e = HTTPException 422 (SchemaViolation field)).
    { revert Hparse. unfold SearchEndpoint.parse_body, SearchEndpoint.unprocessable,
        SearchEndpoint.parse_optional_datetime, SearchEndpoint.check_top_k.
      destruct (SearchBody.query body); cbn [rbind];
        [|intros H; injection H as <-; eexists; reflexivity].
      destruct (_ || _); cbn [rbind];
        [intros H; injection H as <-; eexists; reflexivity|].
      destruct (SearchBody.emotion_filter body) as [vs|]; cbn [rbind].
      - destruct (rmap from_japanese vs); cbn [rbind];
          [|intros H; injection H as <-; eexists; reflexivity].
        destruct (SearchBody.date_from body) as [s|]; cbn [rbind].
        + destruct (fromisoformat rt s); cbn [rbind];
            [|intros H; injection H as <-; eexists; reflexivity].
          destruct (SearchBody.date_to body) as [s'|]; cbn [rbind]; [|discriminate].
          destruct (fromisoformat rt s'); cbn [rbind];
            [discriminate|intros H; injection H as <-; eexists; reflexivity].
        + destruct (SearchBody.date_to body) as [s'|]; cbn [rbind]; [|discriminate].
          destruct (fromisoformat rt s'); cbn [rbind];
            [discriminate|intros H; injection H as <-; eexists; reflexivity].
      - destruct (SearchBody.date_from body) as [s|]; cbn [rbind].
        + destruct (fromisoformat rt s); cbn [rbind];
            [|intros H; injection H as <-; eexists; reflexivity].
          destruct (SearchBody.date_to body) as [s'|]; cbn [rbind]; [|discriminate].
          destruct (fromisoformat rt s'); cbn [rbind];
            [discriminate|intros H; injection H as <-; eexists; reflexivity].
        + destruct (SearchBody.date_to body) as [s'|]; cbn [rbind]; [|discriminate].
          destruct (fromisoformat rt s'); cbn [rbind];
            [discriminate|intros H; injection H as <-; eexists; reflexivity]. }
    destruct He as (field & ->). do 2 eexists. split; [reflexivity|].
    intros request Hr. discriminate Hr.
Qed.

End Routes.

(** ** Batch search and the pre-flight checks of the batch routes
    (api/endpoints/batch.py) *)

Section BatchRoutes.
Context (rt : Runtime).
Context (memory_service : MemoryServiceAPI).

Abbreviation search := (svc_search_memories memory_service).
Abbreviation search_items_of k qos :=
  (List.map (fun iqo : nat * (pystr * result SearchResponse.t) =>
               search_item_of (fst iqo) (fst (snd iqo)) (snd (snd iqo)))
            (combine (seq k (length qos)) qos)).

Lemma outcomes_length {A B} (call : A -> M B) (xs : list A) (w : World) :
  length (fst (outcomes call xs w)) = length xs.
Proof.
  revert w. induction xs as [|x xs IH]; intros w; [reflexivity|].
  cbn [outcomes fst length]. now rewrite IH.
Qed.

(** A task ends with the Result of its own query, whatever the service
    did for it. *)
Lemma run_search_task (top_k : Z) (user_id : option pystr) (i : nat) (query : pystr)
      (w : World) :
  (1 <= top_k <= 20)%Z ->
  try_except (let* x := BatchSearch.search_single_query memory_service top_k user_id
                          i query in
              ret (Return x))
             (fun e => ret (Raise e)) w
  = (Return (Return (search_item_of i query
                       (fst (search (batch_request top_k user_id query) w)))),
     snd (search (batch_request top_k user_id query) w)).
Proof.
  intros Hk.
  unfold BatchSearch.search_single_query, BatchSearch.make_request,
    SearchEndpoint.check_top_k, SearchRequest.top_k_ge, SearchRequest.top_k_le,
    try_except, bind, ret, lift.
  destruct (top_k <? 1)%Z eqn:H1; [apply Z.ltb_lt in H1; lia|].
  destruct (20 <? top_k)%Z eqn:H2; [apply Z.ltb_lt in H2; lia|].
  cbn [orb rbind]. fold (batch_request top_k user_id query).
  destruct (search (batch_request top_k user_id query) w) as [[response|e] w1];
    reflexivity.
Qed.

Lemma gather_search_tasks (top_k : Z) (user_id : option pystr) (queries : list pystr) :
  (1 <= top_k <= 20)%Z ->
  forall (k : nat) (w : World),
    gather (List.map (fun '(i, query) =>
                        BatchSearch.search_single_query memory_service top_k user_id
                          i query)
                     (combine (seq k (length queries)) queries)) w
    = (Return (List.map Return
                 (search_items_of k
                    (combine queries
                       (fst (outcomes search
                               (List.map (batch_request top_k user_id) queries) w))))),
       snd (outcomes search (List.map (batch_request top_k user_id) queries) w)).
Proof.
  intros Hk. induction queries as [|q queries IH]; intros k w; [reflexivity|].
  cbn [length seq combine List.map outcomes fst snd].
  unfold gather in *. cbn [mapM].
  unfold bind at 1. rewrite (run_search_task top_k user_id k q w Hk).
  unfold bind at 1.
  rewrite (IH (S k) (snd (search (batch_request top_k user_id q) w))).
  cbn [ret length seq combine List.map fst snd].
  reflexivity.
Qed.

Lemma search_tally_returns (queries : list pystr) (items : list SearchItem.t) :
  forall (s f : nat) (processed : list SearchItem.t),
    BatchSearch.tally queries (List.map Return items) s f processed
    = (s + length (List.filter SearchItem.success items),
       f + length (List.filter (fun it => negb (SearchItem.success it)) items),
       processed ++ items).
Proof.
  induction items as [|it items IH]; intros s f processed.
  - cbn. now rewrite !Nat.add_0_r, app_nil_r.
  - cbn [List.map BatchSearch.tally List.filter].
    destruct (SearchItem.success it); cbn [negb length]; rewrite IH;
      rewrite <- app_assoc; cbn [app]; f_equal; f_equal; lia.
Qed.

Lemma search_item_of_success (i : nat) (q : pystr) (o : result SearchResponse.t) :
  SearchItem.success (search_item_of i q o) = negb (query_failed o).
Proof. destruct o; cbn; [now rewrite negb_involutive|reflexivity]. Qed.

Lemma count_failed_queries (qs : list pystr) (os : list (result SearchResponse.t)) :
  length os = length qs ->
  forall k,
    length (List.filter (fun it => negb (SearchItem.success it))
              (search_items_of k (combine qs os)))
    = length (List.filter query_failed os)
    /\ length (List.filter SearchItem.success (search_items_of k (combine qs os)))
       + length (List.filter query_failed os) = length qs.
Proof.
  revert os. induction qs as [|q qs IH]; intros os Hlen k.
  - destruct os; [split; reflexivity|discriminate].
  - destruct os as [|o os]; [discriminate|]. injection Hlen as Hlen.
    cbn [length seq combine List.map List.filter fst snd].
    rewrite search_item_of_success, negb_involutive.
    destruct (IH os Hlen (S k)) as (Hf & Hs).
    destruct (query_failed o); cbn [negb length]; split; lia.
Qed.

Lemma check_queries_pass (queries : list pystr) :
  Forall (fun query => strip query <> [] /\ (len query <= 1000)%Z) queries ->
  forall k, BatchSearch.check_queries (combine (seq k (length queries)) queries) = None.
Proof.
  induction 1 as [|q queries [Hq Hl] _ IH]; intros k; [reflexivity|].
  cbn [length seq combine BatchSearch.check_queries].
  destruct (truthy (strip q)) eqn:Ht.
  2:{ apply truthy_nil_iff in Ht. contradiction. }
  destruct (1000 <? len q)%Z eqn:Hlong; [apply Z.ltb_lt in Hlong; lia|].
  cbn. apply IH.
Qed.

(** X17.  /batch-search isolates the failures of its queries.  A batch
    that passes the pre-flight checks always ends with a report, whatever
    the service does for each query (answer, answer [success = False], or
    raise).  The report has one Result per query, in input order, each the
    Result of that query's own outcome; the failure count is the number of
    queries that failed, the success count is the rest, and the overall flag
    is true exactly when no query failed. *)
Theorem batch_search_isolates_failures (queries : list pystr) (top_k : Z)
        (user_id : option pystr) (w : World) :
  valid_queries queries top_k ->
  let os := fst (outcomes search (List.map (batch_request top_k user_id) queries)
                   (snd (now rt w))) in
  exists report : BatchSearchReport.t,
    fst (BatchSearch.batch_search_memories rt memory_service queries top_k user_id w)
      = Return report
    /\ BatchSearchReport.results report
       = List.map (fun iqo : nat * (pystr * result SearchResponse.t) =>
                     search_item_of (fst iqo) (fst (snd iqo)) (snd (snd iqo)))
                  (enumerate (combine queries os))
    /\ length (BatchSearchReport.results report) = length queries
    /\ BatchSearchReport.total_queries report = length queries
    /\ BatchSearchReport.failed_searches report = length (List.filter query_failed os)
    /\ BatchSearchReport.successful_searches report
       + BatchSearchReport.failed_searches report = length queries
    /\ (BatchSearchReport.success report = true
        <-> BatchSearchReport.failed_searches report = 0).
Proof.
  intros (Hne & Hsize & Hk & Hqs) os.
  set (w1 := snd (now rt w)) in *.
  assert (Hlen : length os = length queries).
  { unfold os. now rewrite outcomes_length, length_map. }
  destruct (count_failed_queries queries os Hlen 0) as (Hfail & Hsucc).
  assert (Hrun : exists report,
             fst (BatchSearch.batch_search_memories rt memory_service queries
                    top_k user_id w) = Return report
             /\ BatchSearchReport.results report = search_items_of 0 (combine queries os)
             /\ BatchSearchReport.total_queries report = length queries
             /\ BatchSearchReport.failed_searches report
                = length (List.filter (fun it => negb (SearchItem.success it))
                            (search_items_of 0 (combine queries os)))
             /\ BatchSearchReport.successful_searches report
                = length (List.filter SearchItem.success
                            (search_items_of 0 (combine queries os)))
             /\ BatchSearchReport.success report
                = Nat.eqb (BatchSearchReport.failed_searches report) 0).
  { unfold BatchSearch.batch_search_memories.
    unfold bind at 1. unfold now at 1. fold (now rt w).
    unfold try_except at 1.
    destruct queries as [|q0 queries]; [contradiction|].
    assert (Hsz : (BatchSearch.max_batch_size <? len (q0 :: queries))%Z = false).
    { apply Z.ltb_ge. unfold BatchSearch.max_batch_size, len. lia. }
    rewrite Hsz.
    assert (Htk : BatchSearch.top_k_rejected top_k = false).
    { unfold BatchSearch.top_k_rejected, BatchSearch.max_top_k.
      apply orb_false_iff. split; [apply Z.leb_gt|apply Z.ltb_ge]; lia. }
    rewrite Htk. unfold enumerate.
    rewrite (check_queries_pass (q0 :: queries) Hqs 0).
    unfold bind at 1.
    change {| trace := trace w; issued := issued w; collection := collection w;
              clock_reads := S (clock_reads w) |} with w1.
    rewrite (gather_search_tasks top_k user_id (q0 :: queries) Hk 0 w1).
    fold os.
    rewrite search_tally_returns. cbn [app Nat.add].
    unfold bind at 1. unfold now at 1. cbn [fst snd ret].
    eexists. split; [reflexivity|]. cbn. repeat split. }
  destruct Hrun as (report & Hr & Hres & Htot & Hf & Hs & Hflag).
  exists report. rewrite Hfail in Hf.
  split; [exact Hr|].
  split; [rewrite Hres; unfold enumerate; reflexivity|].
  split; [rewrite Hres, length_map, length_combine, length_seq, length_combine; lia|].
  split; [exact Htot|]. split; [exact Hf|].
  split; [lia|].
  rewrite Hflag. apply Nat.eqb_eq.
Qed.

(** X18.  /batch-save refuses a batch before any item is handed to the
    service when the batch is empty, has more than 100 items, or has an item
    with a blank message: it answers with status 400, and no call leaves the
    route. *)
Theorem batch_save_refuses_before_service (requests : list SaveRequest.t) (w : World) :
  requests = [] \/ (100 < len requests)%Z \/ has_blank_item requests ->
  exists detail,
    fst (BatchSave.batch_save_memories rt memory_service requests w)
      = Raise (HTTPException 400 detail)
    /\ trace (snd (BatchSave.batch_save_memories rt memory_service requests w))
       = trace w
    /\ collection (snd (BatchSave.batch_save_memories rt memory_service requests w))
       = collection w.
Proof.
  intros H.
  unfold BatchSave.batch_save_memories, try_except, reraise_http, raise, bind, now.
  destruct requests as [|r0 requests]; [cbn; eexists; repeat split|].
  destruct (BatchSave.max_batch_size <? len (r0 :: requests))%Z eqn:Hsz;
    [cbn; eexists; repeat split|].
  destruct H as [H|[H|(request & Hin & Hblank)]];
    [discriminate|apply Z.ltb_ge in Hsz; unfold BatchSave.max_batch_size in Hsz; lia|].
  destruct (In_enumerate (r0 :: requests) request Hin) as (i & Hi).
  destruct (check_items_blank (enumerate (r0 :: requests))) as (detail & Hc).
  { exists i, request. split; assumption. }
  rewrite Hc. cbn. eexists; repeat split.
Qed.

(** X19.  /batch-search refuses a batch before any query is handed to
    the service when the batch is empty, has more than 50 queries, asks for
    [top_k] outside 1 to 20, or has a query that is blank or longer than
    1,000 characters: it answers with status 400, and no call leaves the
    route. *)
Theorem batch_search_refuses_before_service (queries : list pystr) (top_k : Z)
        (user_id : option pystr) (w : World) :
  queries = [] \/ (50 < len queries)%Z \/ (top_k <= 0)%Z \/ (20 < top_k)%Z
  \/ has_bad_query queries ->
  exists detail,
    fst (BatchSearch.batch_search_memories rt memory_service queries top_k user_id w)
      = Raise (HTTPException 400 detail)
    /\ trace (snd (BatchSearch.batch_search_memories rt memory_service queries
                     top_k user_id w)) = trace w
    /\ collection (snd (BatchSearch.batch_search_memories rt memory_service queries
                          top_k user_id w)) = collection w.
Proof.
  intros H.
  unfold BatchSearch.batch_search_memories, try_except, reraise_http, raise, bind, now.
  destruct queries as [|q0 queries]; [cbn; eexists; repeat split|].
  destruct (BatchSearch.max_batch_size <? len (q0 :: queries))%Z eqn:Hsz;
    [cbn; eexists; repeat split|].
  destruct (BatchSearch.top_k_rejected top_k) eqn:Htk; [cbn; eexists; repeat split|].
  apply Z.ltb_ge in Hsz. unfold BatchSearch.max_batch_size in Hsz.
  unfold BatchSearch.top_k_rejected, BatchSearch.max_top_k in Htk.
  apply orb_false_iff in Htk as [Hk1 Hk2].
  apply Z.leb_gt in Hk1. apply Z.ltb_ge in Hk2.
  destruct H as [H|[H|[H|[H|(query & Hin & Hbad)]]]]; [discriminate|lia|lia|lia|].
  destruct (In_enumerate (q0 :: queries) query Hin) as (i & Hi).
  destruct (check_queries_bad (enumerate (q0 :: queries))) as (detail & Hc).
  { exists i, query. split; assumption. }
  rewrite Hc. cbn. eexists; repeat split.
Qed.

End BatchRoutes.

Lemma search_with_date_bound_never_served_witness :
  SearchEndpoint.post_search stamp_runtime working_service dated_body initial_world
  = (Raise (HTTPException 500 (ServerError FromIsoFormatNotStr)), initial_world).
Proof.
  destruct (search_with_date_bound_never_served stamp_runtime working_service
              dated_body initial_world) as (status & detail & Hrun & Hwhy).
  - left. discriminate.
  - destruct (Hwhy {| SearchRequest.query := str "walk"; SearchRequest.top_k := 5;
                      SearchRequest.emotion_filter := None;
                      SearchRequest.user_id := None;
                      SearchRequest.date_from := Some 7%Z;
                      SearchRequest.date_to := None |} eq_refl)
      as [-> ->]; [discriminate|vm_compute; discriminate|exact Hrun].
Defined.

Lemma batch_search_isolates_failures_witness :
  exists report : BatchSearchReport.t,
    fst (BatchSearch.batch_search_memories picky_search_runtime picky_search_service
           [str "hello"; str "fail"; str "thanks"] 5 None initial_world) = Return report
    /\ length (BatchSearchReport.results report) = 3
    /\ BatchSearchReport.failed_searches report = 1
    /\ BatchSearchReport.successful_searches report = 2
    /\ BatchSearchReport.success report = false.
Proof.
  destruct (batch_search_isolates_failures picky_search_runtime picky_search_service
              [str "hello"; str "fail"; str "thanks"] 5 None initial_world)
    as (report & Hr & _ & Hlen & _ & Hf & Hsum & Hflag).
  - split; [discriminate|]. split; [simpl; lia|]. split; [lia|].
    repeat constructor; vm_compute; discriminate.
  - exists report. split; [exact Hr|]. split; [exact Hlen|].
    assert (Hone : BatchSearchReport.failed_searches report = 1)
      by (rewrite Hf; vm_compute; reflexivity).
    split; [exact Hone|]. split; [simpl length in Hsum; lia|].
    destruct (BatchSearchReport.success report); [|reflexivity].
    destruct Hflag as [Hflag _]. specialize (Hflag eq_refl). lia.
Defined.

Lemma batch_save_refuses_before_service_witness :
  exists detail,
    fst (BatchSave.batch_save_memories working_runtime working_service
           [Mock.save_request (str "hello") (str "hi");
            Mock.save_request (str "  ") (str "hi")] initial_world)
      = Raise (HTTPException 400 detail)
    /\ trace (snd (BatchSave.batch_save_memories working_runtime working_service
                     [Mock.save_request (str "hello") (str "hi");
                      Mock.save_request (str "  ") (str "hi")] initial_world)) = [].
Proof.
  destruct (batch_save_refuses_before_service working_runtime working_service
              [Mock.save_request (str "hello") (str "hi");
               Mock.save_request (str "  ") (str "hi")] initial_world)
    as (detail & Hr & Ht & _).
  - right. right. exists (Mock.save_request (str "  ") (str "hi")).
    split; [right; left; reflexivity|left; reflexivity].
  - exists detail. split; [exact Hr|exact Ht].
Defined.

Lemma batch_search_refuses_before_service_witness :
  exists detail,
    fst (BatchSearch.batch_search_memories working_runtime working_service
           [str "walk"] 21 None initial_world) = Raise (HTTPException 400 detail)
    /\ trace (snd (BatchSearch.batch_search_memories working_runtime working_service
                     [str "walk"] 21 None initial_world)) = [].
Proof.
  destruct (batch_search_refuses_before_service working_runtime working_service
              [str "walk"] 21 None initial_world)
    as (detail & Hr & Ht & _).
  - right. right. right. left. lia.
  - exists detail. split; [exact Hr|exact Ht].
Defined.

(** ** The reply parser of the Claude client (core/llm/claude.py) *)

Lemma startswith_app (p post : pystr) : startswith (p ++ post) p = true.
Proof.
  induction p as [|a p IH]; [destruct post; reflexivity|].
  cbn [app startswith]. now rewrite N.eqb_refl, IH.
Qed.

Lemma startswith_split (s p : pystr) :
  startswith s p = true -> exists post, s = p ++ post.
Proof.
  revert s. induction p as [|a p IH]; intros s H; [now exists s|].
  destruct s as [|b s]; [discriminate|]. cbn [startswith] in H.
  apply andb_prop in H as [Hab Hs]. apply N.eqb_eq in Hab as ->.
  destruct (IH s Hs) as (post & ->). now exists post.
Qed.

Lemma str_contains_split (s sub : pystr) :
  str_contains s sub = true <-> exists pre post, s = pre ++ sub ++ post.
Proof.
  split.
  - induction s as [|c s IH]; cbn [str_contains]; intros H.
    + apply orb_prop in H as [H|H]; [|discriminate].
      apply startswith_split in H as (post & ->). now exists [], post.
    + apply orb_prop in H as [H|H].
      * apply startswith_split in H as (post & ->). now exists [], post.
      * destruct (IH H) as (pre & post & ->). now exists (c :: pre), post.
  - intros (pre & post & ->). induction pre as [|c pre IH].
    + cbn [app]. destruct (sub ++ post) eqn:E; cbn [str_contains];
        rewrite <- E, startswith_app; reflexivity.
    + cbn [app str_contains]. rewrite IH. apply orb_true_r.
Qed.

Lemma str_contains_inside (pre mid post sub : pystr) :
  str_contains (pre ++ mid ++ post) sub = false -> str_contains mid sub = false.
Proof.
  intros H. destruct (str_contains mid sub) eqn:E; [|reflexivity].
  apply str_contains_split in E as (a & b & ->).
  rewrite <- H. symmetry. apply str_contains_split.
  exists (pre ++ a), (b ++ post). now rewrite <- !app_assoc.
Qed.

Lemma lstrip_split (s : pystr) : exists ws, s = ws ++ lstrip s.
Proof.
  induction s as [|c s (ws & IH)]; [now exists []|].
  cbn [lstrip]. destruct (isspace c); [|now exists []].
  exists (c :: ws). cbn [app]. now f_equal.
Qed.

Lemma lstrip_left_clean (s : pystr) : left_clean (lstrip s).
Proof.
  induction s as [|c s IH]; [exact I|].
  cbn [lstrip]. destruct (isspace c) eqn:E; [exact IH|exact E].
Qed.

Lemma lstrip_of_left_clean (s : pystr) : left_clean s -> lstrip s = s.
Proof. destruct s as [|c s]; [reflexivity|]. cbn. now intros ->. Qed.

Lemma rstrip_split (s : pystr) : exists ws, s = rstrip s ++ ws.
Proof.
  unfold rstrip. destruct (lstrip_split (rev s)) as (ws & H).
  exists (rev ws). rewrite <- rev_app_distr, <- H. now rewrite rev_involutive.
Qed.

Lemma rstrip_left_clean (s : pystr) : left_clean s -> left_clean (rstrip s).
Proof.
  intros H. destruct (rstrip_split s) as (ws & Hs).
  destruct (rstrip s) as [|c r]; [exact I|].
  rewrite Hs in H. exact H.
Qed.

(** [s.strip().strip()] is [s.strip()]. *)
Lemma strip_idempotent (s : pystr) : strip (strip s) = strip s.
Proof.
  unfold strip.
  rewrite (lstrip_of_left_clean (rstrip (lstrip s)))
    by apply rstrip_left_clean, lstrip_left_clean.
  unfold rstrip. rewrite rev_involutive.
  now rewrite (lstrip_of_left_clean (lstrip _)) by apply lstrip_left_clean.
Qed.

Lemma strip_inside (s : pystr) : exists pre post, s = pre ++ strip s ++ post.
Proof.
  unfold strip. destruct (lstrip_split s) as (pre & Hs).
  destruct (rstrip_split (lstrip s)) as (post & Ht).
  exists pre, post. now rewrite <- Ht.
Qed.

Lemma split_without_separator (sep s : pystr) :
  str_contains s sep = false -> ClaudeLLM.split_on s sep = [s].
Proof.
  unfold ClaudeLLM.split_on. induction s as [|c s IH]; [reflexivity|].
  cbn [str_contains ClaudeLLM.split_from]. intros H.
  apply orb_false_iff in H as [Hhere Hrest].
  cbn [startswith] in Hhere |- *. rewrite Hhere, (IH Hrest). reflexivity.
Qed.

Section ClaudeReply.
Context {SI : SetIteration}.

(** X20.  A reply in the format the prompt asks for is rejected.  The
    parser splits the reply at the two characters backslash and n, not at
    line feeds.  So a reply without that pair is read as one line; when it
    opens with the summary label (or heading) and has text after it, the
    whole reply becomes the summary, no emotion is found, the validation
    fails for want of emotions, and the client raises [LLMError] - also when
    the reply carries an emotion line after a line feed. *)
Theorem reply_in_prompted_format_is_rejected (response : pystr) :
  str_contains response ClaudeLLM.line_break = false ->
  startswith (strip response) ClaudeLLM.summary_label
  || startswith (strip response) ClaudeLLM.summary_heading = true ->
  strip (ClaudeLLM.remove (ClaudeLLM.remove (strip response) ClaudeLLM.summary_label)
           ClaudeLLM.summary_heading) <> [] ->
  snd (ClaudeLLM._parse_response response) = []
  /\ fst (ClaudeLLM._parse_response response)
     = strip (ClaudeLLM.remove
                (ClaudeLLM.remove (strip response) ClaudeLLM.summary_label)
                ClaudeLLM.summary_heading)
  /\ ClaudeLLM.read_reply response
     = Raise (LLMError (Raw (str
         "[claude] Claude processing failed: [claude] Invalid response format"))).
Proof.
  intros Hone Hlabel Htext.
  assert (Hline : ClaudeLLM.split_on (strip response) ClaudeLLM.line_break
                  = [strip response]).
  { apply split_without_separator.
    destruct (strip_inside response) as (pre & post & Hs).
    rewrite Hs in Hone. exact (str_contains_inside _ _ _ _ Hone). }
  assert (Hparse : ClaudeLLM._parse_response response
                   = (strip (ClaudeLLM.remove
                               (ClaudeLLM.remove (strip response)
                                  ClaudeLLM.summary_label)
                               ClaudeLLM.summary_heading), [])).
  { unfold ClaudeLLM._parse_response. rewrite Hline. cbn [fold_left].
    unfold ClaudeLLM.parse_line. rewrite strip_idempotent, Hlabel.
    cbn [ClaudeLLM.summary ClaudeLLM.emotions].
    destruct (strip (ClaudeLLM.remove _ ClaudeLLM.summary_heading)) as [|c t] eqn:Et;
      [contradiction|].
    cbn [truthy negb andb]. rewrite <- Et. now rewrite strip_idempotent. }
  rewrite Hparse. cbn [fst snd]. split; [reflexivity|]. split; [reflexivity|].
  unfold ClaudeLLM.read_reply. rewrite Hparse.
  unfold BaseLLM._validate_response.
  destruct (negb (truthy _) || _); reflexivity.
Qed.

(** X21.  A tag that holds another tag is read as both.  恥 (shame) is the
    first character of 恥ずかしさ (shyness), and the tags are looked for as
    substrings: whenever shyness is among the emotions extracted from a
    text, the text also counts for shame, and shame is extracted with it
    unless more than five tags occur in the text. *)
Theorem shyness_is_also_read_as_shame (text : pystr) :
  List.In SHYNESS (BaseLLM._extract_emotions text) ->
  List.In SHAME (BaseLLM.parsed_emotions text)
  /\ (length (list_of_set (BaseLLM.parsed_emotions text)) <= 5 ->
      List.In SHAME (BaseLLM._extract_emotions text)).
Proof.
  intros Hshy. unfold BaseLLM._extract_emotions in *.
  apply In_firstn in Hshy. apply (proj1 (list_of_set_elem _ _)) in Hshy.
  apply (proj1 (parsed_emotions_spec _ _)) in Hshy.
  assert (Hshame : List.In SHAME (BaseLLM.parsed_emotions text)).
  { apply (proj2 (parsed_emotions_spec _ _)).
    apply str_contains_split in Hshy as (pre & post & ->).
    apply str_contains_split.
    exists pre, ([12378; 12363; 12375; 12373]%N ++ post). reflexivity. }
  split; [exact Hshame|].
  intros Hfew. rewrite firstn_all2 by exact Hfew.
  exact (proj2 (list_of_set_elem _ _) Hshame).
Qed.

End ClaudeReply.

Lemma reply_in_prompted_format_is_rejected_witness :
  str_contains prompted_reply (EmotionEnum.value JOY) = true
  /\ snd (@ClaudeLLM._parse_response Mock.insertion_order prompted_reply) = []
  /\ @ClaudeLLM.read_reply Mock.insertion_order prompted_reply
     = Raise (LLMError (Raw (str
         "[claude] Claude processing failed: [claude] Invalid response format"))).
Proof.
  split; [vm_compute; reflexivity|].
  destruct (@reply_in_prompted_format_is_rejected Mock.insertion_order prompted_reply)
    as (Hnone & _ & Hraise);
    [vm_compute; reflexivity|vm_compute; reflexivity|vm_compute; discriminate|].
  split; [exact Hnone|exact Hraise].
Defined.

Lemma shyness_is_also_read_as_shame_witness :
  List.In SHAME (@BaseLLM._extract_emotions Mock.insertion_order
                   (EmotionEnum.value SHYNESS)).
Proof.
  apply (@shyness_is_also_read_as_shame Mock.insertion_order (EmotionEnum.value SHYNESS)).
  - vm_compute. tauto.
  - vm_compute. lia.
Defined.

(** ** The rate-limit middleware (api/middleware/rate_limit.py) *)

Lemma denied_keeps_times (cfg : RateLimiter.Config) (s : RateLimiter.State)
      (request : RateLimiter.Request) (now : Q) (k : pystr) :
  RateLimiter.is_allowed (fst (RateLimiter.check_rate_limit cfg s request now)) = false ->
  RateLimiter.times_get (snd (RateLimiter.check_rate_limit cfg s request now)) k
  = RateLimiter.times_get s k.
Proof.
  unfold RateLimiter.check_rate_limit.
  destruct (negb _); [discriminate|].
  destruct (list_contains _ _); [discriminate|].
  pose proof (check_keeps_times cfg s (RateLimiter._get_rate_limit_key request)
                (RateLimiter.path request) k now) as Ht.
  destruct (RateLimiter._check_rate_limit _ _ _ _ _) as [[d|d] s1];
    cbn [fst snd RateLimiter.is_allowed] in *; [discriminate|].
  intros _. exact Ht.
Qed.

(** What the details of an admission say. *)
Lemma admitted_request_facts (cfg : RateLimiter.Config) (s : RateLimiter.State)
      (request : RateLimiter.Request) (now : Q) (key : pystr) (a : RateLimiter.Allowed) :
  fst (RateLimiter.check_rate_limit cfg s request now) = RateLimiter.AllowedFor key a ->
  let lim := RateLimiter._get_endpoint_limits cfg (RateLimiter.path request) in
  key = RateLimiter._get_rate_limit_key request
  /\ (RateLimiter.count_after (now - 60) (RateLimiter.times_get s key)
      < RateLimiter.rpm lim)%Z
  /\ (RateLimiter.count_after (now - 3600) (RateLimiter.times_get s key)
      < RateLimiter.rph lim)%Z
  /\ RateLimiter.minute_requests a
     = RateLimiter.count_after (now - 60) (RateLimiter.times_get s key)
  /\ RateLimiter.hour_requests a
     = RateLimiter.count_after (now - 3600) (RateLimiter.times_get s key)
  /\ RateLimiter.limits a = lim.
Proof.
  unfold RateLimiter.check_rate_limit.
  destruct (negb _); [discriminate|].
  destruct (list_contains _ _); [discriminate|].
  destruct (RateLimiter._check_rate_limit _ _ _ _ _) as [[d0|d0] s1] eqn:Hc;
    cbn [fst]; [|discriminate].
  intros Heq. injection Heq as <- <-. cbv zeta.
  split; [reflexivity|].
  revert Hc. unfold RateLimiter._check_rate_limit.
  destruct (_ <=? _)%Z.
  - destruct (last _); [|discriminate].
    destruct (Qle_bool 1 _); [|discriminate].
    intros Hw. apply window_checks_allow_inv in Hw as (Hm & Hh & -> & _).
    repeat split; assumption || reflexivity.
  - intros Hw. apply window_checks_allow_inv in Hw as (Hm & Hh & -> & _).
    repeat split; assumption || reflexivity.
Qed.

Section Middleware.
Context {H R : Type}.
Context (call_next : H -> result R * H).
Context (cfg : RateLimiter.Config).

(** X22.  A refused request never reaches the application.  When the
    limiter denies the request, the middleware answers 429 with the
    limiter's error, limit and waiting time, [Retry-After] being the waiting
    time cut to whole seconds; the handler is not run, and the limiter's
    histories are what they were.  For a burst denial on a clock that has
    not gone back, [Retry-After] is 0 or 1. *)
Theorem refused_request_never_reaches_handler (s : RateLimiter.State)
        (request : RateLimiter.Request) (now : Q) (h : H)
        (key : pystr) (d : RateLimiter.Denied) :
  fst (RateLimiter.check_rate_limit cfg s request now) = RateLimiter.DeniedFor key d ->
  let run := RateLimitMiddleware.rate_limit_middleware call_next cfg s request now h in
  fst run = RateLimitMiddleware.Rejected
              {| RateLimitMiddleware.wait := RateLimiter.reset_in d;
                 RateLimitMiddleware.retry_after :=
                   RateLimitMiddleware.int_of (RateLimiter.reset_in d);
                 RateLimitMiddleware.limit_error := RateLimiter.error d;
                 RateLimitMiddleware.limit_value := RateLimiter.limit d |}
  /\ snd (snd run) = h
  /\ (forall k, RateLimiter.times_get (fst (snd run)) k = RateLimiter.times_get s k)
  /\ (RateLimiter.error d = RateLimiter.burst_limit_exceeded ->
      (forall latest, last (RateLimiter.times_get s key) = Some latest ->
                      (latest <= now)%Q) ->
      (0 <= RateLimitMiddleware.int_of (RateLimiter.reset_in d) <= 1)%Z).
Proof.
  intros Hd run. unfold run, RateLimitMiddleware.rate_limit_middleware. cbv zeta.
  rewrite Hd. cbn [fst snd].
  split; [reflexivity|]. split; [reflexivity|].
  split.
  - intros k. apply denied_keeps_times. now rewrite Hd.
  - intros Hburst Hclock.
    assert (Hwait : (0 < RateLimiter.reset_in d <= 1)%Q).
    { revert Hd. unfold RateLimiter.check_rate_limit.
      destruct (negb _); [discriminate|].
      destruct (list_contains _ _); [discriminate|].
      destruct (RateLimiter._check_rate_limit _ _ _ _ _) as [[d0|d0] s1] eqn:Hc;
        cbn [fst]; [discriminate|].
      intros Heq. injection Heq as <- <-.
      revert Hc. unfold RateLimiter._check_rate_limit.
      destruct (_ <=? _)%Z.
      - destruct (last _) as [latest|] eqn:Hlast.
        + specialize (Hclock latest eq_refl).
          destruct (Qle_bool 1 _) eqn:Hq.
          * intros Hw. apply window_checks_deny_inv in Hw as (Hne & _). contradiction.
          * intros Heq. injection Heq as <- _. cbn [RateLimiter.reset_in].
            assert (Hlt : (now - latest < 1)%Q).
            { destruct (Qlt_le_dec (now - latest) 1) as [Hlt|Hge]; [exact Hlt|].
              apply Qle_bool_iff in Hge. congruence. }
            split; lra.
        + intros Heq. injection Heq as <- _. cbn [RateLimiter.reset_in]. split; lra.
      - intros Hw. apply window_checks_deny_inv in Hw as (Hne & _). contradiction. }
    destruct Hwait as [Hpos Hle]. unfold RateLimitMiddleware.int_of.
    destruct (RateLimiter.reset_in d) as [n dn]. unfold Qlt, Qle in *. cbn in *.
    split.
    + apply Z.quot_pos; lia.
    + destruct (Z.eq_dec n (Z.pos dn)) as [->|Hne].
      * rewrite Z.quot_same; lia.
      * rewrite Z.quot_small; lia.
Qed.

(** X23.  A response that went through never shows an exhausted window.
    The remaining-requests headers are computed from the counts taken
    before the request itself was recorded, and the request was admitted
    because those counts were below the caps: the headers show the cap minus
    the earlier requests in the window, which is at least 1. *)
Theorem admitted_response_shows_remaining (s : RateLimiter.State)
        (request : RateLimiter.Request) (now : Q) (h : H)
        (response : R) (headers : RateLimitMiddleware.RateHeaders) :
  fst (RateLimitMiddleware.rate_limit_middleware call_next cfg s request now h)
    = RateLimitMiddleware.Responded response (Some headers) ->
  let key := RateLimiter._get_rate_limit_key request in
  let lim := RateLimiter._get_endpoint_limits cfg (RateLimiter.path request) in
  RateLimitMiddleware.remaining_minute headers
    = (RateLimiter.rpm lim
       - RateLimiter.count_after (now - 60) (RateLimiter.times_get s key))%Z
  /\ RateLimitMiddleware.remaining_hour headers
     = (RateLimiter.rph lim
        - RateLimiter.count_after (now - 3600) (RateLimiter.times_get s key))%Z
  /\ (1 <= RateLimitMiddleware.remaining_minute headers)%Z
  /\ (1 <= RateLimitMiddleware.remaining_hour headers)%Z.
Proof.
  unfold RateLimitMiddleware.rate_limit_middleware. cbv zeta.
  destruct (fst (RateLimiter.check_rate_limit cfg s request now)) as [| |k a|k d] eqn:Ho.
  - destruct (call_next h) as [[r|e] h1]; cbn [fst RateLimitMiddleware.headers_of];
      [discriminate|].
    destruct (is_HTTPException e); [discriminate|].
    destruct (call_next h1) as [[r|e2] h2]; discriminate.
  - destruct (call_next h) as [[r|e] h1]; cbn [fst RateLimitMiddleware.headers_of];
      [discriminate|].
    destruct (is_HTTPException e); [discriminate|].
    destruct (call_next h1) as [[r|e2] h2]; discriminate.
  - destruct (admitted_request_facts cfg s request now k a Ho)
      as (-> & Hm & Hh & Hmin & Hhour & Hlim).
    destruct (call_next h) as [[r|e] h1]; cbn [fst RateLimitMiddleware.headers_of].
    + intros Heq. injection Heq as _ <-.
      cbn [RateLimitMiddleware.remaining_minute RateLimitMiddleware.remaining_hour].
      rewrite Hlim, Hmin, Hhour. cbv zeta. lia.
    + destruct (is_HTTPException e); [discriminate|].
      destruct (call_next h1) as [[r|e2] h2]; discriminate.
  - discriminate.
Qed.

(** X24.  Failing open runs the application twice.  When the request is
    let through and [call_next] raises an exception that is not an HTTP
    error, the middleware calls [call_next] a second time, on the state the
    first call left, and answers with whatever the second call gives, without
    rate-limit headers; the request was recorded once. *)
Theorem failing_handler_is_run_twice (s : RateLimiter.State)
        (request : RateLimiter.Request) (now : Q) (h h1 : H) (e : exn) :
  RateLimiter.is_allowed (fst (RateLimiter.check_rate_limit cfg s request now)) = true ->
  call_next h = (Raise e, h1) ->
  is_HTTPException e = false ->
  RateLimitMiddleware.rate_limit_middleware call_next cfg s request now h
  = (match fst (call_next h1) with
     | Return response => RateLimitMiddleware.Responded response None
     | Raise e2 => RateLimitMiddleware.Failed e2
     end,
     (snd (RateLimiter.check_rate_limit cfg s request now), snd (call_next h1))).
Proof.
  intros Hallowed Hfail Hkind.
  unfold RateLimitMiddleware.rate_limit_middleware. cbv zeta.
  destruct (fst (RateLimiter.check_rate_limit cfg s request now)) as [| |k a|k d];
    try discriminate Hallowed;
    rewrite Hfail, Hkind; destruct (call_next h1) as [[r|e2] h2]; reflexivity.
Qed.

End Middleware.

Lemma refused_request_never_reaches_handler_witness :
  let s := state_after default_config [0%Q; (1 # 10)%Q] in
  let run := RateLimitMiddleware.rate_limit_middleware flaky_handler default_config s
               debug_request (1 # 2) 0 in
  snd (snd run) = 0
  /\ (0 <= RateLimitMiddleware.int_of (1 - ((1 # 2) - (1 # 10))) <= 1)%Z.
Proof.
  cbv zeta.
  destruct (refused_request_never_reaches_handler flaky_handler default_config
              (state_after default_config [0%Q; (1 # 10)%Q]) debug_request (1 # 2) 0
              (RateLimiter._get_rate_limit_key debug_request)
              {| RateLimiter.error := RateLimiter.burst_limit_exceeded;
                 RateLimiter.limit := 2;
                 RateLimiter.reset_in := (1 - ((1 # 2) - (1 # 10)))%Q |})
    as (_ & Hh & _ & Hretry); [vm_compute; reflexivity|].
  split; [exact Hh|].
  apply Hretry; [reflexivity|].
  intros latest Hlast. vm_compute in Hlast. injection Hlast as <-.
  vm_compute. discriminate.
Defined.

Lemma admitted_response_shows_remaining_witness :
  (1 <= 10)%Z
  /\ (10 = 10 - RateLimiter.count_after (0 - 60)
                  (RateLimiter.times_get (RateLimiter.init_state 0)
                     (RateLimiter._get_rate_limit_key debug_request)))%Z.
Proof.
  destruct (admitted_response_shows_remaining flaky_handler default_config
              (RateLimiter.init_state 0) debug_request 0 1 1
              {| RateLimitMiddleware.limit_rpm := 10;
                 RateLimitMiddleware.limit_rph := 50;
                 RateLimitMiddleware.remaining_minute := 10;
                 RateLimitMiddleware.remaining_hour := 50 |})
    as (Hmin & _ & Hone & _); [vm_compute; reflexivity|].
  split; [exact Hone|exact Hmin].
Defined.

Lemma failing_handler_is_run_twice_witness :
  let run := RateLimitMiddleware.rate_limit_middleware flaky_handler default_config
               (RateLimiter.init_state 0) debug_request 0 0 in
  fst run = RateLimitMiddleware.Responded 1 None
  /\ snd (snd run) = 2.
Proof.
  cbv zeta.
  rewrite (failing_handler_is_run_twice flaky_handler default_config
             (RateLimiter.init_state 0) debug_request 0 0 1
             (RuntimeError (Raw (str "connection reset"))));
    [split; reflexivity|vm_compute; reflexivity|reflexivity|reflexivity].
Defined.

(** ** Authentication by API key (api/middleware/auth.py) *)

Section Authentication.
Context (sha256_hexdigest md5_hexdigest : pystr -> pystr).
Context (cfg : APIKeyAuth.Config).

(** X25.  Which keys are accepted.  A key is valid exactly when it is not
    empty and either is an entry of the key list as it stands, or has the
    digest that an entry ["sha256:<digest>"] names.  In particular an entry
    stored in hashed form is itself accepted as a key: whoever reads the key
    list can authenticate with the entry, without knowing the key it was
    made from. *)
Theorem api_key_accepted_exactly_when (key : pystr) :
  (APIKeyAuth._validate_api_key sha256_hexdigest cfg key = true
   <-> key <> []
       /\ (List.In key (APIKeyAuth.allowed_api_keys cfg)
           \/ List.In (APIKeyAuth.sha256_tag ++ sha256_hexdigest key)
                      (APIKeyAuth.allowed_api_keys cfg)))
  /\ (forall digest,
        List.In (APIKeyAuth.sha256_tag ++ digest) (APIKeyAuth.allowed_api_keys cfg) ->
        APIKeyAuth._validate_api_key sha256_hexdigest cfg
          (APIKeyAuth.sha256_tag ++ digest) = true).
Proof.
  assert (Hdirect : forall k, k <> [] -> List.In k (APIKeyAuth.allowed_api_keys cfg) ->
                              APIKeyAuth._validate_api_key sha256_hexdigest cfg k = true).
  { intros k Hne Hin. unfold APIKeyAuth._validate_api_key.
    destruct k; [contradiction|]. cbn [truthy negb].
    now rewrite (proj2 (list_contains_In _ _) Hin). }
  split.
  - split.
    + unfold APIKeyAuth._validate_api_key.
      destruct key as [|c key]; [discriminate|]. cbn [truthy negb].
      destruct (list_contains _ _) eqn:Hc.
      * intros _. split; [discriminate|]. left. now apply list_contains_In.
      * intros Hex. split; [discriminate|]. right.
        apply existsb_exists in Hex as (stored & Hin & Hs).
        apply andb_prop in Hs as [Htag Heq].
        apply startswith_split in Htag as (post & ->).
        unfold str_eqb in Heq. apply bool_decide_eq_true in Heq.
        change (skipn 7 (APIKeyAuth.sha256_tag ++ post)) with post in Heq.
        now rewrite Heq.
    + intros (Hne & [Hin|Hin]); [now apply Hdirect|].
      unfold APIKeyAuth._validate_api_key.
      destruct key as [|c key]; [contradiction|]. cbn [truthy negb].
      destruct (list_contains _ _); [reflexivity|].
      apply existsb_exists. eexists. split; [exact Hin|].
      rewrite startswith_app. cbn [andb].
      change (skipn 7 (APIKeyAuth.sha256_tag ++ ?x)) with x.
      unfold str_eqb. now apply bool_decide_eq_true.
  - intros digest Hin. apply Hdirect; [discriminate|exact Hin].
Qed.

(** X26.  A bearer header shadows the other places a key can come from.
    With authentication on and a path that is not public, a request whose
    [Authorization] header starts with ["Bearer "] is judged by the text
    after it alone: an empty text is answered 401 "key required" and an
    invalid one 401 "invalid key", whatever [X-API-Key] and the query string
    carry; a valid one is accepted and counted by the rate limiter under an
    identity made from the key, not from the address of the client. *)
Theorem bearer_header_shadows_other_keys (request : APIKeyAuth.Request) (token : pystr) :
  APIKeyAuth.auth_enabled cfg = true ->
  list_contains APIKeyAuth.public_endpoints (APIKeyAuth.path request) = false ->
  APIKeyAuth.authorization request = Some (APIKeyAuth.bearer ++ token) ->
  APIKeyAuth.authenticate_request sha256_hexdigest md5_hexdigest cfg request
  = match token with
    | [] => inl APIKeyAuth.api_key_required
    | _ =>
        if APIKeyAuth._validate_api_key sha256_hexdigest cfg token
        then inr {| APIKeyAuth.auth_method := APIKeyAuth.api_key;
                    APIKeyAuth.api_key_prefix := Some (APIKeyAuth.prefix_of token);
                    APIKeyAuth.rate_limit_key := str "api_key:" ++ md5_hexdigest token |}
        else inl APIKeyAuth.api_key_invalid
    end.
Proof.
  intros Hon Hprivate Hauth.
  assert (Hext : APIKeyAuth._extract_api_key request = Some token).
  { unfold APIKeyAuth._extract_api_key. rewrite Hauth.
    destruct (APIKeyAuth.bearer ++ token) as [|c header] eqn:E; [discriminate E|].
    rewrite <- E, startswith_app. reflexivity. }
  unfold APIKeyAuth.authenticate_request.
  rewrite Hon, Hprivate, Hext. cbn [negb].
  destruct token as [|c token]; [reflexivity|].
  destruct (APIKeyAuth._validate_api_key sha256_hexdigest cfg (c :: token));
    reflexivity.
Qed.

End Authentication.

Lemma bearer_header_shadows_other_keys_witness :
  APIKeyAuth._validate_api_key plain_digest hashed_config (str "0a1b2c") = true
  /\ APIKeyAuth.authenticate_request plain_digest plain_digest hashed_config
       shadowed_request = inl APIKeyAuth.api_key_required.
Proof.
  split; [vm_compute; reflexivity|].
  exact (bearer_header_shadows_other_keys plain_digest plain_digest hashed_config
           shadowed_request [] eq_refl eq_refl eq_refl).
Defined.

(** ** From a failing provider to the answer of the route
    (services/memory_service.py behind api/endpoints) *)

Section ProviderFailures.
Context (rt : Runtime).
Context (default_processing_time_ms : option Q).

Abbreviation the_service := (MemoryService.service rt default_processing_time_ms).

(** X27.  A failing embedder is reported by /search.  For a request
    that passes the checks of the route, when the embedder raises, the route
    answers with status 500 and the embedder's message behind the search
    prefix; the embedder was called once, with the query, and the vector
    store was not asked. *)
Theorem embedder_failure_surfaces_as_500 (request : SearchRequest.t) (w : World)
        (e : exn) :
  valid_search_request request ->
  get_embedding rt (trace w) (SearchRequest.query request) = Raise e ->
  fst (SearchEndpoint.search_memories the_service request w)
    = Raise (HTTPException 500 (SearchError (exn_str e)))
  /\ trace (snd (SearchEndpoint.search_memories the_service request w))
     = trace w ++ [EvGetEmbedding (SearchRequest.query request)].
Proof.
  intros (Hq & Hk & Hl & Hfrom & Hto) Hemb.
  unfold SearchEndpoint.search_memories, SearchEndpoint.check_date_format,
    SearchEndpoint.max_query_length.
  rewrite Hfrom, Hto.
  destruct (truthy (strip (SearchRequest.query request))) eqn:Ht.
  2:{ apply truthy_nil_iff in Ht. contradiction. }
  assert (Hk' : ((SearchRequest.top_k request <=? 0)%Z
                 || (100 <? SearchRequest.top_k request)%Z) = false).
  { apply orb_false_iff. split; [apply Z.leb_gt|apply Z.ltb_ge]; lia. }
  rewrite Hk'.
  assert (Hl' : (1000 <? len (SearchRequest.query request))%Z = false)
    by (apply Z.ltb_ge; lia).
  rewrite Hl'. cbn [negb].
  unfold MemoryService.service. cbn [svc_search_memories].
  unfold MemoryService.search_memories, try_except, reraise_http, raise, bind, ret,
    now, embedding_get_embedding.
  cbn [trace collection clock_reads issued]. rewrite Hemb.
  cbn. split; reflexivity.
Qed.

(** X28.  A failing summarizer is reported by /save, and nothing is
    stored.  For a request that passes the checks of the route, when the
    summarizer raises, the route answers with status 500 and the
    summarizer's message, behind the LLM prefix for an [LLMError] and behind
    the save prefix otherwise; the embedder and the vector store were not
    called, and the collection holds what it held. *)
Theorem summarizer_failure_surfaces_as_500 (request : SaveRequest.t) (w : World)
        (e : exn) :
  valid_save_request request ->
  process_memory rt (trace w ++ [EvUuid4 (issued w)]) (llm_request_of request)
    = Raise e ->
  fst (SaveEndpoint.save_memory the_service request w)
    = Raise (HTTPException 500
               (if is_LLMError e then LLMProcessingError (exn_str e)
                else MemorySaveError (exn_str e)))
  /\ trace (snd (SaveEndpoint.save_memory the_service request w))
     = trace w ++ [EvUuid4 (issued w); EvProcessMemory (llm_request_of request)]
  /\ collection (snd (SaveEndpoint.save_memory the_service request w)) = collection w.
Proof.
  intros (Hu & Ha & Hlu & Hla) Hllm.
  unfold SaveEndpoint.save_memory, SaveEndpoint.max_message_length.
  destruct (truthy (strip (SaveRequest.user_message request))) eqn:Htu.
  2:{ apply truthy_nil_iff in Htu. contradiction. }
  destruct (truthy (strip (SaveRequest.ai_message request))) eqn:Hta.
  2:{ apply truthy_nil_iff in Hta. contradiction. }
  assert (Hlu' : (10000 <? len (SaveRequest.user_message request))%Z = false)
    by (apply Z.ltb_ge; lia).
  assert (Hla' : (10000 <? len (SaveRequest.ai_message request))%Z = false)
    by (apply Z.ltb_ge; lia).
  rewrite Hlu', Hla'. cbn [negb].
  unfold MemoryService.service. cbn [svc_save_memory].
  unfold MemoryService.save_memory, MemoryService.save_failed,
    try_except, reraise_http, raise, bind, ret, now, uuid4, llm_process_memory.
  cbn [trace collection clock_reads issued].
  fold (llm_request_of request). rewrite Hllm.
  destruct (is_LLMError e); cbn; rewrite <- app_assoc; repeat split.
Qed.

End ProviderFailures.

Lemma embedder_failure_surfaces_as_500_witness :
  fst (SearchEndpoint.search_memories
         (MemoryService.service embedder_down_runtime None)
         (Mock.search_request (str "walk") 5 None) initial_world)
  = Raise (HTTPException 500
             (SearchError (Raw (str "embedding service unavailable")))).
Proof.
  refine (proj1 (embedder_failure_surfaces_as_500 embedder_down_runtime None
                   (Mock.search_request (str "walk") 5 None) initial_world
                   (OtherException (Raw (str "embedding service unavailable")))
                   _ eq_refl)).
  repeat split; try discriminate; try reflexivity; vm_compute; discriminate.
Defined.

Lemma summarizer_failure_surfaces_as_500_witness :
  fst (SaveEndpoint.save_memory (MemoryService.service llm_down_runtime None)
         (Mock.save_request (str "hello") (str "hi")) initial_world)
  = Raise (HTTPException 500 (LLMProcessingError (Raw (str "API key invalid")))).
Proof.
  refine (proj1 (summarizer_failure_surfaces_as_500 llm_down_runtime None
                   (Mock.save_request (str "hello") (str "hi")) initial_world
                   (LLMError (Raw (str "API key invalid"))) _ eq_refl)).
  repeat split; try discriminate; vm_compute; discriminate.
Defined.

